(** * Retail point-of-sale support: the reconciliation engine

    A shallow embedding of [reconciliation.js] (class [ReconciliationEngine])
    and of the entry-creation paths of [Code.gs] ([addSalesEntry],
    [validateSalesFormData], [saveSalesEntry]).

    Numbers.  A finite JavaScript number is a [Q]; the operations [JS.add],
    [JS.sub], [JS.mul] and [JS.div] stand for [+], [-], [*] and [/] and are
    evaluated without rounding, and [Math.sqrt] is a function of the host.
    The properties below are therefore stated through these operations, on
    the values the program stores and compares, not through closed
    formulas of exact arithmetic.  [NaN] and the absent property
    ([undefined]) are kept, because the engine's [||] defaults, its guards
    and its comparisons behave differently on them.  A division by zero
    gives [NaN] here (JavaScript gives an infinity or [NaN]). *)

From Stdlib Require Import QArith Qabs Qround Lqa ZArith Lia List Bool Ascii String.
From Stdlib Require Import Sorted.
From stdpp Require Import base option list strings pretty gmap.

Import ListNotations.
Local Open Scope Q_scope.

(** ** JavaScript values held by numeric properties *)

Inductive value : Type :=
| Undefined
| NaN
| Num (q : Q).

Definition Qlt_bool (a b : Q) : bool := negb (Qle_bool b a).

Module JS.

(** [ToBoolean]: [undefined], [NaN] and [0] are falsy. *)
Definition truthy (v : value) : bool :=
  match v with
  | Num q => negb (Qeq_bool q 0)
  | _ => false
  end.

(** [a || b] *)
Definition or (a b : value) : value := if truthy a then a else b.

Definition lift2 (f : Q -> Q -> Q) (a b : value) : value :=
  match a, b with
  | Num x, Num y => Num (f x y)
  | _, _ => NaN
  end.

Definition add : value -> value -> value := lift2 Qplus.
Definition sub : value -> value -> value := lift2 Qminus.
Definition mul : value -> value -> value := lift2 Qmult.

(** [a / b]; a zero divisor yields a non-finite result, collapsed to [NaN]. *)
Definition div (a b : value) : value :=
  match a, b with
  | Num x, Num y => if Qeq_bool y 0 then NaN else Num (x / y)
  | _, _ => NaN
  end.

(** [Math.abs] *)
Definition abs (v : value) : value :=
  match v with Num q => Num (Qabs q) | _ => NaN end.

(** [Math.pow(v, 2)] *)
Definition sq (v : value) : value :=
  match v with Num q => Num (q * q) | _ => NaN end.

(** [a < b], [a > b], [a <= b]: false as soon as one side is not a number. *)
Definition lt (a b : value) : bool :=
  match a, b with Num x, Num y => Qlt_bool x y | _, _ => false end.
Definition gt (a b : value) : bool := lt b a.
Definition le (a b : value) : bool :=
  match a, b with Num x, Num y => Qle_bool x y | _, _ => false end.

(** [a === b] *)
Definition seq (a b : value) : bool :=
  match a, b with
  | Num x, Num y => Qeq_bool x y
  | Undefined, Undefined => true
  | _, _ => false
  end.

(** [!s] on a string-valued property: absent and empty are falsy. *)
Definition truthyStr (s : option string) : bool :=
  match s with
  | Some EmptyString => false
  | Some _ => true
  | None => false
  end.

(** [`${s}`] *)
Definition show (s : option string) : string :=
  match s with Some x => x | None => "undefined"%string end.

End JS.

(** Numeric equality of values (rationals up to [==]). *)
Definition veq (a b : value) : Prop :=
  match a, b with
  | Num x, Num y => x == y
  | NaN, NaN => True
  | Undefined, Undefined => True
  | _, _ => False
  end.

Definition isNum (v : value) : Prop :=
  match v with Num _ => True | _ => False end.

(** ** Data model *)

Inductive status : Type := balanced | warning | discrepancy | critical.

Inductive severity : Type := low | medium | high.

#[global] Instance severity_eq_dec : EqDecision severity.
Proof. solve_decision. Defined.

#[global] Instance status_eq_dec : EqDecision status.
Proof. solve_decision. Defined.

(** A SalesEntry-shaped record.  A numeric property that is absent on the
    object reads as [Undefined]. *)
Record entry : Type := {
  entry_id : string;
  date : option string;
  registerNumber : option string;
  openingCash : value;
  cashSales : value;
  cardSales : value;
  returnsRefunds : value;
  cashDrops : value;
  closingCash : value;
  totalSales : value;
  expectedCash : value;
  cashDifference : value;
  entry_status : option status
}.

(** [this.reconciliationRules] *)
Record rules : Type := {
  cashDiscrepancyThreshold : Q;
  largeDiscrepancyThreshold : Q;
  maxReturnsPercentage : Q;
  minOpeningCash : Q
}.

Definition defaultRules : rules :=
  {| cashDiscrepancyThreshold := 5;
     largeDiscrepancyThreshold := 50;
     maxReturnsPercentage := 10;
     minOpeningCash := 100 |}.

Record totals : Type := {
  t_totalEntries : nat;
  t_totalSales : value;
  t_cashSales : value;
  t_cardSales : value;
  t_totalReturns : value;
  t_totalCashDrops : value;
  t_openingCash : value;
  t_closingCash : value;
  t_expectedCash : value;
  t_actualCashPosition : value;
  t_totalCashDifference : value;
  t_overallCashDifference : value
}.

Inductive issueType : Type :=
| cash_discrepancy | high_returns | low_opening_cash | zero_sales | negative_values.

#[global] Instance issueType_eq_dec : EqDecision issueType.
Proof. solve_decision. Defined.

(** [i_amount] holds the [amount] or the [percentage] property of the issue. *)
Record issue : Type := {
  i_type : issueType;
  i_severity : severity;
  i_amount : option value;
  i_description : string
}.

Record discrepancyRec : Type := {
  d_entryId : string;
  d_date : option string;
  d_registerNumber : option string;
  d_cashDifference : value;
  d_issues : list issue;
  d_overallSeverity : severity
}.

Inductive veType : Type := duplicate_entry | missing_dates | abnormal_sales.

#[global] Instance veType_eq_dec : EqDecision veType.
Proof. solve_decision. Defined.

Inductive vePayload : Type :=
| affectedEntries (first repeat : string)
| daysMissing (n : value)
| outlier (entryId : string) (on : option string).

Record validationError : Type := {
  ve_type : veType;
  ve_severity : severity;
  ve_description : string;
  ve_payload : vePayload
}.

Record summary : Type := {
  s_totalDiscrepancies : nat;
  s_highSeverityDiscrepancies : nat;
  s_totalCashVariance : value;
  s_reconciliationAccuracy : value;
  s_averageDiscrepancy : value;
  s_cashRecoveryNeeded : value
}.

Record overall : Type := {
  o_status : status;
  o_confidence : Z;
  o_totalDifference : value;
  o_recommendations : list string
}.

(** Time values are milliseconds since the epoch, the number an ISO
    timestamp string denotes. *)
Record results : Type := {
  r_timestamp : Z;
  r_totals : totals;
  r_discrepancies : list discrepancyRec;
  r_validationErrors : list validationError;
  r_summary : summary;
  r_overall : overall
}.

Record historyEntry : Type := {
  h_timestamp : Z;
  h_summary : summary;
  h_overall : overall;
  h_totalEntries : nat
}.

(** The engine object, together with the [localStorage] item it writes. *)
Record engine : Type := {
  reconciliationRules : rules;
  lastResults : option results;
  reconciliationHistory : list historyEntry;
  storedHistory : list historyEntry
}.

(** The host functions the engine calls: [Number.prototype.toFixed], the
    conversion of a number to a string in a template literal, the [Date]
    arithmetic [(new Date(b) - new Date(a)) / (1000*60*60*24)], and
    [Math.sqrt] on a number that is not negative, of which only
    [Math.sqrt(0) = 0] is used. *)
Class Host : Type := {
  toFixed : nat -> Q -> string;
  numberToString : Q -> string;
  daysBetween : option string -> option string -> value;
  sqrt : Q -> Q;
  sqrt_zero : forall q, q == 0 -> sqrt q == 0
}.

Section Engine.
Context `{Host}.

Local Open Scope string_scope.
Local Open Scope list_scope.

(** [v.toFixed(digits)]: a [TypeError] ([None]) when [v] is [undefined]. *)
Definition toFixedV (digits : nat) (v : value) : option string :=
  match v with
  | Undefined => None
  | NaN => Some "NaN"
  | Num q => Some (toFixed digits q)
  end.

(** ** calculateTotals *)

Definition totalsInit (n : nat) : totals :=
  {| t_totalEntries := n;
     t_totalSales := Num 0;
     t_cashSales := Num 0;
     t_cardSales := Num 0;
     t_totalReturns := Num 0;
     t_totalCashDrops := Num 0;
     t_openingCash := Num 0;
     t_closingCash := Num 0;
     t_expectedCash := Num 0;
     t_actualCashPosition := Num 0;
     t_totalCashDifference := Num 0;
     t_overallCashDifference := Undefined |}.

(** The body of the [forEach]. *)
Definition totalsStep (t : totals) (e : entry) : totals :=
  {| t_totalEntries := t_totalEntries t;
     t_totalSales :=
       JS.add (t_totalSales t)
              (JS.or (totalSales e) (JS.add (cashSales e) (cardSales e)));
     t_cashSales := JS.add (t_cashSales t) (JS.or (cashSales e) (Num 0));
     t_cardSales := JS.add (t_cardSales t) (JS.or (cardSales e) (Num 0));
     t_totalReturns := JS.add (t_totalReturns t) (JS.or (returnsRefunds e) (Num 0));
     t_totalCashDrops := JS.add (t_totalCashDrops t) (JS.or (cashDrops e) (Num 0));
     t_openingCash := JS.add (t_openingCash t) (JS.or (openingCash e) (Num 0));
     t_closingCash := JS.add (t_closingCash t) (JS.or (closingCash e) (Num 0));
     t_expectedCash := t_expectedCash t;
     t_actualCashPosition := t_actualCashPosition t;
     t_totalCashDifference :=
       JS.add (t_totalCashDifference t) (JS.or (cashDifference e) (Num 0));
     t_overallCashDifference := t_overallCashDifference t |}.

Definition totalsFinish (t : totals) : totals :=
  let expected :=
    JS.sub (JS.sub (JS.add (t_openingCash t) (t_cashSales t)) (t_totalReturns t))
           (t_totalCashDrops t) in
  let actual := t_closingCash t in
  {| t_totalEntries := t_totalEntries t;
     t_totalSales := t_totalSales t;
     t_cashSales := t_cashSales t;
     t_cardSales := t_cardSales t;
     t_totalReturns := t_totalReturns t;
     t_totalCashDrops := t_totalCashDrops t;
     t_openingCash := t_openingCash t;
     t_closingCash := t_closingCash t;
     t_expectedCash := expected;
     t_actualCashPosition := actual;
     t_totalCashDifference := t_totalCashDifference t;
     t_overallCashDifference := JS.sub actual expected |}.

Definition calculateTotals (salesData : list entry) : totals :=
  totalsFinish (fold_left totalsStep salesData (totalsInit (length salesData))).

(** ** findDiscrepancies *)

Definition calculateOverallSeverity (issues : list issue) : severity :=
  if existsb (fun i => bool_decide (i_severity i = high)) issues then high
  else if existsb (fun i => bool_decide (i_severity i = medium)) issues then medium
  else low.

Definition returnsPercentageOf (e : entry) : value :=
  if JS.gt (totalSales e) (Num 0)
  then JS.mul (JS.div (returnsRefunds e) (totalSales e)) (Num 100)
  else Num 0.

Definition cashCheck (R : rules) (e : entry) : option (list issue) :=
  let cashDiff := JS.abs (JS.or (cashDifference e) (Num 0)) in
  if JS.gt cashDiff (Num (cashDiscrepancyThreshold R)) then
    s ← toFixedV 2 (cashDifference e);
    Some [ {| i_type := cash_discrepancy;
              i_severity :=
                if JS.gt cashDiff (Num (largeDiscrepancyThreshold R))
                then high else medium;
              i_amount := Some (cashDifference e);
              i_description := "Cash difference of $" +:+ s |} ]
  else Some [].

Definition returnsCheck (R : rules) (e : entry) : option (list issue) :=
  let returnsPercentage := returnsPercentageOf e in
  if JS.gt returnsPercentage (Num (maxReturnsPercentage R)) then
    s ← toFixedV 1 returnsPercentage;
    Some [ {| i_type := high_returns;
              i_severity := medium;
              i_amount := Some returnsPercentage;
              i_description := "Returns are " +:+ s +:+ "% of sales" |} ]
  else Some [].

Definition openingCheck (R : rules) (e : entry) : list issue :=
  if JS.lt (openingCash e) (Num (minOpeningCash R)) then
    [ {| i_type := low_opening_cash;
         i_severity := low;
         i_amount := Some (openingCash e);
         i_description :=
           "Opening cash below minimum ($" +:+ numberToString (minOpeningCash R) +:+ ")" |} ]
  else [].

Definition zeroSalesCheck (e : entry) : list issue :=
  if JS.seq (totalSales e) (Num 0) && JS.seq (cashSales e) (Num 0)
     && JS.seq (cardSales e) (Num 0) then
    [ {| i_type := zero_sales;
         i_severity := medium;
         i_amount := None;
         i_description := "No sales recorded for this entry" |} ]
  else [].

Definition negativeCheck (e : entry) : list issue :=
  if JS.lt (cashSales e) (Num 0) || JS.lt (cardSales e) (Num 0)
     || JS.lt (closingCash e) (Num 0) then
    [ {| i_type := negative_values;
         i_severity := high;
         i_amount := None;
         i_description := "Negative values detected in sales data" |} ]
  else [].

(** The issues pushed for one entry, in the order of the source. *)
Definition entryIssues (R : rules) (e : entry) : option (list issue) :=
  c ← cashCheck R e;
  r ← returnsCheck R e;
  Some (c ++ r ++ openingCheck R e ++ zeroSalesCheck e ++ negativeCheck e).

Definition mkDiscrepancy (e : entry) (issues : list issue) : discrepancyRec :=
  {| d_entryId := entry_id e;
     d_date := date e;
     d_registerNumber := registerNumber e;
     d_cashDifference := cashDifference e;
     d_issues := issues;
     d_overallSeverity := calculateOverallSeverity issues |}.

(** The [forEach] that fills [discrepancies]; it stops with the exception of
    the first entry whose description cannot be built. *)
Fixpoint collectDiscrepancies (R : rules) (salesData : list entry)
  : option (list discrepancyRec) :=
  match salesData with
  | [] => Some []
  | e :: rest =>
      issues ← entryIssues R e;
      ds ← collectDiscrepancies R rest;
      Some (match issues with
            | [] => ds
            | _ :: _ => mkDiscrepancy e issues :: ds
            end)
  end.

Definition severityOrder (s : severity) : Z :=
  match s with high => 3 | medium => 2 | low => 1 end.

(** [Array.prototype.sort] with the comparator
    [severityOrder[b] - severityOrder[a]]; the sort is stable. *)
Fixpoint insertBySeverity (d : discrepancyRec) (l : list discrepancyRec)
  : list discrepancyRec :=
  match l with
  | [] => [d]
  | x :: l' =>
      if (severityOrder (d_overallSeverity d) <? severityOrder (d_overallSeverity x))%Z
      then x :: insertBySeverity d l'
      else d :: x :: l'
  end.

Definition sortBySeverity (l : list discrepancyRec) : list discrepancyRec :=
  foldr insertBySeverity [] l.

Definition findDiscrepancies (R : rules) (salesData : list entry)
  : option (list discrepancyRec) :=
  ds ← collectDiscrepancies R salesData;
  Some (sortBySeverity ds).

(** ** validateBusinessRules *)

(** The key of the [Map]: [`${entry.date}-${entry.registerNumber}`]. *)
Definition pairKey (e : entry) : string :=
  JS.show (date e) +:+ "-" +:+ JS.show (registerNumber e).

Definition duplicateError (first : string) (e : entry) : validationError :=
  {| ve_type := duplicate_entry;
     ve_severity := high;
     ve_description :=
       "Duplicate entry found for " +:+ JS.show (registerNumber e)
         +:+ " on " +:+ JS.show (date e);
     ve_payload := affectedEntries first (entry_id e) |}.

(** One iteration of the duplicate check: the [Map] [dateRegisterPairs] and
    the errors pushed so far. *)
Definition duplicateStep (st : gmap string string * list validationError) (e : entry)
  : gmap string string * list validationError :=
  match st.1 !! pairKey e with
  | Some first => (st.1, st.2 ++ [duplicateError first e])
  | None => (<[pairKey e := entry_id e]> st.1, st.2)
  end.

Definition duplicateErrors (salesData : list entry) : list validationError :=
  (fold_left duplicateStep salesData (∅, [])).2.

(** [[...new Set(xs)]]: the first occurrence of each value, in order. *)
Fixpoint distinct (xs : list (option string)) : list (option string) :=
  match xs with
  | [] => []
  | x :: xs' => x :: List.filter (fun y => negb (bool_decide (y = x))) (distinct xs')
  end.

(** The default sort order: strings by code unit, [undefined] last. *)
Definition dateLe (a b : option string) : bool :=
  match a, b with
  | _, None => true
  | None, Some _ => false
  | Some x, Some y => String.leb x y
  end.

Fixpoint insertDate (d : option string) (l : list (option string))
  : list (option string) :=
  match l with
  | [] => [d]
  | x :: l' => if dateLe d x then d :: l else x :: insertDate d l'
  end.

Definition sortDates (l : list (option string)) : list (option string) :=
  foldr insertDate [] l.

Definition gapError (prev cur : option string) (daysDiff : value) : validationError :=
  {| ve_type := missing_dates;
     ve_severity := medium;
     ve_description :=
       "Gap in sales data between " +:+ JS.show prev +:+ " and " +:+ JS.show cur;
     ve_payload := daysMissing (JS.sub daysDiff (Num 1)) |}.

(** The loop [for (i = 1; i < dates.length; i++)] over adjacent dates. *)
Fixpoint gapErrors (dates : list (option string)) : list validationError :=
  match dates with
  | prev :: rest =>
      match rest with
      | cur :: _ =>
          let daysDiff := daysBetween prev cur in
          (if JS.gt daysDiff (Num 1) then [gapError prev cur daysDiff] else [])
            ++ gapErrors rest
      | [] => []
      end
  | [] => []
  end.

Definition missingDateErrors (salesData : list entry) : list validationError :=
  gapErrors (sortDates (distinct (map date salesData))).

(** [salesData.slice(-7)] *)
Definition recentSalesOf (salesData : list entry) : list entry :=
  drop (length salesData - 7) salesData.

Definition lengthNum {A} (l : list A) : value :=
  Num (inject_Z (Z.of_nat (length l))).

Definition avgSalesOf (recentSales : list entry) : value :=
  JS.div (fold_left (fun sum e => JS.add sum (totalSales e)) recentSales (Num 0))
         (lengthNum recentSales).

(** The argument of [Math.sqrt] in [stdDev]: the population variance. *)
Definition varianceOf (recentSales : list entry) (avgSales : value) : value :=
  JS.div
    (fold_left (fun sum e => JS.add sum (JS.sq (JS.sub (totalSales e) avgSales)))
               recentSales (Num 0))
    (lengthNum recentSales).

(** [Math.sqrt(v)]: [NaN] on a negative number and on what is not a
    number. *)
Definition sqrtV (v : value) : value :=
  match v with
  | Num q => if Qlt_bool q 0 then NaN else Num (sqrt q)
  | _ => NaN
  end.

(** [stdDev = Math.sqrt(... / recentSales.length)] *)
Definition stdDevOf (recentSales : list entry) (avgSales : value) : value :=
  sqrtV (varianceOf recentSales avgSales).

(** [Math.abs(entry.totalSales - avgSales) > 2 * stdDev && stdDev > 0] *)
Definition exceedsTwoSigma (amount avgSales stdDev : value) : bool :=
  JS.gt (JS.abs (JS.sub amount avgSales)) (JS.mul (Num 2) stdDev)
  && JS.gt stdDev (Num 0).

Definition abnormalError (e : entry) (amount : Q) (avgSales : value) : validationError :=
  {| ve_type := abnormal_sales;
     ve_severity := medium;
     ve_description :=
       "Sales amount $" +:+ toFixed 2 amount +:+ " is unusually "
         +:+ (if JS.gt (Num amount) avgSales then "high" else "low");
     ve_payload := outlier (entry_id e) (date e) |}.

(** The body of [recentSales.forEach]; the comparison is false unless
    [entry.totalSales] is a number, so [toFixed] is only reached on one. *)
Definition abnormalCheck (avgSales stdDev : value) (e : entry) : list validationError :=
  match totalSales e with
  | Num amount =>
      if exceedsTwoSigma (Num amount) avgSales stdDev
      then [abnormalError e amount avgSales]
      else []
  | _ => []
  end.

Definition abnormalSalesErrors (salesData : list entry) : list validationError :=
  if (7 <=? length salesData)%nat then
    let recentSales := recentSalesOf salesData in
    let avgSales := avgSalesOf recentSales in
    let stdDev := stdDevOf recentSales avgSales in
    flat_map (abnormalCheck avgSales stdDev) recentSales
  else [].

Definition validateBusinessRules (salesData : list entry) : list validationError :=
  duplicateErrors salesData ++ missingDateErrors salesData
    ++ abnormalSalesErrors salesData.

(** ** calculateSummaryMetrics *)

Definition absSum (ds : list discrepancyRec) : value :=
  fold_left (fun sum d => JS.add sum (JS.abs (d_cashDifference d))) ds (Num 0).

Definition isShortfall (d : discrepancyRec) : bool :=
  JS.lt (d_cashDifference d) (Num 0).

Definition calculateSummaryMetrics (results : results) : summary :=
  let ds := r_discrepancies results in
  let totalEntries := t_totalEntries (r_totals results) in
  let balancedEntries :=
    Num (inject_Z (Z.of_nat totalEntries - Z.of_nat (length ds))) in
  {| s_totalDiscrepancies := length ds;
     s_highSeverityDiscrepancies :=
       length (List.filter (fun d => bool_decide (d_overallSeverity d = high)) ds);
     s_totalCashVariance := JS.abs (t_overallCashDifference (r_totals results));
     s_reconciliationAccuracy :=
       if (0 <? totalEntries)%nat
       then JS.mul (JS.div balancedEntries (Num (inject_Z (Z.of_nat totalEntries))))
                   (Num 100)
       else Num 100;
     s_averageDiscrepancy :=
       if (0 <? length ds)%nat then JS.div (absSum ds) (lengthNum ds) else Num 0;
     s_cashRecoveryNeeded := absSum (List.filter isShortfall ds) |}.

(** ** determineOverallStatus *)

Definition hasHighError (ves : list validationError) : bool :=
  existsb (fun e => bool_decide (ve_severity e = high)) ves.

(** The first [if]/[else if] chain: status, confidence and base message. *)
Definition statusLadder (R : rules) (results : results) (totalDifference : value)
  : status * Z * list string :=
  if (0 <? s_highSeverityDiscrepancies (r_summary results))%nat
     || hasHighError (r_validationErrors results)
  then (critical, 30%Z, ["Immediate attention required for high-severity issues"])
  else if (0 <? length (r_discrepancies results))%nat
          || (0 <? length (r_validationErrors results))%nat
  then (warning, 70%Z, ["Review and resolve flagged discrepancies"])
  else if JS.gt totalDifference (Num (cashDiscrepancyThreshold R))
  then (discrepancy, 60%Z, ["Investigate cash position difference"])
  else (balanced, 100%Z, []).

Definition recoveryMessage (cashRecoveryNeeded : value) : list string :=
  if JS.gt cashRecoveryNeeded (Num 0) then
    match cashRecoveryNeeded with
    | Num q => ["Cash recovery needed: $" +:+ toFixed 2 q]
    | _ => []
    end
  else [].

Definition determineOverallStatus (R : rules) (results : results) : overall :=
  let totalDifference := JS.abs (t_overallCashDifference (r_totals results)) in
  let '(st, confidence, base) := statusLadder R results totalDifference in
  let recs :=
    base
      ++ (if JS.lt (s_reconciliationAccuracy (r_summary results)) (Num 90)
          then ["Improve data entry procedures to increase accuracy"] else [])
      ++ recoveryMessage (s_cashRecoveryNeeded (r_summary results)) in
  {| o_status := st;
     o_confidence := confidence;
     o_totalDifference := totalDifference;
     o_recommendations :=
       match recs with
       | [] => ["All reconciliation checks passed successfully"]
       | _ :: _ => recs
       end |}.

(** ** validateSingleEntry and addSalesData *)

Record validation : Type := {
  hasErrors : bool;
  errors : list string;
  warnings : list string
}.

Definition requiredMissing (e : entry) : bool :=
  negb (JS.truthyStr (date e)) || negb (JS.truthyStr (registerNumber e)).

(** The cash branch: whether it sets [hasErrors], the error and the warning
    it pushes. *)
Definition singleCashCheck (R : rules) (e : entry)
  : option (bool * list string * list string) :=
  let cashDiff := JS.abs (JS.or (cashDifference e) (Num 0)) in
  if JS.gt cashDiff (Num (largeDiscrepancyThreshold R)) then
    s ← toFixedV 2 (cashDifference e);
    Some (true, ["Large cash discrepancy: $" +:+ s], [])
  else if JS.gt cashDiff (Num (cashDiscrepancyThreshold R)) then
    s ← toFixedV 2 (cashDifference e);
    Some (false, [], ["Cash discrepancy detected: $" +:+ s])
  else Some (false, [], []).

Definition singleReturnsCheck (R : rules) (e : entry) : option (list string) :=
  if JS.gt (totalSales e) (Num 0) then
    let returnsPercentage :=
      JS.mul (JS.div (returnsRefunds e) (totalSales e)) (Num 100) in
    if JS.gt returnsPercentage (Num (maxReturnsPercentage R)) then
      s ← toFixedV 1 returnsPercentage;
      Some ["High returns percentage: " +:+ s +:+ "%"]
    else Some []
  else Some [].

Definition validateSingleEntry (R : rules) (e : entry) : option validation :=
  cash ← singleCashCheck R e;
  ret ← singleReturnsCheck R e;
  Some {| hasErrors := requiredMissing e || cash.1.1;
          errors :=
            (if requiredMissing e then ["Date and register number are required"]
             else []) ++ cash.1.2;
          warnings :=
            cash.2 ++ ret
              ++ (if JS.lt (openingCash e) (Num (minOpeningCash R))
                  then ["Opening cash below recommended minimum"] else []) |}.

Record addResult : Type := {
  success : bool;
  a_errors : option (list string);
  a_warnings : list string
}.

Definition addSalesData (R : rules) (salesEntry : entry) : option addResult :=
  v ← validateSingleEntry R salesEntry;
  Some (if hasErrors v
        then {| success := false; a_errors := Some (errors v); a_warnings := warnings v |}
        else {| success := true; a_errors := None; a_warnings := warnings v |}).

(** ** History and the full run *)

Definition msPerDay : Z := 86400000.

(** [d = new Date(); d.setDate(d.getDate() - days)], read at time [now]
    (a calendar day counted as 24 hours). *)
Definition cutoffDate (now days : Z) : Z := (now - days * msPerDay)%Z.

Definition projection (results : results) : historyEntry :=
  {| h_timestamp := r_timestamp results;
     h_summary := r_summary results;
     h_overall := r_overall results;
     h_totalEntries := t_totalEntries (r_totals results) |}.

Definition withinCutoff (cutoff : Z) (h : historyEntry) : bool :=
  (cutoff <=? h_timestamp h)%Z.

(** [saveReconciliationHistory(results)], the clock reading [now]. *)
Definition saveReconciliationHistory (now : Z) (results : results) (eng : engine)
  : engine :=
  let pushed := reconciliationHistory eng ++ [projection results] in
  let kept := List.filter (withinCutoff (cutoffDate now 90)) pushed in
  {| reconciliationRules := reconciliationRules eng;
     lastResults := lastResults eng;
     reconciliationHistory := kept;
     storedHistory := kept |}.

(** The placeholders of the object literal, [summary: {}] and [overall: {}];
    both are overwritten before they are read. *)
Definition emptySummary : summary :=
  {| s_totalDiscrepancies := 0;
     s_highSeverityDiscrepancies := 0;
     s_totalCashVariance := Undefined;
     s_reconciliationAccuracy := Undefined;
     s_averageDiscrepancy := Undefined;
     s_cashRecoveryNeeded := Undefined |}.

Definition emptyOverall : overall :=
  {| o_status := balanced;
     o_confidence := 0;
     o_totalDifference := Undefined;
     o_recommendations := [] |}.

Definition setSummary (r : results) (s : summary) : results :=
  {| r_timestamp := r_timestamp r;
     r_totals := r_totals r;
     r_discrepancies := r_discrepancies r;
     r_validationErrors := r_validationErrors r;
     r_summary := s;
     r_overall := r_overall r |}.

Definition setOverall (r : results) (o : overall) : results :=
  {| r_timestamp := r_timestamp r;
     r_totals := r_totals r;
     r_discrepancies := r_discrepancies r;
     r_validationErrors := r_validationErrors r;
     r_summary := r_summary r;
     r_overall := o |}.

(** The results object of one run, before history is touched: [started] is
    the clock reading of [new Date().toISOString()]. *)
Definition reconcile (R : rules) (started : Z) (salesData : list entry)
  : option results :=
  ds ← findDiscrepancies R salesData;
  let r0 :=
    {| r_timestamp := started;
       r_totals := calculateTotals salesData;
       r_discrepancies := ds;
       r_validationErrors := validateBusinessRules salesData;
       r_summary := emptySummary;
       r_overall := emptyOverall |} in
  let r1 := setSummary r0 (calculateSummaryMetrics r0) in
  Some (setOverall r1 (determineOverallStatus R r1)).

(** [runFullReconciliation(salesData)]: the clock is read at [started] for
    the timestamp and at [saved] for the pruning cutoff. *)
Definition runFullReconciliation (started saved : Z) (salesData : list entry)
    (eng : engine) : option (results * engine) :=
  r ← reconcile (reconciliationRules eng) started salesData;
  let eng1 :=
    {| reconciliationRules := reconciliationRules eng;
       lastResults := Some r;
       reconciliationHistory := reconciliationHistory eng;
       storedHistory := storedHistory eng |} in
  Some (r, saveReconciliationHistory saved r eng1).

(** [updateReconciliationRules(newRules)]: [{...rules, ...newRules}]. *)
Record rulesPatch : Type := {
  p_cashDiscrepancyThreshold : option Q;
  p_largeDiscrepancyThreshold : option Q;
  p_maxReturnsPercentage : option Q;
  p_minOpeningCash : option Q
}.

Definition updateReconciliationRules (newRules : rulesPatch) (eng : engine) : engine :=
  let old := reconciliationRules eng in
  {| reconciliationRules :=
       {| cashDiscrepancyThreshold :=
            default (cashDiscrepancyThreshold old) (p_cashDiscrepancyThreshold newRules);
          largeDiscrepancyThreshold :=
            default (largeDiscrepancyThreshold old) (p_largeDiscrepancyThreshold newRules);
          maxReturnsPercentage :=
            default (maxReturnsPercentage old) (p_maxReturnsPercentage newRules);
          minOpeningCash :=
            default (minOpeningCash old) (p_minOpeningCash newRules) |};
     lastResults := lastResults eng;
     reconciliationHistory := reconciliationHistory eng;
     storedHistory := storedHistory eng |}.

(** [new ReconciliationEngine()] over the stored history. *)
Definition newEngine (stored : list historyEntry) : engine :=
  {| reconciliationRules := defaultRules;
     lastResults := None;
     reconciliationHistory := stored;
     storedHistory := stored |}.

End Engine.

(** ** Entry creation ([Code.gs]) *)

Section EntryCreation.
Context `{Host}.

Local Open Scope string_scope.
Local Open Scope list_scope.

(** [CONFIG.RECONCILIATION_RULES] of the spreadsheet backend. *)
Record config : Type := {
  CASH_DISCREPANCY_THRESHOLD : Q;
  LARGE_DISCREPANCY_THRESHOLD : Q;
  MAX_RETURNS_PERCENTAGE : Q
}.

Definition CONFIG : config :=
  {| CASH_DISCREPANCY_THRESHOLD := 5;
     LARGE_DISCREPANCY_THRESHOLD := 50;
     MAX_RETURNS_PERCENTAGE := 10 |}.

Definition expectedCashOf (data : entry) : value :=
  JS.sub (JS.sub (JS.add (openingCash data) (cashSales data)) (returnsRefunds data))
         (cashDrops data).

(** The row [addSalesEntry(salesData)] appends, under configuration [cfg]
    and with the generated [entryId]. *)
Definition addSalesEntry (cfg : config) (entryId : string) (salesData : entry) : entry :=
  let expected := expectedCashOf salesData in
  let difference := JS.sub (closingCash salesData) expected in
  let total := JS.add (cashSales salesData) (cardSales salesData) in
  let st :=
    if JS.le (JS.abs difference) (Num (CASH_DISCREPANCY_THRESHOLD cfg))
    then balanced else discrepancy in
  {| entry_id := entryId;
     date := date salesData;
     registerNumber := registerNumber salesData;
     openingCash := openingCash salesData;
     cashSales := cashSales salesData;
     cardSales := cardSales salesData;
     returnsRefunds := returnsRefunds salesData;
     cashDrops := cashDrops salesData;
     closingCash := closingCash salesData;
     totalSales := total;
     expectedCash := expected;
     cashDifference := difference;
     entry_status := Some st |}.

(** The [errors] array of [validateSalesFormData(data)]; the form is accepted
    when it is empty. *)
Definition formErrors (data : entry) : list string :=
  (if negb (JS.truthyStr (date data)) then ["Transaction date is required"] else [])
    ++ (if negb (JS.truthyStr (registerNumber data))
        then ["Register number is required"] else [])
    ++ (if JS.lt (openingCash data) (Num 0) then ["Opening cash cannot be negative"] else [])
    ++ (if JS.lt (cashSales data) (Num 0) then ["Cash sales cannot be negative"] else [])
    ++ (if JS.lt (cardSales data) (Num 0) then ["Card sales cannot be negative"] else [])
    ++ (if JS.lt (closingCash data) (Num 0) then ["Closing cash cannot be negative"] else [])
    ++ (let difference := JS.abs (JS.sub (closingCash data) (expectedCashOf data)) in
        if JS.gt difference (Num 10) then
          match difference with
          | Num q => ["Large cash discrepancy detected: $" +:+ toFixed 2 q]
          | _ => []
          end
        else []).

Definition validateSalesFormData (data : entry) : bool :=
  match formErrors data with [] => true | _ :: _ => false end.

(** The entry [saveSalesEntry(data)] stores: the derived fields are written
    onto [data]. *)
Definition withDerived (data : entry) : entry :=
  let total := JS.add (cashSales data) (cardSales data) in
  let expected := expectedCashOf data in
  let difference := JS.sub (closingCash data) expected in
  {| entry_id := entry_id data;
     date := date data;
     registerNumber := registerNumber data;
     openingCash := openingCash data;
     cashSales := cashSales data;
     cardSales := cardSales data;
     returnsRefunds := returnsRefunds data;
     cashDrops := cashDrops data;
     closingCash := closingCash data;
     totalSales := total;
     expectedCash := expected;
     cashDifference := difference;
     entry_status :=
       Some (if JS.le (JS.abs difference) (Num 5) then balanced else discrepancy) |}.

(** The application object: [this.salesData] and [this.reconciliation]. *)
Record app : Type := {
  salesData : list entry;
  reconciliation : option engine
}.

(** [saveSalesEntry(data)]: push the completed entry, then hand it to the
    engine's [addSalesData], whose result is dropped. *)
Definition saveSalesEntry (data : entry) (a : app) : option app :=
  let stored := withDerived data in
  let a' := {| salesData := salesData a ++ [stored];
               reconciliation := reconciliation a |} in
  match reconciliation a with
  | Some eng => _ ← addSalesData (reconciliationRules eng) stored; Some a'
  | None => Some a'
  end.

End EntryCreation.

(** ** A reference host

    Decimal printing with [digits] fractional digits (rounding half away
    from zero) and day differences between ISO calendar dates
    [YYYY-MM-DD]; any other date string is an invalid [Date]. *)

Module RefHost.

Local Open Scope Z_scope.

Definition digitOf (a : ascii) : option Z :=
  let n := Z.of_N (N_of_ascii a) - 48 in
  if (0 <=? n) && (n <=? 9) then Some n else None.

Fixpoint digitsValue (acc : Z) (l : list ascii) : option Z :=
  match l with
  | [] => Some acc
  | a :: l' => d ← digitOf a; digitsValue (10 * acc + d) l'
  end.

(** Days since 1970-01-01 of a proleptic Gregorian date. *)
Definition daysFromCivil (y m d : Z) : Z :=
  let y' := if m <=? 2 then y - 1 else y in
  let era := y' / 400 in
  let yoe := y' - era * 400 in
  let mp := if 2 <? m then m - 3 else m + 9 in
  let doy := (153 * mp + 2) / 5 + d - 1 in
  let doe := yoe * 365 + yoe / 4 - yoe / 100 + doy in
  era * 146097 + doe - 719468.

Definition isoDay (s : string) : option Z :=
  match list_ascii_of_string s with
  | [y1; y2; y3; y4; sep1; m1; m2; sep2; d1; d2] =>
      if bool_decide (sep1 = "-"%char) && bool_decide (sep2 = "-"%char) then
        y ← digitsValue 0 [y1; y2; y3; y4];
        m ← digitsValue 0 [m1; m2];
        d ← digitsValue 0 [d1; d2];
        if (1 <=? m) && (m <=? 12) && (1 <=? d) && (d <=? 31)
        then Some (daysFromCivil y m d) else None
      else None
  | _ => None
  end.

Definition dayDifference (prev cur : option string) : value :=
  match prev ≫= isoDay, cur ≫= isoDay with
  | Some a, Some b => Num (inject_Z (b - a))
  | _, _ => NaN
  end.

Fixpoint padLeft (n : nat) (s : string) : string :=
  match n with
  | O => s
  | S n' => if (String.length s <? S n')%nat
            then padLeft n' (String "0"%char s) else s
  end.

Definition fixedDecimal (digits : nat) (q : Q) : string :=
  let scale := 10 ^ Z.of_nat digits in
  let scaled := (Qabs q * inject_Z scale)%Q in
  let n := Qfloor (scaled + (1 # 2))%Q in
  let sign := if Qlt_bool q 0 then "-"%string else ""%string in
  let whole := pretty (n / scale) in
  match digits with
  | O => sign +:+ whole
  | _ => sign +:+ whole +:+ "." +:+ padLeft digits (pretty (n mod scale))
  end.

Definition decimalString (q : Q) : string :=
  let r := Qred q in
  if bool_decide (Qden r = 1%positive) then pretty (Qnum r) else fixedDecimal 2 q.

(** The square root to twelve decimal places, rounded down; it is exact on
    the squares of such decimals. *)
Definition squareRoot (q : Q) : Q :=
  let scale := 1000000000000%positive in
  Z.sqrt (Qnum q * Z.pos (Qden q) * Z.pos scale * Z.pos scale) # (Qden q * scale).

Lemma squareRoot_zero (q : Q) : (q == 0)%Q -> (squareRoot q == 0)%Q.
Proof.
  unfold Qeq, squareRoot. simpl. intros E.
  assert (E0 : Qnum q = 0) by lia. rewrite E0. reflexivity.
Qed.

#[export] Instance host : Host :=
  {| toFixed := fixedDecimal;
     numberToString := decimalString;
     daysBetween := dayDifference;
     sqrt := squareRoot;
     sqrt_zero := squareRoot_zero |}.

End RefHost.

Import RefHost.

(** ** Statements of the specification

    Predicates and second definitions that follow the words of the
    specification; the properties below compare them with the code. *)

(** [status == 'balanced'] exactly when [|cashDifference| <= threshold]. *)
Definition statusAgrees (threshold : Q) (e : entry) : Prop :=
  entry_status e = Some balanced
  <-> JS.le (JS.abs (cashDifference e)) (Num threshold) = true.

(** The derived fields of [e] are those of the raw fields of [data], its
    status being relative to [threshold]. *)
Definition derivedFrom (threshold : Q) (data e : entry) : Prop :=
  expectedCash e
  = JS.sub (JS.sub (JS.add (openingCash data) (cashSales data))
                   (returnsRefunds data)) (cashDrops data)
  /\ cashDifference e = JS.sub (closingCash data) (expectedCash e)
  /\ totalSales e = JS.add (cashSales data) (cardSales data)
  /\ statusAgrees threshold e
  /\ (entry_status e = Some balanced \/ entry_status e = Some discrepancy).

Definition rawFields (data : entry) (o c k rr cd cl : Q) : Prop :=
  openingCash data = Num o /\ cashSales data = Num c /\ cardSales data = Num k
  /\ returnsRefunds data = Num rr /\ cashDrops data = Num cd
  /\ closingCash data = Num cl.

(** The results object on which [determineOverallStatus] is called: its
    summary is the one [calculateSummaryMetrics] computed from it. *)
Definition summarised (r : results) : results :=
  setSummary r (calculateSummaryMetrics r).

(** The recovery amount in the words of the specification: the sum of
    [|cashDifference|] over the discrepancies whose [cashDifference] is
    negative. *)
Fixpoint shortfallTotal (ds : list discrepancyRec) : Q :=
  match ds with
  | [] => 0
  | d :: ds' =>
      match d_cashDifference d with
      | Num q => if Qlt_bool q 0 then Qabs q + shortfallTotal ds'
                 else shortfallTotal ds'
      | _ => shortfallTotal ds'
      end
  end.

Definition errorsOfType (t : veType) (ves : list validationError)
  : list validationError :=
  List.filter (fun ve => bool_decide (ve_type ve = t)) ves.

(** *** The statistics of the window

    Mean and population variance of the window's [totalSales]. *)






(** *** Groups of entries sharing a (date, registerNumber) pair *)

Definition samePairb (a b : entry) : bool :=
  bool_decide (date a = date b)
  && bool_decide (registerNumber a = registerNumber b).

Definition groupOf (e : entry) (data : list entry) : list entry :=
  List.filter (samePairb e) data.

(** The description of the [duplicate_entry] errors of the group of [e]. *)
Definition duplicateDescription (e : entry) : string :=
  ve_description (duplicateError ""%string e).

Definition namesGroupOf (e : entry) (ve : validationError) : bool :=
  bool_decide (ve_description ve = duplicateDescription e).

(** The identifying fields as the data model has them: a calendar date at
    day granularity, [YYYY-MM-DD], and a register number. *)
Definition wellKeyed (e : entry) : Prop :=
  (exists d, date e = Some d /\ String.length d = 10%nat)
  /\ is_Some (registerNumber e).

(** The duplicate check as a recursion over the remaining entries, the
    [Map] being the accumulator. *)
Fixpoint duplicatesFrom (seen : gmap string string) (data : list entry)
  : list validationError :=
  match data with
  | [] => []
  | e :: rest =>
      match seen !! pairKey e with
      | Some first => duplicateError first e :: duplicatesFrom seen rest
      | None => duplicatesFrom (<[pairKey e := entry_id e]> seen) rest
      end
  end.

(** *** Entries with and without [totalSales] *)

(** An entry as it reaches the engine without its [totalSales] property,
    and the same entry with [totalSales = cashSales + cardSales] filled
    in. *)
Definition setTotalSales (v : value) (e : entry) : entry :=
  {| entry_id := entry_id e; date := date e; registerNumber := registerNumber e;
     openingCash := openingCash e; cashSales := cashSales e;
     cardSales := cardSales e; returnsRefunds := returnsRefunds e;
     cashDrops := cashDrops e; closingCash := closingCash e;
     totalSales := v; expectedCash := expectedCash e;
     cashDifference := cashDifference e; entry_status := entry_status e |}.

Definition omitTotalSales (e : entry) : entry := setTotalSales Undefined e.

Definition fillTotalSales (e : entry) : entry :=
  match totalSales e with
  | Undefined => setTotalSales (JS.add (cashSales e) (cardSales e)) e
  | _ => e
  end.

(** An entry as it reaches the engine without its [cashDifference]
    property. *)
Definition omitCashDifference (e : entry) : entry :=
  {| entry_id := entry_id e; date := date e; registerNumber := registerNumber e;
     openingCash := openingCash e; cashSales := cashSales e;
     cardSales := cardSales e; returnsRefunds := returnsRefunds e;
     cashDrops := cashDrops e; closingCash := closingCash e;
     totalSales := totalSales e; expectedCash := expectedCash e;
     cashDifference := Undefined; entry_status := entry_status e |}.

(** ** Sample data (the scenarios of the specification) *)

Definition mkEntry (i d r : string) (o c k rr cd cl : Q) : entry :=
  {| entry_id := i; date := Some d; registerNumber := Some r;
     openingCash := Num o; cashSales := Num c; cardSales := Num k;
     returnsRefunds := Num rr; cashDrops := Num cd; closingCash := Num cl;
     totalSales := Undefined; expectedCash := Undefined;
     cashDifference := Undefined; entry_status := None |}.

Definition scenarioA : entry :=
  mkEntry "1" "2024-01-01" "REG001" 200 150 300 10 100 240.

Definition scenarioB : entry :=
  mkEntry "2" "2024-01-01" "REG001" 200 150 300 10 100 180.

(** An entry that balances although its returns are negative. *)
Definition negativeReturns : entry :=
  withDerived (mkEntry "1" "2024-01-01" "REG001" 200 150 300 (-10) 100 260).

(** An entry that balances although its cash drops are negative. *)
Definition negativeDrops : entry :=
  withDerived (mkEntry "1" "2024-01-01" "REG001" 200 150 300 10 (-100) 440).

(** An entry with negative card sales. *)
Definition negativeCardSales : entry :=
  withDerived (mkEntry "1" "2024-01-01" "REG001" 200 150 (-300) 10 100 240).

(** One balanced day of register REG001. *)
Definition dayEntry (i d : string) (cash card : Q) : entry :=
  withDerived (mkEntry i d "REG001" 200 cash card 0 0 (200 + cash)).

(** Six days with sales of 100, and a seventh day with sales of 1000. *)
Definition quietWeek : list entry :=
  [ dayEntry "1" "2024-01-01" 100 0; dayEntry "2" "2024-01-02" 100 0;
    dayEntry "3" "2024-01-03" 100 0; dayEntry "4" "2024-01-04" 100 0;
    dayEntry "5" "2024-01-05" 100 0; dayEntry "6" "2024-01-06" 100 0 ].

Definition peakDay : entry := dayEntry "7" "2024-01-07" 100 900.

(** A day without any sale. *)
Definition idleDay : entry := dayEntry "1" "2024-01-01" 0 0.

(** A day whose returns are half of its sales. *)
Definition returnsDay : entry :=
  withDerived (mkEntry "1" "2024-01-01" "REG001" 200 100 0 50 0 250).

(** The engine threshold raised to 10 by [updateReconciliationRules]. *)
Definition engineAt10 : engine :=
  updateReconciliationRules
    {| p_cashDiscrepancyThreshold := Some 10;
       p_largeDiscrepancyThreshold := None;
       p_maxReturnsPercentage := None;
       p_minOpeningCash := None |}
    (newEngine []).

(** Sample results objects: discrepancies, validation errors and an overall
    cash difference. *)
Definition sampleTotals (n : nat) (difference : value) : totals :=
  {| t_totalEntries := n; t_totalSales := Num 0; t_cashSales := Num 0;
     t_cardSales := Num 0; t_totalReturns := Num 0; t_totalCashDrops := Num 0;
     t_openingCash := Num 0; t_closingCash := Num 0; t_expectedCash := Num 0;
     t_actualCashPosition := Num 0; t_totalCashDifference := difference;
     t_overallCashDifference := difference |}.

Definition sampleResults (n : nat) (ds : list discrepancyRec)
    (ves : list validationError) (difference : value) : results :=
  {| r_timestamp := 0;
     r_totals := sampleTotals n difference;
     r_discrepancies := ds;
     r_validationErrors := ves;
     r_summary := emptySummary;
     r_overall := emptyOverall |}.

Definition sampleDiscrepancy (i : string) (difference : value) (s : severity)
  : discrepancyRec :=
  {| d_entryId := i; d_date := Some "2024-01-01"%string;
     d_registerNumber := Some "REG001"%string;
     d_cashDifference := difference; d_issues := []; d_overallSeverity := s |}.

Definition sampleGap : validationError :=
  {| ve_type := missing_dates; ve_severity := medium;
     ve_description := "Gap in sales data between 2024-01-01 and 2024-01-04"%string;
     ve_payload := daysMissing (Num 2) |}.

(** ** Further functions of the engine: trends, reports, action items *)

(** The host's renderings of dates: a time value as an ISO calendar date,
    [new Date(t).toISOString().split('T')[0]], and a date string in the
    user's locale, [new Date(s).toLocaleDateString()]. *)
Class DateHost : Type := {
  isoDate : Z -> string;
  formatDate : option string -> string
}.

(** A point of a trend series. *)
Record point (A : Type) : Type := {
  p_date : string;
  p_value : A
}.

Arguments p_date {A} _.
Arguments p_value {A} _.

Record trends : Type := {
  accuracyTrend : list (point value);
  discrepancyTrend : list (point nat);
  cashVarianceTrend : list (point value);
  period : Z
}.

Inductive priority : Type := lowPriority | mediumPriority | highPriority.

#[global] Instance priority_eq_dec : EqDecision priority.
Proof. solve_decision. Defined.

Record actionItem : Type := {
  ai_priority : priority;
  ai_action : string;
  ai_description : string;
  ai_assignee : string;
  ai_dueDate : string
}.

(** [{ from, to }] of a report: [None] stands for the two [null]s of an
    empty collection. *)
Record report : Type := {
  rep_title : string;
  rep_generatedAt : Z;
  rep_period : option (option string * option string);
  rep_totalEntries : nat;
  rep_overallStatus : status;
  rep_confidence : Z;
  rep_totalSales : value;
  rep_totalDiscrepancies : nat;
  rep_reconciliationAccuracy : value;
  rep_cashVariance : value;
  rep_detailed_findings
    : option (list discrepancyRec * list validationError * totals);
  rep_recommendations : list string;
  rep_action_items : list actionItem
}.

(** A stable sort in descending rank: [Array.prototype.sort] with the
    comparator [rank[b] - rank[a]]. *)
Fixpoint insertByRank {A} (rank : A -> Z) (x : A) (l : list A) : list A :=
  match l with
  | [] => [x]
  | y :: l' =>
      if (rank x <? rank y)%Z then y :: insertByRank rank x l' else x :: y :: l'
  end.

Definition sortByRank {A} (rank : A -> Z) (l : list A) : list A :=
  foldr (insertByRank rank) [] l.

Section EngineQueries.
Context `{Host} `{DateHost}.

Local Open Scope string_scope.
Local Open Scope list_scope.

(** The greatest time value of a [Date], 100,000,000 days from the epoch;
    a date set beyond it is an Invalid Date. *)
Definition maxTime : Z := 8640000000000000.

(** [d = new Date(); d.setDate(d.getDate() - days)] for a whole number of
    [days], read at time [now]: [None] is an Invalid Date. *)
Definition trendCutoff (now days : Z) : option Z :=
  let t := cutoffDate now days in
  if ((- maxTime <=? t) && (t <=? maxTime))%Z then Some t else None.

(** [getReconciliationTrends(days)], the clock reading [now].  The
    comparison [new Date(result.timestamp) >= cutoffDate] is false for
    every element when the cutoff is an Invalid Date. *)
Definition getReconciliationTrends (now days : Z) (eng : engine) : trends :=
  let recentHistory :=
    match trendCutoff now days with
    | Some cutoff => List.filter (withinCutoff cutoff) (reconciliationHistory eng)
    | None => []
    end in
  {| accuracyTrend :=
       map (fun h => {| p_date := isoDate (h_timestamp h);
                        p_value := s_reconciliationAccuracy (h_summary h) |})
           recentHistory;
     discrepancyTrend :=
       map (fun h => {| p_date := isoDate (h_timestamp h);
                        p_value := s_totalDiscrepancies (h_summary h) |})
           recentHistory;
     cashVarianceTrend :=
       map (fun h => {| p_date := isoDate (h_timestamp h);
                        p_value := s_totalCashVariance (h_summary h) |})
           recentHistory;
     period := days |}.

(** [getLatestResults()] and [getReconciliationRules()] *)
Definition getLatestResults (eng : engine) : option results := lastResults eng.

Definition getReconciliationRules (eng : engine) : rules :=
  {| cashDiscrepancyThreshold := cashDiscrepancyThreshold (reconciliationRules eng);
     largeDiscrepancyThreshold := largeDiscrepancyThreshold (reconciliationRules eng);
     maxReturnsPercentage := maxReturnsPercentage (reconciliationRules eng);
     minOpeningCash := minOpeningCash (reconciliationRules eng) |}.

(** [addDays(date, days)], a day counted as 24 hours as in [cutoffDate]. *)
Definition addDays (date days : Z) : string := isoDate (date + days * msPerDay).

(** [getReportPeriod(salesData)]: the dates in the default sort order. *)
Definition getReportPeriod (salesData : list entry)
  : option (option string * option string) :=
  match sortDates (map date salesData) with
  | [] => None
  | first :: rest => Some (first, List.last rest first)
  end.

Definition priorityOrder (p : priority) : Z :=
  match p with highPriority => 3 | mediumPriority => 2 | lowPriority => 1 end.

(** The item pushed for one high-severity discrepancy; [toFixed] raises a
    [TypeError] when the record has no [cashDifference]. *)
Definition highItem (now : Z) (d : discrepancyRec) : option actionItem :=
  s ← toFixedV 2 (d_cashDifference d);
  Some {| ai_priority := highPriority;
          ai_action :=
            "Investigate " +:+ JS.show (d_registerNumber d) +:+ " on "
              +:+ JS.show (d_date d);
          ai_description := "Cash difference: $" +:+ s;
          ai_assignee := "Store Manager";
          ai_dueDate := addDays now 1 |}.

Definition mediumItems (now : Z) (accuracy : value) : list actionItem :=
  if JS.lt accuracy (Num 95) then
    match accuracy with
    | Num q =>
        [ {| ai_priority := mediumPriority;
             ai_action := "Review data entry procedures";
             ai_description := "Current accuracy: " +:+ toFixed 1 q +:+ "%";
             ai_assignee := "POS Admin";
             ai_dueDate := addDays now 7 |} ]
    | _ => []
    end
  else [].

Definition lowItems (now : Z) (ves : list validationError) : list actionItem :=
  if existsb (fun e => bool_decide (ve_type e = missing_dates)) ves then
    [ {| ai_priority := lowPriority;
         ai_action := "Complete missing sales data";
         ai_description := "Gaps in daily sales records detected";
         ai_assignee := "Merchandiser";
         ai_dueDate := addDays now 14 |} ]
  else [].

(** [generateActionItems(results)], the clock reading [now]. *)
Definition generateActionItems (now : Z) (results : results)
  : option (list actionItem) :=
  highs ← mapM (highItem now)
             (List.filter (fun d => bool_decide (d_overallSeverity d = high))
                          (r_discrepancies results));
  Some (sortByRank (fun a => priorityOrder (ai_priority a))
          (highs
             ++ mediumItems now (s_reconciliationAccuracy (r_summary results))
             ++ lowItems now (r_validationErrors results))).

(** The report format: ['detailed'] or anything else. *)
Definition isDetailed (format : string) : bool := bool_decide (format = "detailed").

(** [generateReconciliationReport(salesData, format)].  The outer [None] is
    an exception of the run, which leaves the engine as it was; the inner
    [None] is an exception raised while the report is built, after the run
    has been stored. *)
Definition generateReconciliationReport (started saved now : Z)
    (salesData : list entry) (format : string) (eng : engine)
  : option (option report * engine) :=
  run ← runFullReconciliation started saved salesData eng;
  let r := run.1 in
  Some (items ← generateActionItems now r;
        Some {| rep_title := "Sales & Cash Reconciliation Report";
                rep_generatedAt := now;
                rep_period := getReportPeriod salesData;
                rep_totalEntries := length salesData;
                rep_overallStatus := o_status (r_overall r);
                rep_confidence := o_confidence (r_overall r);
                rep_totalSales := t_totalSales (r_totals r);
                rep_totalDiscrepancies := s_totalDiscrepancies (r_summary r);
                rep_reconciliationAccuracy :=
                  s_reconciliationAccuracy (r_summary r);
                rep_cashVariance := s_totalCashVariance (r_summary r);
                rep_detailed_findings :=
                  if isDetailed format
                  then Some (r_discrepancies r, r_validationErrors r, r_totals r)
                  else None;
                rep_recommendations := o_recommendations (r_overall r);
                rep_action_items := items |},
        run.2).

End EngineQueries.

(** ** Further functions of [Code.gs]: the spreadsheet backend *)

Record backendDiscrepancy : Type := {
  bd_entryId : string;
  bd_date : option string;
  bd_registerNumber : option string;
  bd_cashDifference : value
}.

Record backendResults : Type := {
  br_date : Z;
  br_totalEntries : nat;
  br_totalSales : value;
  br_cashSales : value;
  br_cardSales : value;
  br_totalDiscrepancies : nat;
  br_largeDiscrepancies : nat;
  br_totalCashDifference : value;
  br_discrepancies : list backendDiscrepancy;
  br_reconciliationAccuracy : value;
  br_status : status
}.

Section Backend.

Local Open Scope list_scope.

Definition backendInit (now : Z) (n : nat) : backendResults :=
  {| br_date := now;
     br_totalEntries := n;
     br_totalSales := Num 0;
     br_cashSales := Num 0;
     br_cardSales := Num 0;
     br_totalDiscrepancies := 0;
     br_largeDiscrepancies := 0;
     br_totalCashDifference := Num 0;
     br_discrepancies := [];
     br_reconciliationAccuracy := Undefined;
     br_status := balanced |}.

Definition backendExceeds (threshold : Q) (e : entry) : bool :=
  JS.gt (JS.abs (JS.or (cashDifference e) (Num 0))) (Num threshold).

Definition backendRecord (e : entry) : backendDiscrepancy :=
  {| bd_entryId := entry_id e;
     bd_date := date e;
     bd_registerNumber := registerNumber e;
     bd_cashDifference := cashDifference e |}.

(** The body of the [forEach] of [calculateReconciliation]; a row object is
    read through the entry record (['Cash Difference'] is
    [cashDifference], and so on). *)
Definition backendStep (cfg : config) (res : backendResults) (e : entry)
  : backendResults :=
  let exceeds := backendExceeds (CASH_DISCREPANCY_THRESHOLD cfg) e in
  let large := backendExceeds (LARGE_DISCREPANCY_THRESHOLD cfg) e in
  {| br_date := br_date res;
     br_totalEntries := br_totalEntries res;
     br_totalSales := JS.add (br_totalSales res) (JS.or (totalSales e) (Num 0));
     br_cashSales := JS.add (br_cashSales res) (JS.or (cashSales e) (Num 0));
     br_cardSales := JS.add (br_cardSales res) (JS.or (cardSales e) (Num 0));
     br_totalDiscrepancies :=
       if exceeds then S (br_totalDiscrepancies res) else br_totalDiscrepancies res;
     br_largeDiscrepancies :=
       if exceeds && large then S (br_largeDiscrepancies res)
       else br_largeDiscrepancies res;
     br_totalCashDifference :=
       JS.add (br_totalCashDifference res) (JS.or (cashDifference e) (Num 0));
     br_discrepancies :=
       if exceeds then br_discrepancies res ++ [backendRecord e]
       else br_discrepancies res;
     br_reconciliationAccuracy := br_reconciliationAccuracy res;
     br_status := br_status res |}.

Definition backendFinish (res : backendResults) : backendResults :=
  {| br_date := br_date res;
     br_totalEntries := br_totalEntries res;
     br_totalSales := br_totalSales res;
     br_cashSales := br_cashSales res;
     br_cardSales := br_cardSales res;
     br_totalDiscrepancies := br_totalDiscrepancies res;
     br_largeDiscrepancies := br_largeDiscrepancies res;
     br_totalCashDifference := br_totalCashDifference res;
     br_discrepancies := br_discrepancies res;
     br_reconciliationAccuracy :=
       if (0 <? br_totalEntries res)%nat
       then JS.mul
              (JS.div (Num (inject_Z (Z.of_nat (br_totalEntries res)
                                      - Z.of_nat (br_totalDiscrepancies res))))
                      (Num (inject_Z (Z.of_nat (br_totalEntries res)))))
              (Num 100)
       else Num 100;
     br_status :=
       if (0 <? br_largeDiscrepancies res)%nat then critical
       else if (0 <? br_totalDiscrepancies res)%nat then warning
       else balanced |}.

(** [calculateReconciliation(salesData)] under configuration [cfg], the
    clock reading [now]. *)
Definition calculateReconciliation (cfg : config) (now : Z) (salesData : list entry)
  : backendResults :=
  backendFinish (fold_left (backendStep cfg) salesData
                           (backendInit now (length salesData))).

(** [updateCalculatedFields(sheet, range)] on the cells [rowData] of sheet
    row [row], for amount cells that hold a number or are blank; a blank
    cell is falsy and reads as [Undefined].  A cell that holds text is
    outside this definition. *)
Definition updateCalculatedFields (cfg : config) (row : Z) (rowData : entry) : entry :=
  if (row =? 1)%Z then rowData
  else
    let opening := JS.or (openingCash rowData) (Num 0) in
    let cash := JS.or (cashSales rowData) (Num 0) in
    let returns := JS.or (returnsRefunds rowData) (Num 0) in
    let drops := JS.or (cashDrops rowData) (Num 0) in
    let closing := JS.or (closingCash rowData) (Num 0) in
    let expected := JS.sub (JS.sub (JS.add opening cash) returns) drops in
    let difference := JS.sub closing expected in
    let total := JS.add cash (JS.or (cardSales rowData) (Num 0)) in
    {| entry_id := entry_id rowData;
       date := date rowData;
       registerNumber := registerNumber rowData;
       openingCash := openingCash rowData;
       cashSales := cashSales rowData;
       cardSales := cardSales rowData;
       returnsRefunds := returnsRefunds rowData;
       cashDrops := cashDrops rowData;
       closingCash := closingCash rowData;
       totalSales := total;
       expectedCash := expected;
       cashDifference := difference;
       entry_status :=
         Some (if JS.le (JS.abs difference) (Num (CASH_DISCREPANCY_THRESHOLD cfg))
               then balanced else discrepancy) |}.

(** [getSettings(settingsSheet)]: the rows below the header, as the own
    properties of an object from the first cell to the second.  Assigning
    a string to [__proto__] creates no property. *)
Definition settingsStep (settings : gmap string string) (row : string * string)
  : gmap string string :=
  if bool_decide (row.1 = "__proto__"%string) then settings
  else <[row.1 := row.2]> settings.

Definition getSettings (data : list (string * string)) : gmap string string :=
  fold_left settingsStep (tail data) ∅.

End Backend.

(** ** Further functions of [Code.gs]: the browser application *)

Record reportSummary : Type := {
  rs_totalEntries : nat;
  rs_totalSales : value;
  rs_totalCashSales : value;
  rs_totalCardSales : value;
  rs_totalDiscrepancies : nat;
  rs_avgDiscrepancy : value
}.

Record reportData : Type := {
  rd_type : string;
  rd_from : string;
  rd_to : string;
  rd_summary : reportSummary;
  rd_entries : list entry;
  rd_generatedAt : Z
}.

Record flaggedLine : Type := {
  fl_registerNumber : string;
  fl_date : string;
  fl_cashDifference : string;
  fl_expected : string;
  fl_actual : string
}.

Section Application.
Context `{Host} `{DateHost}.

Local Open Scope list_scope.

(** [collectSalesFormData()]: the identifier, the two text inputs and the
    six numbers [parseFloat(...) || 0]. *)
Definition collectSalesFormData (i d r : string) (o c k rr cd cl : value) : entry :=
  {| entry_id := i;
     date := Some d;
     registerNumber := Some r;
     openingCash := JS.or o (Num 0);
     cashSales := JS.or c (Num 0);
     cardSales := JS.or k (Num 0);
     returnsRefunds := JS.or rr (Num 0);
     cashDrops := JS.or cd (Num 0);
     closingCash := JS.or cl (Num 0);
     totalSales := Undefined;
     expectedCash := Undefined;
     cashDifference := Undefined;
     entry_status := None |}.

(** [handleSalesFormSubmission()] on the collected [formData]. *)
Definition handleSalesFormSubmission (formData : entry) (a : app) : option app :=
  if validateSalesFormData formData then saveSalesEntry formData a else Some a.

(** [deleteEntry(entryId, confirm)]; [answer] is what [window.confirm]
    returns when it is asked. *)
Definition deleteEntry (entryId : string) (confirm answer : bool) (a : app) : app :=
  if confirm && negb answer then a
  else {| salesData :=
            List.filter (fun e => negb (bool_decide (entry_id e = entryId)))
                        (salesData a);
          reconciliation := reconciliation a |}.

(** [editEntry(entryId)]: the entry loaded into the form, if any, and the
    application after the original has been removed. *)
Definition editEntry (entryId : string) (a : app) : option entry * app :=
  match List.find (fun e => bool_decide (entry_id e = entryId)) (salesData a) with
  | Some e => (Some e, deleteEntry entryId false false a)
  | None => (None, a)
  end.

Definition isFlagged (e : entry) : bool :=
  JS.gt (JS.abs (cashDifference e)) (Num 5).

Definition flaggedLineOf (e : entry) : option flaggedLine :=
  difference ← toFixedV 2 (cashDifference e);
  expected ← toFixedV 2 (expectedCash e);
  actual ← toFixedV 2 (closingCash e);
  Some {| fl_registerNumber := JS.show (registerNumber e);
          fl_date := formatDate (date e);
          fl_cashDifference := difference;
          fl_expected := expected;
          fl_actual := actual |}.

(** [flagDiscrepancies()]: the lines shown, none when nothing is flagged. *)
Definition flagDiscrepancies (a : app) : option (list flaggedLine) :=
  mapM flaggedLineOf (List.filter isFlagged (salesData a)).

(** [a >= b] and [a <= b] on a date property and a string. *)
Definition dateGe (a : option string) (b : string) : bool :=
  match a with Some x => String.leb b x | None => false end.

Definition dateLeStr (a : option string) (b : string) : bool :=
  match a with Some x => String.leb x b | None => false end.

Definition orToday (d : option string) (today : string) : string :=
  if JS.truthyStr d then default today d else today.

(** [generateReportData(type, dateFrom, dateTo)]; [today] is the ISO date
    of the clock reading [now]. *)
Definition generateReportData (now : Z) (type : string) (dateFrom dateTo : option string)
    (a : app) : reportData :=
  let today := isoDate now in
  let fromDate := orToday dateFrom today in
  let toDate := orToday dateTo today in
  let filteredData :=
    List.filter (fun e => dateGe (date e) fromDate && dateLeStr (date e) toDate)
                (salesData a) in
  {| rd_type := type;
     rd_from := fromDate;
     rd_to := toDate;
     rd_summary :=
       {| rs_totalEntries := length filteredData;
          rs_totalSales :=
            fold_left (fun sum e => JS.add sum (totalSales e)) filteredData (Num 0);
          rs_totalCashSales :=
            fold_left (fun sum e => JS.add sum (cashSales e)) filteredData (Num 0);
          rs_totalCardSales :=
            fold_left (fun sum e => JS.add sum (cardSales e)) filteredData (Num 0);
          rs_totalDiscrepancies := length (List.filter isFlagged filteredData);
          rs_avgDiscrepancy :=
            if (0 <? length filteredData)%nat
            then JS.div (fold_left (fun sum e => JS.add sum (JS.abs (cashDifference e)))
                                   filteredData (Num 0))
                        (lengthNum filteredData)
            else Num 0 |};
     rd_entries := filteredData;
     rd_generatedAt := now |}.

End Application.

(** ** A reference host for dates

    Time values as UTC; the locale form of a date is [M/D/YYYY]. *)

Module RefDateHost.

Local Open Scope Z_scope.

(** The proleptic Gregorian date of a day number (days since
    1970-01-01). *)
Definition civilFromDays (z : Z) : Z * Z * Z :=
  let z' := z + 719468 in
  let era := z' / 146097 in
  let doe := z' - era * 146097 in
  let yoe := (doe - doe / 1460 + doe / 36524 - doe / 146096) / 365 in
  let doy := doe - (365 * yoe + yoe / 4 - yoe / 100) in
  let mp := (5 * doy + 2) / 153 in
  let d := doy - (153 * mp + 2) / 5 + 1 in
  let m := if mp <? 10 then mp + 3 else mp - 9 in
  let y := yoe + era * 400 + (if m <=? 2 then 1 else 0) in
  (y, m, d).

Definition isoOfDay (z : Z) : string :=
  let '(y, m, d) := civilFromDays z in
  RefHost.padLeft 4 (pretty y) +:+ "-" +:+ RefHost.padLeft 2 (pretty m)
    +:+ "-" +:+ RefHost.padLeft 2 (pretty d).

Definition isoOfTime (t : Z) : string := isoOfDay (t / msPerDay).

Definition localeDate (s : option string) : string :=
  match s ≫= RefHost.isoDay with
  | Some z =>
      let '(y, m, d) := civilFromDays z in
      pretty m +:+ "/" +:+ pretty d +:+ "/" +:+ pretty y
  | None => "Invalid Date"
  end.

#[export] Instance dateHost : DateHost :=
  {| isoDate := isoOfTime; formatDate := localeDate |}.

End RefDateHost.

Import RefDateHost.

(** ** Statements for the further properties *)

Definition rankOf (d : discrepancyRec) : Z := severityOrder (d_overallSeverity d).

Definition hasSeverity (s : severity) (d : discrepancyRec) : bool :=
  bool_decide (d_overallSeverity d = s).

(** The rational a numeric property holds. *)
Definition numOf (v : value) : Q :=
  match v with Num q => q | _ => 0 end.

(** The running sum [acc += entry.field || 0] of [calculateTotals]. *)
Definition accumulate (field : entry -> value) (data : list entry) (init : value)
  : value :=
  fold_left (fun acc e => JS.add acc (JS.or (field e) (Num 0))) data init.




(** * Properties *)

(** ** Values *)

Lemma Qlt_bool_iff a b : Qlt_bool a b = true <-> a < b.
Proof.
  unfold Qlt_bool. rewrite negb_true_iff.
  split; intros H.
  - apply Qnot_le_lt. intros Hle. apply Qle_bool_iff in Hle. congruence.
  - destruct (Qle_bool b a) eqn:E; [|reflexivity].
    apply Qle_bool_iff in E. exfalso. apply (Qlt_not_le _ _ H E).
Qed.

Lemma Qlt_bool_false_iff a b : Qlt_bool a b = false <-> b <= a.
Proof.
  unfold Qlt_bool. rewrite negb_false_iff. apply Qle_bool_iff.
Qed.

Lemma gt_isNum a b : JS.gt a b = true -> isNum a /\ isNum b.
Proof. destruct a, b; simpl; intros; try discriminate; auto. Qed.

Lemma lt_isNum a b : JS.lt a b = true -> isNum a /\ isNum b.
Proof. destruct a, b; simpl; intros; try discriminate; auto. Qed.

Lemma toFixedV_defined `{Host} n v : v <> Undefined -> is_Some (toFixedV n v).
Proof. destruct v; simpl; intros; [congruence | eauto | eauto]. Qed.

Lemma sub_defined a b : JS.sub a b <> Undefined.
Proof. destruct a, b; simpl; discriminate. Qed.

Lemma veq_isNum a q : veq a (Num q) -> isNum a.
Proof. destruct a; simpl; auto. Qed.

Lemma veq_refl v : veq v v.
Proof. destruct v; simpl; auto. reflexivity. Qed.

(** ** Scenarios A and B of the specification *)

Example scenarioA_derived :
  let e := withDerived scenarioA in
  (expectedCash e, cashDifference e, totalSales e, entry_status e)
  = (Num 240, Num 0, Num 450, Some balanced).
Proof. vm_compute. reflexivity. Qed.

Example scenarioB_derived :
  let e := withDerived scenarioB in
  (cashDifference e, entry_status e) = (Num (-60), Some discrepancy).
Proof. vm_compute. reflexivity. Qed.

Example scenarioB_run :
  exists r,
    reconcile defaultRules 0 [withDerived scenarioB] = Some r
    /\ map (fun d => map (fun i => (i_type i, i_severity i)) (d_issues d))
           (r_discrepancies r) = [[(cash_discrepancy, high)]]
    /\ veq (s_cashRecoveryNeeded (r_summary r)) (Num 60).
Proof. eexists. split; [vm_compute; reflexivity|]. split; vm_compute; reflexivity. Qed.

Example scenarioC_duplicate :
  validateBusinessRules [withDerived scenarioA; withDerived scenarioB]
  = [duplicateError "1" (withDerived scenarioB)].
Proof. vm_compute. reflexivity. Qed.

Example scenarioD_gap :
  validateBusinessRules
    [withDerived scenarioA; dayEntry "3" "2024-01-04" 100 0]
  = [gapError (Some "2024-01-01"%string) (Some "2024-01-04"%string) (Num 3)]
  /\ ve_payload (gapError (Some "2024-01-01"%string) (Some "2024-01-04"%string) (Num 3))
     = daysMissing (Num 2).
Proof. split; vm_compute; reflexivity. Qed.

Example scenarioE_balanced :
  exists r,
    reconcile defaultRules 0 (firstn 5 quietWeek) = Some r
    /\ r_discrepancies r = [] /\ r_validationErrors r = []
    /\ veq (s_reconciliationAccuracy (r_summary r)) (Num 100)
    /\ o_status (r_overall r) = balanced
    /\ o_recommendations (r_overall r)
       = ["All reconciliation checks passed successfully"%string].
Proof.
  eexists. split; [vm_compute; reflexivity|].
  repeat split; vm_compute; reflexivity.
Qed.

Example emptyRun :
  exists r,
    reconcile defaultRules 0 [] = Some r
    /\ r_totals r = totalsFinish (totalsInit 0)
    /\ r_discrepancies r = [] /\ r_validationErrors r = []
    /\ s_reconciliationAccuracy (r_summary r) = Num 100.
Proof. eexists. split; [reflexivity|]. repeat split. Qed.

(** ** Exceptions: when the validation of one entry returns *)

Section SingleEntryTotality.
Context `{Host}.

Lemma cashDiff_absent (e : entry) (t : Q) :
  cashDifference e = Undefined -> 0 <= t ->
  JS.gt (JS.abs (JS.or (cashDifference e) (Num 0))) (Num t) = false.
Proof.
  intros -> Ht. simpl. apply Qlt_bool_false_iff. exact Ht.
Qed.

Lemma singleReturnsCheck_defined (R : rules) (e : entry) :
  is_Some (singleReturnsCheck R e).
Proof.
  unfold singleReturnsCheck.
  destruct (JS.gt (totalSales e) (Num 0)); [|eauto].
  destruct (JS.gt _ (Num (maxReturnsPercentage R))) eqn:E; [|eauto].
  apply gt_isNum in E as [E _].
  destruct (JS.mul _ _); simpl in *; try contradiction; eauto.
Qed.

Lemma singleCashCheck_defined (R : rules) (e : entry) :
  (cashDifference e = Undefined ->
   0 <= cashDiscrepancyThreshold R /\ 0 <= largeDiscrepancyThreshold R) ->
  is_Some (singleCashCheck R e).
Proof.
  intros Hsafe. unfold singleCashCheck.
  destruct (cashDifference e) eqn:Hcd.
  - destruct (Hsafe eq_refl) as [Hc Hl].
    pose proof (cashDiff_absent e _ Hcd Hl) as E1.
    pose proof (cashDiff_absent e _ Hcd Hc) as E2.
    rewrite Hcd in E1, E2. rewrite E1, E2. eauto.
  - simpl. repeat (destruct (Qlt_bool _ _)); eauto.
  - destruct (JS.gt _ (Num (largeDiscrepancyThreshold R)));
      [|destruct (JS.gt _ (Num (cashDiscrepancyThreshold R)))]; simpl; eauto.
Qed.

Lemma validateSingleEntry_defined (R : rules) (e : entry) :
  (cashDifference e = Undefined ->
   0 <= cashDiscrepancyThreshold R /\ 0 <= largeDiscrepancyThreshold R) ->
  exists cash ret,
    singleCashCheck R e = Some cash /\ singleReturnsCheck R e = Some ret
    /\ validateSingleEntry R e
       = Some {| hasErrors := requiredMissing e || cash.1.1;
                 errors :=
                   (if requiredMissing e
                    then ["Date and register number are required"%string]
                    else []) ++ cash.1.2;
                 warnings :=
                   cash.2 ++ ret
                     ++ (if JS.lt (openingCash e) (Num (minOpeningCash R))
                         then ["Opening cash below recommended minimum"%string]
                         else []) |}.
Proof.
  intros Hsafe.
  destruct (singleCashCheck_defined R e Hsafe) as [cash Hc].
  destruct (singleReturnsCheck_defined R e) as [ret Hr].
  exists cash, ret. unfold validateSingleEntry. rewrite Hc, Hr. auto.
Qed.

End SingleEntryTotality.

(** ** Derived fields of a created entry *)

Section DerivedFields.
Context `{Host}.

Lemma le_abs_rational d t :
  JS.le (JS.abs (Num d)) (Num t) = true <-> Qabs d <= t.
Proof. simpl. apply Qle_bool_iff. Qed.

Lemma withDerived_no_exception (R : rules) (data : entry) :
  is_Some (addSalesData R (withDerived data)).
Proof.
  destruct (validateSingleEntry_defined R (withDerived data)) as (c & r & _ & _ & E).
  - intros Hu. exfalso. revert Hu. apply sub_defined.
  - unfold addSalesData. rewrite E. simpl. eauto.
Qed.

Lemma saveSalesEntry_returns (data : entry) (a : app) :
  saveSalesEntry data a
  = Some {| salesData := salesData a ++ [withDerived data];
            reconciliation := reconciliation a |}.
Proof.
  unfold saveSalesEntry. destruct (reconciliation a) as [eng|]; [|reflexivity].
  destruct (withDerived_no_exception (reconciliationRules eng) data) as [r ->].
  reflexivity.
Qed.

Lemma status_cases (b : bool) (st : option status) :
  st = Some (if b then balanced else discrepancy) ->
  (st = Some balanced <-> b = true)
  /\ (st = Some balanced \/ st = Some discrepancy).
Proof.
  intros ->. destruct b; split; auto; split; intros; congruence.
Qed.

(** C1 (as amended): an entry created by [addSalesEntry] or by
    [saveSalesEntry] stores
    [expectedCash = openingCash + cashSales - returnsRefunds - cashDrops],
    [cashDifference = closingCash - expectedCash] and
    [totalSales = cashSales + cardSales], each computed by the program's
    own operations from the raw fields and the stored [expectedCash]; its
    status is [balanced] exactly when the absolute value of the stored
    [cashDifference] is at most the threshold of the creating path: the
    configured [CASH_DISCREPANCY_THRESHOLD], whatever its value, for
    [addSalesEntry], and the constant 5 for [saveSalesEntry], whatever the
    engine's [cashDiscrepancyThreshold] is. *)
Theorem C1_derived_fields (cfg : config) (entryId : string) (data : entry) (a : app) :
  let row := addSalesEntry cfg entryId data in
  derivedFrom (CASH_DISCREPANCY_THRESHOLD cfg) data row
  /\ exists stored,
       saveSalesEntry data a
       = Some {| salesData := salesData a ++ [stored];
                 reconciliation := reconciliation a |}
       /\ derivedFrom 5 data stored.
Proof.
  intros row.
  assert (Hrow : derivedFrom (CASH_DISCREPANCY_THRESHOLD cfg) data row).
  { unfold derivedFrom, statusAgrees. repeat split; try reflexivity;
      eapply status_cases; reflexivity. }
  assert (Hstored : derivedFrom 5 data (withDerived data)).
  { unfold derivedFrom, statusAgrees. repeat split; try reflexivity;
      eapply status_cases; reflexivity. }
  split; [exact Hrow|].
  exists (withDerived data). split; [apply saveSalesEntry_returns | exact Hstored].
Qed.

End DerivedFields.

(** C1 (as stated) fails: with the engine's [cashDiscrepancyThreshold] set
    to 10, [saveSalesEntry] stores an entry whose cash difference is 7,
    within the threshold, with status [discrepancy]. *)
Lemma C1_counterexample :
  let a := {| salesData := []; reconciliation := Some engineAt10 |} in
  let data := mkEntry "1" "2024-01-01" "REG001" 200 150 300 10 100 247 in
  exists stored,
    saveSalesEntry data a
    = Some {| salesData := [stored]; reconciliation := Some engineAt10 |}
    /\ cashDifference stored = Num 7
    /\ cashDiscrepancyThreshold (reconciliationRules engineAt10) = 10
    /\ entry_status stored = Some discrepancy
    /\ ~ statusAgrees (cashDiscrepancyThreshold (reconciliationRules engineAt10)) stored.
Proof.
  intros a data. exists (withDerived data).
  split; [apply saveSalesEntry_returns|].
  split; [vm_compute; reflexivity|].
  split; [reflexivity|].
  split; [vm_compute; reflexivity|].
  intros [_ Hback].
  assert (E : entry_status (withDerived data) = Some balanced)
    by (apply Hback; vm_compute; reflexivity).
  vm_compute in E. discriminate.
Qed.

Lemma C1_derived_fields_witness :
  derivedFrom 5 scenarioA (addSalesEntry CONFIG "ENT_1" scenarioA)
  /\ exists stored,
       saveSalesEntry scenarioA {| salesData := []; reconciliation := None |}
       = Some {| salesData := [stored]; reconciliation := None |}
       /\ derivedFrom 5 scenarioA stored
       /\ entry_status stored = Some balanced.
Proof.
  destruct (C1_derived_fields CONFIG "ENT_1" scenarioA
              {| salesData := []; reconciliation := None |})
    as (Hrow & stored & Hsave & Hstored).
  split; [exact Hrow|]. exists stored. split; [exact Hsave|].
  split; [exact Hstored|].
  injection Hsave as <-. vm_compute. reflexivity.
Defined.

(** ** The overall status ladder *)

Section StatusLadder.
Context `{Host}.

Lemma existsb_Exists {A} (p : A -> bool) (l : list A) :
  existsb p l = true <-> Exists (fun x => p x = true) l.
Proof.
  rewrite existsb_exists, List.Exists_exists. reflexivity.
Qed.

Lemma highCount_positive (ds : list discrepancyRec) :
  (0 <? length (List.filter (fun d => bool_decide (d_overallSeverity d = high)) ds))%nat
    = true
  <-> Exists (fun d => d_overallSeverity d = high) ds.
Proof.
  rewrite Nat.ltb_lt. induction ds as [|d ds IH]; simpl.
  - split; [lia | intros Hex; inversion Hex].
  - rewrite Exists_cons. destruct (bool_decide (d_overallSeverity d = high)) eqn:E.
    + apply bool_decide_eq_true in E. simpl. split; [auto | lia].
    + apply bool_decide_eq_false in E. rewrite IH. tauto.
Qed.

Lemma hasHighError_iff (ves : list validationError) :
  hasHighError ves = true <-> Exists (fun e => ve_severity e = high) ves.
Proof.
  unfold hasHighError. rewrite existsb_Exists.
  split; intros Hex; eapply Exists_impl; try exact Hex;
    intros e; simpl; rewrite bool_decide_eq_true; auto.
Qed.

Lemma nonempty_positive {A} (l : list A) : (0 <? length l)%nat = true <-> l <> [].
Proof.
  rewrite Nat.ltb_lt. destruct l; simpl; split; intros; try congruence; lia.
Qed.

(** C2: the overall status is a first-match ladder.  [critical] with
    confidence 30 when some discrepancy has overall severity [high] or some
    validation error has severity [high]; else [warning] with confidence 70
    when there is any discrepancy or validation error; else [discrepancy]
    with confidence 60 when [totalCashVariance = |overallCashDifference|]
    exceeds [cashDiscrepancyThreshold]; else [balanced] with confidence
    100. *)
Theorem C2_status_ladder (R : rules) (r0 : results) :
  let r := summarised r0 in
  let o := determineOverallStatus R r in
  let anyHigh :=
    Exists (fun d => d_overallSeverity d = high) (r_discrepancies r)
    \/ Exists (fun e => ve_severity e = high) (r_validationErrors r) in
  let anyFinding := r_discrepancies r <> [] \/ r_validationErrors r <> [] in
  let exceeds :=
    JS.gt (s_totalCashVariance (r_summary r)) (Num (cashDiscrepancyThreshold R))
    = true in
  s_totalCashVariance (r_summary r) = JS.abs (t_overallCashDifference (r_totals r))
  /\ (anyHigh -> o_status o = critical /\ o_confidence o = 30%Z)
  /\ (~ anyHigh -> anyFinding -> o_status o = warning /\ o_confidence o = 70%Z)
  /\ (~ anyHigh -> ~ anyFinding -> exceeds ->
      o_status o = discrepancy /\ o_confidence o = 60%Z)
  /\ (~ anyHigh -> ~ anyFinding -> ~ exceeds ->
      o_status o = balanced /\ o_confidence o = 100%Z).
Proof.
  intros r o anyHigh anyFinding exceeds.
  assert (Hshape : (o_status o, o_confidence o)
                   = (statusLadder R r (JS.abs (t_overallCashDifference (r_totals r)))).1).
  { subst o. unfold determineOverallStatus.
    destruct (statusLadder R r _) as [[st c] base]. reflexivity. }
  assert (Hhigh : (0 <? s_highSeverityDiscrepancies (r_summary r))%nat
                    || hasHighError (r_validationErrors r) = true <-> anyHigh).
  { rewrite orb_true_iff, hasHighError_iff. subst r anyHigh. simpl.
    rewrite highCount_positive. reflexivity. }
  assert (Hany : (0 <? length (r_discrepancies r))%nat
                   || (0 <? length (r_validationErrors r))%nat = true <-> anyFinding).
  { rewrite orb_true_iff, !nonempty_positive. reflexivity. }
  unfold statusLadder in Hshape.
  split; [reflexivity|].
  destruct ((0 <? s_highSeverityDiscrepancies (r_summary r))%nat
              || hasHighError (r_validationErrors r)) eqn:E1.
  { assert (anyHigh) by (apply Hhigh; reflexivity).
    inversion Hshape. repeat split; intros; auto; contradiction. }
  assert (~ anyHigh) by (rewrite <- Hhigh; discriminate).
  destruct ((0 <? length (r_discrepancies r))%nat
              || (0 <? length (r_validationErrors r))%nat) eqn:E2.
  { assert (anyFinding) by (apply Hany; reflexivity).
    inversion Hshape. repeat split; intros; auto; contradiction. }
  assert (~ anyFinding) by (rewrite <- Hany; discriminate).
  change (JS.abs (t_overallCashDifference (r_totals r)))
    with (s_totalCashVariance (r_summary r)) in Hshape.
  destruct (JS.gt (s_totalCashVariance (r_summary r))
                  (Num (cashDiscrepancyThreshold R))) eqn:E3.
  { assert (exceeds) by reflexivity.
    inversion Hshape. repeat split; intros; auto; contradiction. }
  assert (~ exceeds) by (unfold exceeds; discriminate).
  inversion Hshape. repeat split; intros; auto; contradiction.
Qed.

(** The results of a run are such an object. *)
Lemma reconcile_overall (R : rules) (started : Z) (data : list entry) (r : results) :
  reconcile R started data = Some r ->
  exists r0,
    r_discrepancies r0 = r_discrepancies r
    /\ r_validationErrors r0 = r_validationErrors r
    /\ r_totals r0 = r_totals r
    /\ r_summary r = calculateSummaryMetrics r0
    /\ r_overall r = determineOverallStatus R (summarised r0).
Proof.
  unfold reconcile. destruct (findDiscrepancies R data) as [ds|]; [|discriminate].
  simpl. intros [= <-]. eexists. repeat split; reflexivity.
Qed.

End StatusLadder.

Ltac no_exists :=
  repeat match goal with
         | H : Exists _ _ |- _ => inversion H; clear H; subst; simpl in *
         | H : _ \/ _ |- _ => destruct H
         end;
  try discriminate; try congruence.

Lemma C2_status_ladder_witness :
  (let o := determineOverallStatus defaultRules
              (summarised (sampleResults 1 [sampleDiscrepancy "1" (Num (-60)) high]
                                         [] (Num (-60)))) in
   o_status o = critical /\ o_confidence o = 30%Z)
  /\ (let o := determineOverallStatus defaultRules
                 (summarised (sampleResults 2 [] [sampleGap] (Num 0))) in
      o_status o = warning /\ o_confidence o = 70%Z)
  /\ (let o := determineOverallStatus defaultRules
                 (summarised (sampleResults 2 [] [] (Num (-20)))) in
      o_status o = discrepancy /\ o_confidence o = 60%Z)
  /\ (let o := determineOverallStatus defaultRules
                 (summarised (sampleResults 2 [] [] (Num 3))) in
      o_status o = balanced /\ o_confidence o = 100%Z).
Proof.
  split; [|split; [|split]].
  - apply (C2_status_ladder defaultRules
             (sampleResults 1 [sampleDiscrepancy "1" (Num (-60)) high] [] (Num (-60)))).
    left. constructor. reflexivity.
  - apply (C2_status_ladder defaultRules (sampleResults 2 [] [sampleGap] (Num 0))).
    + intros Hh. simpl in Hh. no_exists.
    + right. simpl. discriminate.
  - apply (C2_status_ladder defaultRules (sampleResults 2 [] [] (Num (-20)))).
    + intros Hh. simpl in Hh. no_exists.
    + intros Hf. simpl in Hf. no_exists.
    + vm_compute. reflexivity.
  - apply (C2_status_ladder defaultRules (sampleResults 2 [] [] (Num 3))).
    + intros Hh. simpl in Hh. no_exists.
    + intros Hf. simpl in Hf. no_exists.
    + vm_compute. discriminate.
Defined.

(** ** Pre-save validation of one entry *)

Section SingleEntry.
Context `{Host}.

Lemma truthyStr_false (s : option string) :
  JS.truthyStr s = false <-> s = None \/ s = Some ""%string.
Proof.
  destruct s as [[|c s]|]; simpl; split; intros Hs; auto; try discriminate;
    destruct Hs; discriminate.
Qed.

Lemma requiredMissing_iff (e : entry) :
  requiredMissing e = true
  <-> JS.truthyStr (date e) = false \/ JS.truthyStr (registerNumber e) = false.
Proof.
  unfold requiredMissing. rewrite orb_true_iff, !negb_true_iff. reflexivity.
Qed.

Lemma singleCashCheck_flag (R : rules) (e : entry) cash :
  singleCashCheck R e = Some cash ->
  cash.1.1 = JS.gt (JS.abs (JS.or (cashDifference e) (Num 0)))
                   (Num (largeDiscrepancyThreshold R))
  /\ (cash.1.1 = false -> cash.1.2 = []).
Proof.
  unfold singleCashCheck.
  destruct (JS.gt _ (Num (largeDiscrepancyThreshold R))).
  - destruct (toFixedV 2 (cashDifference e)); simpl; [|discriminate].
    intros [= <-]. simpl. split; [reflexivity | discriminate].
  - destruct (JS.gt _ (Num (cashDiscrepancyThreshold R))).
    + destruct (toFixedV 2 (cashDifference e)); simpl; [|discriminate].
      intros [= <-]. simpl. auto.
    + intros [= <-]. simpl. auto.
Qed.

(** C3 (as amended): the pre-save validation of one entry returns a
    failure result ([hasErrors] true, [success] false) exactly when the
    entry misses its date or its register number, or its
    [|cashDifference|] exceeds [largeDiscrepancyThreshold]; every other
    entry succeeds with no error, at most warnings.  (The validation
    returns whenever [cashDifference] is present or the two cash thresholds
    are not negative.) *)
Theorem C3_validation_failure (R : rules) (e : entry) :
  (cashDifference e = Undefined ->
   0 <= cashDiscrepancyThreshold R /\ 0 <= largeDiscrepancyThreshold R) ->
  exists v,
    validateSingleEntry R e = Some v
    /\ (hasErrors v = true
        <-> (JS.truthyStr (date e) = false
             \/ JS.truthyStr (registerNumber e) = false)
            \/ JS.gt (JS.abs (JS.or (cashDifference e) (Num 0)))
                     (Num (largeDiscrepancyThreshold R)) = true)
    /\ (hasErrors v = false -> errors v = [])
    /\ exists res,
         addSalesData R e = Some res
         /\ success res = negb (hasErrors v)
         /\ a_warnings res = warnings v.
Proof.
  intros Hsafe.
  destruct (validateSingleEntry_defined R e Hsafe) as (cash & ret & Hc & _ & Hv).
  destruct (singleCashCheck_flag R e cash Hc) as [Hflag Hnone].
  eexists. split; [exact Hv|]. simpl. split; [|split].
  - rewrite orb_true_iff, requiredMissing_iff, Hflag. reflexivity.
  - rewrite orb_false_iff. intros [-> Hf]. rewrite (Hnone Hf). reflexivity.
  - unfold addSalesData. rewrite Hv. simpl.
    destruct (requiredMissing e || cash.1.1); eexists; split; reflexivity || auto.
Qed.

End SingleEntry.

Lemma C3_validation_failure_witness :
  exists v,
    validateSingleEntry defaultRules (withDerived scenarioA) = Some v
    /\ hasErrors v = false.
Proof.
  destruct (C3_validation_failure defaultRules (withDerived scenarioA))
    as (v & Hv & Hiff & _).
  - simpl. discriminate.
  - exists v. split; [exact Hv|].
    destruct (hasErrors v); [|reflexivity].
    destruct Hiff as [Hiff _]. destruct (Hiff eq_refl) as [[Hd|Hd]|Hd];
      vm_compute in Hd; discriminate.
Defined.

(** C3 (as stated) fails: the entry of scenario B has its date and its
    register number, and its cash difference of -60 makes the validation
    fail. *)
Lemma C3_counterexample :
  let e := withDerived scenarioB in
  JS.truthyStr (date e) = true
  /\ JS.truthyStr (registerNumber e) = true
  /\ (exists v, validateSingleEntry defaultRules e = Some v
                /\ hasErrors v = true
                /\ errors v = ["Large cash discrepancy: $-60.00"%string])
  /\ (exists res, addSalesData defaultRules e = Some res /\ success res = false).
Proof.
  repeat split; try reflexivity.
  - eexists. split; [vm_compute; reflexivity|]. split; reflexivity.
  - eexists. split; [vm_compute; reflexivity|]. reflexivity.
Qed.

(** ** The discrepancy scan *)

Section Discrepancies.
Context `{Host}.

Lemma returnsCheck_defined (R : rules) (e : entry) : is_Some (returnsCheck R e).
Proof.
  unfold returnsCheck.
  destruct (JS.gt (returnsPercentageOf e) _) eqn:E; [|eauto].
  apply gt_isNum in E as [E _].
  destruct (returnsPercentageOf e); simpl in *; try contradiction; eauto.
Qed.

Lemma cashCheck_defined (R : rules) (e : entry) :
  (cashDifference e = Undefined -> 0 <= cashDiscrepancyThreshold R) ->
  is_Some (cashCheck R e).
Proof.
  intros Hsafe. unfold cashCheck.
  destruct (cashDifference e) eqn:Hcd.
  - pose proof (cashDiff_absent e _ Hcd (Hsafe eq_refl)) as E.
    rewrite Hcd in E. rewrite E. eauto.
  - simpl. destruct (Qlt_bool _ _); simpl; eauto.
  - destruct (JS.gt _ (Num (cashDiscrepancyThreshold R))); simpl; eauto.
Qed.

Lemma entryIssues_defined (R : rules) (e : entry) :
  (cashDifference e = Undefined -> 0 <= cashDiscrepancyThreshold R) ->
  exists c r,
    cashCheck R e = Some c /\ returnsCheck R e = Some r
    /\ entryIssues R e
       = Some (c ++ r ++ openingCheck R e ++ zeroSalesCheck e ++ negativeCheck e).
Proof.
  intros Hsafe.
  destruct (cashCheck_defined R e Hsafe) as [c Hc].
  destruct (returnsCheck_defined R e) as [r Hr].
  exists c, r. unfold entryIssues. rewrite Hc, Hr. auto.
Qed.

Lemma collectDiscrepancies_defined (R : rules) (data : list entry) :
  (forall e, In e data -> cashDifference e = Undefined ->
             0 <= cashDiscrepancyThreshold R) ->
  is_Some (collectDiscrepancies R data).
Proof.
  induction data as [|e data IH]; intros Hsafe; simpl; [eauto|].
  destruct (entryIssues_defined R e) as (c & r & _ & _ & ->).
  { apply Hsafe. now left. }
  destruct IH as [ds ->].
  { intros e' He'. apply Hsafe. now right. }
  simpl. eauto.
Qed.

Lemma findDiscrepancies_defined (R : rules) (data : list entry) :
  (forall e, In e data -> cashDifference e = Undefined ->
             0 <= cashDiscrepancyThreshold R) ->
  exists ds,
    collectDiscrepancies R data = Some ds
    /\ findDiscrepancies R data = Some (sortBySeverity ds).
Proof.
  intros Hsafe. destruct (collectDiscrepancies_defined R data Hsafe) as [ds Hds].
  exists ds. unfold findDiscrepancies. rewrite Hds. auto.
Qed.

Lemma insertBySeverity_Permutation d l :
  Permutation (insertBySeverity d l) (d :: l).
Proof.
  induction l as [|x l IH]; simpl; [reflexivity|].
  destruct (_ <? _)%Z; [|reflexivity].
  rewrite IH. apply perm_swap.
Qed.

Lemma sortBySeverity_Permutation l : Permutation (sortBySeverity l) l.
Proof.
  induction l as [|d l IH]; simpl; [reflexivity|].
  rewrite insertBySeverity_Permutation. now constructor.
Qed.

Lemma sortBySeverity_length l : length (sortBySeverity l) = length l.
Proof. apply Permutation_length, sortBySeverity_Permutation. Qed.

(** An entry with at least one issue has its record in the collected list. *)
Lemma collectDiscrepancies_In (R : rules) (data : list entry) ds e issues :
  collectDiscrepancies R data = Some ds ->
  In e data -> entryIssues R e = Some issues -> issues <> [] ->
  In (mkDiscrepancy e issues) ds.
Proof.
  revert ds. induction data as [|x data IH]; intros ds Hds Hin Hissues Hne;
    [destruct Hin|].
  simpl in Hds.
  destruct (entryIssues R x) as [ix|] eqn:Hx; [|discriminate].
  destruct (collectDiscrepancies R data) as [ds'|]; [|discriminate].
  simpl in Hds. injection Hds as <-.
  destruct Hin as [->|Hin].
  - rewrite Hissues in Hx. injection Hx as <-.
    destruct issues; [congruence | now left].
  - specialize (IH ds' eq_refl Hin Hissues Hne).
    destruct ix; [assumption | now right].
Qed.

Lemma negativeCheck_fires (e : entry) :
  JS.lt (cashSales e) (Num 0) = true \/ JS.lt (cardSales e) (Num 0) = true
  \/ JS.lt (closingCash e) (Num 0) = true ->
  exists i, negativeCheck e = [i] /\ i_type i = negative_values /\ i_severity i = high.
Proof.
  intros Hneg. unfold negativeCheck.
  assert (E : JS.lt (cashSales e) (Num 0) || JS.lt (cardSales e) (Num 0)
              || JS.lt (closingCash e) (Num 0) = true).
  { rewrite !orb_true_iff. tauto. }
  rewrite E. eexists. repeat split.
Qed.

Lemma calculateOverallSeverity_high issues i :
  In i issues -> i_severity i = high -> calculateOverallSeverity issues = high.
Proof.
  intros Hin Hi. unfold calculateOverallSeverity.
  assert (E : existsb (fun i => bool_decide (i_severity i = high)) issues = true).
  { apply existsb_exists. exists i. split; [assumption|].
    now apply bool_decide_eq_true. }
  now rewrite E.
Qed.

End Discrepancies.

(** ** Sign checks *)

Section SignChecks.
Context `{Host}.

Lemma formErrors_negative (data : entry) :
  JS.lt (openingCash data) (Num 0) = true \/ JS.lt (cashSales data) (Num 0) = true
  \/ JS.lt (cardSales data) (Num 0) = true \/ JS.lt (closingCash data) (Num 0) = true ->
  validateSalesFormData data = false.
Proof.
  intros Hneg. unfold validateSalesFormData, formErrors.
  destruct (negb (JS.truthyStr (date data))); [reflexivity|].
  destruct (negb (JS.truthyStr (registerNumber data))); [reflexivity|].
  destruct (JS.lt (openingCash data) (Num 0)); [reflexivity|].
  destruct (JS.lt (cashSales data) (Num 0)); [reflexivity|].
  destruct (JS.lt (cardSales data) (Num 0)); [reflexivity|].
  destruct (JS.lt (closingCash data) (Num 0)); [reflexivity|].
  exfalso. destruct Hneg as [?|[?|[?|?]]]; discriminate.
Qed.

(** C5 (as amended): non-negativity is enforced for part of the monetary
    fields.  A reconciliation run flags every entry whose [cashSales],
    [cardSales] or [closingCash] is negative with a [negative_values] issue
    of severity [high]; the form validation rejects an entry whose
    [openingCash], [cashSales], [cardSales] or [closingCash] is negative.
    Nothing is said about the sign of [returnsRefunds] and [cashDrops]. *)
Theorem C5_negative_values_flagged (R : rules) (data : list entry) (e : entry) :
  (forall x, In x data -> cashDifference x = Undefined ->
             0 <= cashDiscrepancyThreshold R) ->
  In e data ->
  (JS.lt (cashSales e) (Num 0) = true \/ JS.lt (cardSales e) (Num 0) = true
   \/ JS.lt (closingCash e) (Num 0) = true ->
   exists ds issues i,
     findDiscrepancies R data = Some ds
     /\ entryIssues R e = Some issues
     /\ In (mkDiscrepancy e issues) ds
     /\ d_overallSeverity (mkDiscrepancy e issues) = high
     /\ In i issues /\ i_type i = negative_values /\ i_severity i = high)
  /\ (JS.lt (openingCash e) (Num 0) = true \/ JS.lt (cashSales e) (Num 0) = true
      \/ JS.lt (cardSales e) (Num 0) = true \/ JS.lt (closingCash e) (Num 0) = true ->
      validateSalesFormData e = false).
Proof.
  intros Hsafe Hin. split; [|apply formErrors_negative].
  intros Hneg.
  destruct (findDiscrepancies_defined R data Hsafe) as (ds & Hds & Hfind).
  destruct (entryIssues_defined R e (Hsafe e Hin)) as (c & r & _ & _ & Hissues).
  destruct (negativeCheck_fires e Hneg) as (i & Hi & Hty & Hsev).
  assert (Hmem : In i (c ++ r ++ openingCheck R e ++ zeroSalesCheck e ++ negativeCheck e)).
  { rewrite Hi, !in_app_iff. simpl. tauto. }
  exists (sortBySeverity ds),
         (c ++ r ++ openingCheck R e ++ zeroSalesCheck e ++ negativeCheck e), i.
  split; [exact Hfind|]. split; [exact Hissues|]. split.
  - eapply Permutation_in; [symmetry; apply sortBySeverity_Permutation|].
    eapply collectDiscrepancies_In; eauto.
    intros Hnil. rewrite Hnil in Hmem. destruct Hmem.
  - split; [|auto]. simpl. eapply calculateOverallSeverity_high; eauto.
Qed.

End SignChecks.

Lemma C5_negative_values_flagged_witness :
  (exists ds, findDiscrepancies defaultRules [negativeCardSales] = Some ds
              /\ exists d, In d ds /\ d_overallSeverity d = high)
  /\ validateSalesFormData negativeCardSales = false.
Proof.
  destruct (C5_negative_values_flagged defaultRules [negativeCardSales]
              negativeCardSales) as [Hrun Hform].
  - intros x Hx Hu. vm_compute. discriminate.
  - simpl. auto.
  - split.
    + destruct Hrun as (ds & issues & i & Hds & _ & Hin & Hsev & _).
      { right. left. vm_compute. reflexivity. }
      exists ds. split; [exact Hds|]. eauto.
    + apply Hform. right. right. left. vm_compute. reflexivity.
Defined.

(** C5 (as stated) fails: an entry whose [returnsRefunds] is negative, and
    one whose [cashDrops] is negative, pass the reconciliation run, the
    business rules, the pre-save validation and the form validation without
    any finding. *)
Lemma C5_counterexample :
  let unflagged e :=
    findDiscrepancies defaultRules [e] = Some []
    /\ validateBusinessRules [e] = []
    /\ validateSingleEntry defaultRules e
       = Some {| hasErrors := false; errors := []; warnings := [] |}
    /\ validateSalesFormData e = true
    /\ (o_status <$> (r_overall <$> reconcile defaultRules 0 [e])) = Some balanced in
  JS.lt (returnsRefunds negativeReturns) (Num 0) = true
  /\ unflagged negativeReturns
  /\ JS.lt (cashDrops negativeDrops) (Num 0) = true
  /\ unflagged negativeDrops.
Proof. repeat split; vm_compute; reflexivity. Qed.

(** ** Summary metrics *)

Section Summary.
Context `{Host}.

Lemma isShortfall_iff (d : discrepancyRec) :
  isShortfall d = true <-> exists q, d_cashDifference d = Num q /\ q < 0.
Proof.
  unfold isShortfall. destruct (d_cashDifference d) as [| |q]; simpl.
  - split; [discriminate | intros (q & Hq & _); discriminate].
  - split; [discriminate | intros (q & Hq & _); discriminate].
  - rewrite Qlt_bool_iff. split; [eauto|]. intros (q' & [= <-] & Hlt). exact Hlt.
Qed.

Lemma absSum_shortfalls (ds : list discrepancyRec) (a : Q) :
  exists q,
    fold_left (fun sum d => JS.add sum (JS.abs (d_cashDifference d)))
              (List.filter isShortfall ds) (Num a) = Num q
    /\ q == a + shortfallTotal ds.
Proof.
  revert a. induction ds as [|d ds IH]; intros a; simpl.
  - exists a. split; [reflexivity | ring].
  - unfold isShortfall at 1. destruct (d_cashDifference d) as [| |x] eqn:Hd; simpl.
    + apply IH.
    + apply IH.
    + destruct (Qlt_bool x 0); simpl.
      * rewrite Hd. simpl. destruct (IH (a + Qabs x)) as (q & Hq & Heq).
        exists q. split; [exact Hq|]. rewrite Heq. ring.
      * apply IH.
Qed.

Lemma absSum_no_shortfall (ds : list discrepancyRec) :
  Forall (fun d => isShortfall d = false) ds ->
  absSum (List.filter isShortfall ds) = Num 0.
Proof.
  induction 1 as [|d ds Hd _ IH]; simpl; [reflexivity|].
  rewrite Hd. exact IH.
Qed.

(** C9: [cashRecoveryNeeded] is the sum of [|cashDifference|] over exactly
    the discrepancy records whose [cashDifference] is negative; records
    with a positive or zero difference never contribute, and the amount is
    0 when there is no shortfall.  This holds for the summary of any
    results object and so for the one of every run. *)
Theorem C9_cashRecoveryNeeded (r : results) :
  veq (s_cashRecoveryNeeded (calculateSummaryMetrics r))
      (Num (shortfallTotal (r_discrepancies r)))
  /\ (Forall (fun d => isShortfall d = false) (r_discrepancies r) ->
      s_cashRecoveryNeeded (calculateSummaryMetrics r) = Num 0)
  /\ (forall r', List.filter isShortfall (r_discrepancies r')
                 = List.filter isShortfall (r_discrepancies r) ->
                 s_cashRecoveryNeeded (calculateSummaryMetrics r')
                 = s_cashRecoveryNeeded (calculateSummaryMetrics r))
  /\ (forall R started data,
        reconcile R started data = Some r ->
        veq (s_cashRecoveryNeeded (r_summary r))
            (Num (shortfallTotal (r_discrepancies r)))).
Proof.
  assert (Hmain : forall x : results,
             veq (s_cashRecoveryNeeded (calculateSummaryMetrics x))
                 (Num (shortfallTotal (r_discrepancies x)))).
  { intros x. simpl. unfold absSum.
    destruct (absSum_shortfalls (r_discrepancies x) 0) as (q & -> & Hq).
    simpl. rewrite Hq. ring. }
  split; [apply Hmain|]. split; [|split].
  - intros Hnone. simpl. now apply absSum_no_shortfall.
  - intros r' Hsame. simpl. now rewrite Hsame.
  - intros R started data Hrun.
    destruct (reconcile_overall R started data r Hrun) as (r0 & Hds & _ & _ & Hsum & _).
    rewrite Hsum, <- Hds. apply Hmain.
Qed.

End Summary.

Lemma C9_cashRecoveryNeeded_witness :
  s_cashRecoveryNeeded
    (calculateSummaryMetrics
       (sampleResults 3 [sampleDiscrepancy "1" (Num 8) medium;
                         sampleDiscrepancy "2" (Num 0) low] [] (Num 8)))
  = Num 0
  /\ exists r, reconcile defaultRules 0 [withDerived scenarioA; withDerived scenarioB]
               = Some r
               /\ veq (s_cashRecoveryNeeded (r_summary r)) (Num 60).
Proof.
  split.
  - apply (C9_cashRecoveryNeeded
             (sampleResults 3 [sampleDiscrepancy "1" (Num 8) medium;
                               sampleDiscrepancy "2" (Num 0) low] [] (Num 8))).
    repeat constructor.
  - destruct (reconcile defaultRules 0 [withDerived scenarioA; withDerived scenarioB])
      as [r|] eqn:Hrun; [|vm_compute in Hrun; discriminate].
    exists r. split; [reflexivity|].
    destruct (C9_cashRecoveryNeeded r) as (_ & _ & _ & Hr).
    specialize (Hr _ _ _ Hrun).
    assert (E : r_discrepancies r
                = [mkDiscrepancy (withDerived scenarioB)
                     (default [] (entryIssues defaultRules (withDerived scenarioB)))]).
    { vm_compute in Hrun. injection Hrun as <-. vm_compute. reflexivity. }
    rewrite E in Hr. exact Hr.
Defined.


(** ** Abnormal sales *)

Section WindowStatistics.

Lemma Qlt_bool_comp a a' b b' : a == a' -> b == b' -> Qlt_bool a b = Qlt_bool a' b'.
Proof. intros Ha Hb. unfold Qlt_bool. now rewrite Ha, Hb. Qed.










End WindowStatistics.

Section ErrorTypes.
Context `{Host}.

Lemma duplicateStep_Forall (P : validationError -> Prop) :
  (forall f e, P (duplicateError f e)) ->
  forall data st, Forall P st.2 -> Forall P (fold_left duplicateStep data st).2.
Proof.
  intros HP. induction data as [|e data IH]; intros st Hst; simpl; [exact Hst|].
  apply IH. unfold duplicateStep. destruct (st.1 !! pairKey e); simpl; [|exact Hst].
  apply Forall_app. split; [exact Hst|]. repeat constructor. apply HP.
Qed.

Lemma duplicateErrors_type (data : list entry) :
  Forall (fun ve => ve_type ve = duplicate_entry /\ ve_severity ve = high)
         (duplicateErrors data).
Proof.
  unfold duplicateErrors. apply duplicateStep_Forall; [|constructor].
  intros f e. split; reflexivity.
Qed.

Lemma gapErrors_type (dates : list (option string)) :
  Forall (fun ve => ve_type ve = missing_dates /\ ve_severity ve = medium)
         (gapErrors dates).
Proof.
  induction dates as [|prev rest IH]; simpl; [constructor|].
  destruct rest as [|cur rest']; [constructor|].
  apply Forall_app. split; [|exact IH].
  destruct (daysBetween prev cur) as [| |y]; [| |destruct (Qlt_bool 1 y)];
    repeat constructor.
Qed.

Lemma abnormalSalesErrors_type (data : list entry) :
  Forall (fun ve => ve_type ve = abnormal_sales /\ ve_severity ve = medium)
         (abnormalSalesErrors data).
Proof.
  unfold abnormalSalesErrors. destruct (7 <=? length data)%nat; [|constructor].
  apply Forall_flat_map. apply Forall_forall. intros e _.
  unfold abnormalCheck. destruct (totalSales e); try constructor.
  destruct (exceedsTwoSigma _ _); repeat constructor.
Qed.

Lemma errorsOfType_app t (l1 l2 : list validationError) :
  errorsOfType t (l1 ++ l2) = errorsOfType t l1 ++ errorsOfType t l2.
Proof. apply List.filter_app. Qed.

Lemma errorsOfType_all t (l : list validationError) :
  Forall (fun ve => ve_type ve = t) l -> errorsOfType t l = l.
Proof.
  induction 1 as [|ve l Hve _ IH]; simpl; [reflexivity|].
  rewrite bool_decide_eq_true_2 by assumption. now rewrite IH.
Qed.

Lemma errorsOfType_none t (l : list validationError) :
  Forall (fun ve => ve_type ve <> t) l -> errorsOfType t l = [].
Proof.
  induction 1 as [|ve l Hve _ IH]; simpl; [reflexivity|].
  rewrite bool_decide_eq_false_2 by assumption. exact IH.
Qed.


Lemma duplicates_of_rules (data : list entry) :
  errorsOfType duplicate_entry (validateBusinessRules data) = duplicateErrors data.
Proof.
  unfold validateBusinessRules. rewrite !errorsOfType_app.
  rewrite (errorsOfType_all _ (duplicateErrors data)),
          (errorsOfType_none _ (missingDateErrors data)),
          errorsOfType_none; [now rewrite !app_nil_r| | |].
  - eapply List.Forall_impl; [|apply abnormalSalesErrors_type]. simpl.
    intros ve [-> _]. discriminate.
  - eapply List.Forall_impl; [|apply gapErrors_type]. simpl. intros ve [-> _]. discriminate.
  - eapply List.Forall_impl; [|apply duplicateErrors_type]. simpl. tauto.
Qed.



End ErrorTypes.

Section AbnormalSales.
Context `{Host}.







End AbnormalSales.


(** ** Degenerate denominators *)

Section Degenerate.
Context `{Host}.

Lemma inject_nat_nonzero (n : nat) :
  (0 < n)%nat -> Qeq_bool (inject_Z (Z.of_nat n)) 0 = false.
Proof.
  intros Hn. destruct (Qeq_bool _ _) eqn:E; [|reflexivity].
  apply Qeq_bool_iff in E. unfold Qeq in E. simpl in E. lia.
Qed.

Lemma returnsPercentage_zero_sales (e : entry) :
  JS.seq (totalSales e) (Num 0) = true -> returnsPercentageOf e = Num 0.
Proof.
  unfold returnsPercentageOf. destruct (totalSales e) as [| |t]; simpl; try discriminate.
  intros E. apply Qeq_bool_iff in E.
  assert (Hf : Qlt_bool 0 t = false) by (apply Qlt_bool_false_iff; rewrite E; apply Qle_refl).
  now rewrite Hf.
Qed.

(** Once the running sum is [NaN] it stays [NaN]. *)
Lemma absSum_from_NaN (ds : list discrepancyRec) :
  fold_left (fun sum d => JS.add sum (JS.abs (d_cashDifference d))) ds NaN = NaN.
Proof. induction ds as [|d ds IH]; simpl; [reflexivity | exact IH]. Qed.

(** [Math.abs(undefined)] is [NaN], and so is every sum it enters. *)
Lemma absSum_absent (ds : list discrepancyRec) (init : value) :
  Exists (fun d => d_cashDifference d = Undefined) ds ->
  fold_left (fun sum d => JS.add sum (JS.abs (d_cashDifference d))) ds init = NaN.
Proof.
  intros Hex. revert init. induction Hex as [d ds Hd|d ds _ IH]; intros init; simpl.
  - rewrite Hd. simpl. destruct init; simpl; apply absSum_from_NaN.
  - apply IH.
Qed.

Lemma averageDiscrepancy_absent (r : results) :
  Exists (fun d => d_cashDifference d = Undefined) (r_discrepancies r) ->
  s_averageDiscrepancy (calculateSummaryMetrics r) = NaN.
Proof.
  intros Hex. cbn [calculateSummaryMetrics s_averageDiscrepancy].
  assert (Hpos : (0 <? length (r_discrepancies r))%nat = true).
  { apply Nat.ltb_lt. destruct (r_discrepancies r); [inversion Hex | simpl; lia]. }
  rewrite Hpos. unfold absSum. now rewrite (absSum_absent _ _ Hex).
Qed.

End Degenerate.

(** C8 (the code at the failing input).  The zero denominators are
    guarded: an entry with [totalSales == 0] has returns percentage 0,
    which exceeds no ceiling that is not negative; without entries the
    accuracy is 100; without discrepancies the average discrepancy is 0.
    But the average is not guarded against an absent [cashDifference]:
    whenever a flagged entry lacks it, [Math.abs(undefined)] makes
    [averageDiscrepancy] [NaN].  The entry below, whose opening cash is
    low, is flagged alike with its [cashDifference] absent or stored as 0,
    and the totals read the absent property as 0; yet the average
    discrepancy of the run is [NaN] in the first case and 0 in the
    second. *)
Theorem C8_average_not_a_number :
  let stored := withDerived (mkEntry "1" "2024-01-01" "REG001" 50 10 0 0 0 60) in
  let absent := omitCashDifference stored in
  let average data :=
    s_averageDiscrepancy <$> (r_summary <$> reconcile defaultRules 0 data) in
  let flagged data :=
    map (fun d => map i_type (d_issues d)) <$> findDiscrepancies defaultRules data in
  (forall (R : rules) (e : entry),
     JS.seq (totalSales e) (Num 0) = true ->
     returnsPercentageOf e = Num 0
     /\ (0 <= maxReturnsPercentage R ->
         JS.gt (returnsPercentageOf e) (Num (maxReturnsPercentage R)) = false))
  /\ (forall r, t_totalEntries (r_totals r) = 0%nat ->
        s_reconciliationAccuracy (calculateSummaryMetrics r) = Num 100)
  /\ (forall r, r_discrepancies r = [] ->
        s_averageDiscrepancy (calculateSummaryMetrics r) = Num 0)
  /\ (forall r,
        Exists (fun d => d_cashDifference d = Undefined) (r_discrepancies r) ->
        s_averageDiscrepancy (calculateSummaryMetrics r) = NaN)
  /\ cashDifference stored = Num 0
  /\ cashDifference absent = Undefined
  /\ t_totalCashDifference (calculateTotals [absent])
     = t_totalCashDifference (calculateTotals [stored])
  /\ flagged [stored] = Some [[low_opening_cash]]
  /\ flagged [absent] = Some [[low_opening_cash]]
  /\ average [stored] = Some (Num 0)
  /\ average [absent] = Some NaN.
Proof.
  intros stored absent average flagged.
  split; [|split; [|split; [|split]]].
  - intros R e Hz. rewrite (returnsPercentage_zero_sales e Hz).
    split; [reflexivity|]. intros Hmax. simpl. now apply Qlt_bool_false_iff.
  - intros r Hn. simpl. now rewrite Hn.
  - intros r Hnil. simpl. now rewrite Hnil.
  - exact averageDiscrepancy_absent.
  - repeat split; vm_compute; reflexivity.
Qed.

(** ** Entries without [totalSales] *)

Section MissingTotalSales.
Context `{Host}.

Lemma totalsStep_fill (t : totals) (e : entry) :
  totalsStep t (fillTotalSales e) = totalsStep t e.
Proof.
  unfold fillTotalSales. destruct (totalSales e) eqn:E; try reflexivity.
  unfold totalsStep. simpl. rewrite E. f_equal. f_equal.
  unfold JS.or. simpl. now destruct (JS.truthy _).
Qed.

(** [calculateTotals] does recompute a missing [totalSales]. *)
Lemma calculateTotals_tolerant (data : list entry) :
  calculateTotals (map fillTotalSales data) = calculateTotals data.
Proof.
  unfold calculateTotals. rewrite length_map. f_equal.
  generalize (totalsInit (length data)).
  induction data as [|e data IH]; intros t; simpl; [reflexivity|].
  now rewrite totalsStep_fill, IH.
Qed.

End MissingTotalSales.

(** C4 (the code at the failing inputs): with [totalSales] omitted the
    totals are those of the filled-in entries, but the per-entry checks and
    the abnormal-sales check read the absent property as it is.  A day
    without sales gets its [zero_sales] issue only when [totalSales] is
    filled in, a day whose returns are half of its sales gets its
    [high_returns] issue only then, and the peak day of a week is reported
    as abnormal only then. *)
Theorem C4_missing_totalSales_diverges :
  let types ds := map (fun d => map i_type (d_issues d)) <$> ds in
  let omitted := map omitTotalSales in
  fillTotalSales (omitTotalSales idleDay) = idleDay
  /\ calculateTotals [omitTotalSales idleDay] = calculateTotals [idleDay]
  /\ types (findDiscrepancies defaultRules [omitTotalSales idleDay]) = Some []
  /\ types (findDiscrepancies defaultRules [idleDay]) = Some [[zero_sales]]
  /\ (o_status <$> (r_overall <$> reconcile defaultRules 0 [omitTotalSales idleDay]))
     = Some balanced
  /\ (o_status <$> (r_overall <$> reconcile defaultRules 0 [idleDay])) = Some warning
  /\ types (findDiscrepancies defaultRules [omitTotalSales returnsDay]) = Some []
  /\ types (findDiscrepancies defaultRules [returnsDay]) = Some [[high_returns]]
  /\ map ve_type (validateBusinessRules (omitted (quietWeek ++ [peakDay]))) = []
  /\ map ve_type (validateBusinessRules (quietWeek ++ [peakDay])) = [abnormal_sales].
Proof. repeat split; vm_compute; reflexivity. Qed.

(** ** Rolling history *)

Section History.
Context `{Host}.

Lemma totalsStep_entries (data : list entry) (t : totals) :
  t_totalEntries (fold_left totalsStep data t) = t_totalEntries t.
Proof.
  revert t. induction data as [|e data IH]; intros t; simpl; [reflexivity|].
  now rewrite IH.
Qed.

Lemma calculateTotals_entries (data : list entry) :
  t_totalEntries (calculateTotals data) = length data.
Proof. unfold calculateTotals. simpl. now rewrite totalsStep_entries. Qed.

Lemma reconcile_defined (R : rules) (started : Z) (data : list entry) :
  (forall e, In e data -> cashDifference e = Undefined ->
             0 <= cashDiscrepancyThreshold R) ->
  exists r,
    reconcile R started data = Some r
    /\ r_timestamp r = started
    /\ r_totals r = calculateTotals data.
Proof.
  intros Hsafe. destruct (findDiscrepancies_defined R data Hsafe) as (ds & _ & Hds).
  unfold reconcile. rewrite Hds. simpl. eexists. repeat split.
Qed.

(** Every stored element is within the cutoff after a save, whatever is
    saved. *)
Lemma saveReconciliationHistory_pruned (now : Z) (r : results) (eng : engine) :
  Forall (fun h => (cutoffDate now 90 <= h_timestamp h)%Z)
         (reconciliationHistory (saveReconciliationHistory now r eng)).
Proof.
  simpl. apply List.Forall_forall. intros h Hh.
  apply filter_In in Hh as [_ Hh]. now apply Z.leb_le in Hh.
Qed.

(** C10: after the history append of a reconciliation run, every element
    of the stored history has a timestamp within the last 90 days of the
    clock reading of the pruning, the element appended last is the compact
    projection (timestamp, summary, overall, totalEntries) of the run's
    result, older elements are removed, and the pruned list is the one
    persisted.  The run reads the clock at [started] for its timestamp and
    at [saved] for the cutoff, not more than 90 days later. *)
Theorem C10_history_pruned (started saved : Z) (data : list entry) (eng : engine) :
  (forall e, In e data -> cashDifference e = Undefined ->
             0 <= cashDiscrepancyThreshold (reconciliationRules eng)) ->
  (saved - started <= 90 * msPerDay)%Z ->
  exists r eng',
    runFullReconciliation started saved data eng = Some (r, eng')
    /\ reconciliationHistory eng'
       = List.filter (withinCutoff (cutoffDate saved 90)) (reconciliationHistory eng)
           ++ [projection r]
    /\ projection r
       = {| h_timestamp := started;
            h_summary := r_summary r;
            h_overall := r_overall r;
            h_totalEntries := length data |}
    /\ Forall (fun h => (cutoffDate saved 90 <= h_timestamp h)%Z)
              (reconciliationHistory eng')
    /\ (forall h, In h (reconciliationHistory eng) ->
                  (h_timestamp h < cutoffDate saved 90)%Z ->
                  ~ In h (reconciliationHistory eng'))
    /\ storedHistory eng' = reconciliationHistory eng'
    /\ lastResults eng' = Some r.
Proof.
  intros Hsafe Htime.
  destruct (reconcile_defined (reconciliationRules eng) started data Hsafe)
    as (r & Hr & Hts & Htot).
  exists r, (saveReconciliationHistory saved r
               {| reconciliationRules := reconciliationRules eng;
                  lastResults := Some r;
                  reconciliationHistory := reconciliationHistory eng;
                  storedHistory := storedHistory eng |}).
  split; [unfold runFullReconciliation; now rewrite Hr|].
  assert (Hkeep : withinCutoff (cutoffDate saved 90) (projection r) = true).
  { unfold withinCutoff, cutoffDate. simpl. rewrite Hts. apply Z.leb_le. lia. }
  split; [|split; [|split; [|split; [|split]]]].
  - simpl. rewrite List.filter_app. simpl. now rewrite Hkeep.
  - unfold projection. now rewrite Hts, Htot, calculateTotals_entries.
  - apply saveReconciliationHistory_pruned.
  - intros h _ Hold Hin.
    pose proof (saveReconciliationHistory_pruned saved r
                  {| reconciliationRules := reconciliationRules eng;
                     lastResults := Some r;
                     reconciliationHistory := reconciliationHistory eng;
                     storedHistory := storedHistory eng |}) as Hall.
    rewrite List.Forall_forall in Hall. specialize (Hall h Hin). lia.
  - reflexivity.
  - reflexivity.
Qed.

End History.

Lemma C10_history_pruned_witness :
  let old := {| h_timestamp := 0; h_summary := emptySummary;
                h_overall := emptyOverall; h_totalEntries := 0 |} in
  let day100 := (100 * msPerDay)%Z in
  exists r eng',
    runFullReconciliation day100 (day100 + 5) [withDerived scenarioA]
                          (newEngine [old]) = Some (r, eng')
    /\ reconciliationHistory eng' = [projection r]
    /\ h_timestamp (projection r) = day100.
Proof.
  intros old day100.
  destruct (C10_history_pruned day100 (day100 + 5) [withDerived scenarioA]
              (newEngine [old]))
    as (r & eng' & Hrun & Hhist & Hproj & _).
  - intros e He Hu. vm_compute. discriminate.
  - vm_compute. discriminate.
  - exists r, eng'. split; [exact Hrun|]. split.
    + rewrite Hhist. reflexivity.
    + now rewrite Hproj.
Defined.

(** ** Duplicate entries *)

Section Strings.

Local Open Scope string_scope.

Lemma string_length_app (a b : string) :
  String.length (a +:+ b) = (String.length a + String.length b)%nat.
Proof. induction a as [|c a IH]; simpl; [reflexivity | now rewrite IH]. Qed.

Lemma string_app_inj_left (a b x y : string) :
  String.length a = String.length b -> a +:+ x = b +:+ y -> a = b /\ x = y.
Proof.
  revert b. induction a as [|c a IH]; intros [|c' b] Hlen Heq;
    simpl in *; try discriminate.
  - auto.
  - injection Heq as -> Heq. destruct (IH b) as [-> ->]; auto.
Qed.

Lemma string_app_inj_right (a b x y : string) :
  String.length x = String.length y -> a +:+ x = b +:+ y -> a = b /\ x = y.
Proof.
  intros Hlen Heq. apply string_app_inj_left; [|exact Heq].
  apply (f_equal String.length) in Heq. rewrite !string_length_app in Heq. lia.
Qed.

End Strings.

Section Duplicates.
Context `{Host}.

Local Open Scope string_scope.
Local Open Scope list_scope.

Lemma samePairb_true (a b : entry) :
  samePairb a b = true <-> date a = date b /\ registerNumber a = registerNumber b.
Proof.
  unfold samePairb. now rewrite andb_true_iff, !bool_decide_eq_true.
Qed.

Lemma pairKey_inj (a b : entry) :
  wellKeyed a -> wellKeyed b -> pairKey a = pairKey b -> samePairb a b = true.
Proof.
  intros [(da & Hda & La) [ra Hra]] [(db & Hdb & Lb) [rb Hrb]] Hkey.
  apply samePairb_true. unfold pairKey in Hkey.
  rewrite Hda, Hdb, Hra, Hrb in *. simpl in Hkey.
  apply string_app_inj_left in Hkey as [-> Hrest]; [|congruence].
  injection Hrest as Hrest. change (ra = rb) in Hrest. subst. auto.
Qed.

Lemma duplicateDescription_inj (a b : entry) :
  wellKeyed a -> wellKeyed b ->
  duplicateDescription a = duplicateDescription b -> samePairb a b = true.
Proof.
  intros [(da & Hda & La) [ra Hra]] [(db & Hdb & Lb) [rb Hrb]] Hdesc.
  apply samePairb_true. unfold duplicateDescription in Hdesc. simpl in Hdesc.
  rewrite Hda, Hdb, Hra, Hrb in *. simpl in Hdesc.
  apply string_app_inj_left in Hdesc as [_ Hdesc]; [|reflexivity].
  apply string_app_inj_right in Hdesc as [-> Hdate].
  - injection Hdate as Hdate. change (da = db) in Hdate. subst. auto.
  - rewrite !string_length_app. congruence.
Qed.

Lemma samePairb_keys (a b : entry) :
  samePairb a b = true ->
  pairKey a = pairKey b /\ duplicateDescription a = duplicateDescription b.
Proof.
  intros Hs. apply samePairb_true in Hs as [Hd Hr].
  unfold pairKey, duplicateDescription. simpl. now rewrite Hd, Hr.
Qed.

Lemma duplicatesFrom_cons (seen : gmap string string) (e : entry)
    (rest : list entry) :
  duplicatesFrom seen (e :: rest)
  = match seen !! pairKey e with
    | Some first => duplicateError first e :: duplicatesFrom seen rest
    | None => duplicatesFrom (<[pairKey e := entry_id e]> seen) rest
    end.
Proof. reflexivity. Qed.

Lemma groupOf_cons (e x : entry) (data : list entry) :
  groupOf e (x :: data)
  = if samePairb e x then x :: groupOf e data else groupOf e data.
Proof. reflexivity. Qed.

Lemma namesGroupOf_error (e x : entry) (first : string) :
  namesGroupOf e (duplicateError first x)
  = bool_decide (duplicateDescription x = duplicateDescription e).
Proof. reflexivity. Qed.

Lemma duplicateStep_fold (data : list entry)
    (st : gmap string string * list validationError) :
  (fold_left duplicateStep data st).2 = st.2 ++ duplicatesFrom st.1 data.
Proof.
  revert st. induction data as [|e data IH]; intros [seen errs].
  - cbn [fold_left duplicatesFrom snd]. now rewrite app_nil_r.
  - cbn [fold_left]. rewrite IH, duplicatesFrom_cons. unfold duplicateStep.
    cbn [fst snd].
    destruct (seen !! pairKey e) as [first|]; cbn [fst snd]; [|reflexivity].
    now rewrite <- app_assoc.
Qed.

Lemma duplicateErrors_from (data : list entry) :
  duplicateErrors data = duplicatesFrom ∅ data.
Proof. unfold duplicateErrors. now rewrite duplicateStep_fold. Qed.

(** The errors that name the group of [e], for any state of the [Map]. *)
Lemma duplicatesFrom_group (e : entry) (data : list entry)
    (seen : gmap string string) :
  wellKeyed e -> Forall wellKeyed data ->
  List.filter (namesGroupOf e) (duplicatesFrom seen data)
  = match seen !! pairKey e with
    | Some first => map (duplicateError first) (groupOf e data)
    | None =>
        match groupOf e data with
        | [] => []
        | f :: rest => map (duplicateError (entry_id f)) rest
        end
    end.
Proof.
  intros He Hall. revert seen.
  induction Hall as [|x data Hx _ IH]; intros seen.
  - cbn [duplicatesFrom groupOf List.filter map]. now destruct (seen !! pairKey e).
  - rewrite duplicatesFrom_cons, groupOf_cons.
    destruct (samePairb e x) eqn:Hsame.
    + destruct (samePairb_keys e x Hsame) as [Hkey Hdesc].
      rewrite <- Hkey.
      destruct (seen !! pairKey e) as [first|] eqn:Hseen.
      * cbn [List.filter map]. rewrite namesGroupOf_error.
        rewrite bool_decide_eq_true_2 by (now symmetry).
        rewrite IH, Hseen. reflexivity.
      * rewrite IH, lookup_insert_eq. reflexivity.
    + assert (Hkey : pairKey x <> pairKey e).
      { intros E. symmetry in E. apply (pairKey_inj e x He Hx) in E. congruence. }
      assert (Hdesc : duplicateDescription x <> duplicateDescription e).
      { intros E. symmetry in E.
        apply (duplicateDescription_inj e x He Hx) in E. congruence. }
      destruct (seen !! pairKey x) as [first|] eqn:Hseen.
      * cbn [List.filter]. rewrite namesGroupOf_error.
        rewrite bool_decide_eq_false_2 by exact Hdesc.
        apply IH.
      * rewrite IH, lookup_insert_ne by exact Hkey. reflexivity.
Qed.

End Duplicates.

Section DuplicateGroups.
Context `{Host}.

Lemma duplicatesFrom_named (data : list entry) (seen : gmap string string) ve :
  In ve (duplicatesFrom seen data) ->
  exists x, In x data /\ namesGroupOf x ve = true.
Proof.
  revert seen. induction data as [|e data IH]; intros seen Hin; [destruct Hin|].
  rewrite duplicatesFrom_cons in Hin.
  destruct (seen !! pairKey e) as [first|].
  - destruct Hin as [<-|Hin].
    + exists e. split; [now left|]. rewrite namesGroupOf_error.
      now apply bool_decide_eq_true.
    + destruct (IH _ Hin) as (x & Hx & Hn). exists x. split; [now right | exact Hn].
  - destruct (IH _ Hin) as (x & Hx & Hn). exists x. split; [now right | exact Hn].
Qed.

(** C6: on entries keyed by a calendar date and a register number, the
    [duplicate_entry] errors naming a (date, registerNumber) pair are, in
    order, one per repeat of the pair: each has severity [high] and refers
    to the id of the first entry of the group and to the id of the repeating
    entry.  A group of [count] entries so yields [count - 1] errors, a pair
    that occurs once yields none, and every [duplicate_entry] error names
    the pair of some entry. *)
Theorem C6_duplicate_entries (data : list entry) (e : entry) :
  Forall wellKeyed data -> wellKeyed e ->
  let found := errorsOfType duplicate_entry (validateBusinessRules data) in
  let group := groupOf e data in
  let errs := List.filter (namesGroupOf e) found in
  errs = match group with
         | [] => []
         | f :: rest => map (duplicateError (entry_id f)) rest
         end
  /\ length errs = (length group - 1)%nat
  /\ Forall (fun ve => ve_severity ve = high) found
  /\ (forall ve, In ve errs ->
        exists f rest x,
          group = f :: rest /\ In x rest
          /\ ve_payload ve = affectedEntries (entry_id f) (entry_id x))
  /\ (length group = 1%nat -> errs = [])
  /\ (forall ve, In ve found -> exists x, In x data /\ namesGroupOf x ve = true).
Proof.
  intros Hall He found group errs.
  assert (Hfound : found = duplicatesFrom ∅ data).
  { subst found. now rewrite duplicates_of_rules, duplicateErrors_from. }
  assert (Herrs : errs = match group with
                         | [] => []
                         | f :: rest => map (duplicateError (entry_id f)) rest
                         end).
  { subst errs. rewrite Hfound, (duplicatesFrom_group e data ∅ He Hall).
    now rewrite lookup_empty. }
  split; [exact Herrs|]. split; [|split; [|split; [|split]]].
  - rewrite Herrs. destruct group as [|f rest]; [reflexivity|].
    rewrite length_map. simpl. lia.
  - subst found. rewrite duplicates_of_rules.
    eapply List.Forall_impl; [|apply duplicateErrors_type]. simpl. tauto.
  - intros ve Hve. rewrite Herrs in Hve. destruct group as [|f rest]; [destruct Hve|].
    apply in_map_iff in Hve as (x & <- & Hx). exists f, rest, x. auto.
  - intros Hone. rewrite Herrs. destruct group as [|f [|g rest]]; try discriminate.
    reflexivity.
  - intros ve Hve. rewrite Hfound in Hve. eapply duplicatesFrom_named; eauto.
Qed.

End DuplicateGroups.

Lemma wellKeyed_sample (i d r : string) (o c k rr cd cl : Q) :
  String.length d = 10%nat -> wellKeyed (withDerived (mkEntry i d r o c k rr cd cl)).
Proof. intros Hd. split; simpl; eauto. Qed.

Lemma C6_duplicate_entries_witness :
  let data := [withDerived scenarioA; withDerived scenarioB;
               dayEntry "3" "2024-01-04" 100 0; dayEntry "4" "2024-01-01" 100 0] in
  List.filter (namesGroupOf (withDerived scenarioA))
              (errorsOfType duplicate_entry (validateBusinessRules data))
  = [duplicateError "1" (withDerived scenarioB);
     duplicateError "1" (dayEntry "4" "2024-01-01" 100 0)]
  /\ List.filter (namesGroupOf (dayEntry "3" "2024-01-04" 100 0))
                 (errorsOfType duplicate_entry (validateBusinessRules data))
     = [].
Proof.
  intros data.
  assert (Hall : Forall wellKeyed data)
    by (repeat constructor; apply wellKeyed_sample; reflexivity).
  split.
  - destruct (C6_duplicate_entries data (withDerived scenarioA) Hall) as (-> & _).
    + apply wellKeyed_sample. reflexivity.
    + vm_compute. reflexivity.
  - destruct (C6_duplicate_entries data (dayEntry "3" "2024-01-04" 100 0) Hall)
      as (_ & _ & _ & _ & Hone & _).
    + apply wellKeyed_sample. reflexivity.
    + apply Hone. vm_compute. reflexivity.
Defined.

(** * Further properties *)

(** ** The order of the discrepancy list *)

Section SeveritySort.
Context `{Host}.

Lemma severityOrder_inj s1 s2 : severityOrder s1 = severityOrder s2 -> s1 = s2.
Proof. destruct s1, s2; simpl; intros; congruence || lia. Qed.

Lemma insertBySeverity_sorted d l :
  StronglySorted (fun a b => (rankOf b <= rankOf a)%Z) l ->
  StronglySorted (fun a b => (rankOf b <= rankOf a)%Z) (insertBySeverity d l).
Proof.
  induction 1 as [|x l Hl IH Hx]; simpl.
  - repeat constructor.
  - fold (rankOf d). fold (rankOf x).
    destruct (rankOf d <? rankOf x)%Z eqn:E.
    + apply Z.ltb_lt in E. constructor; [exact IH|].
      apply List.Forall_forall. intros y Hy.
      apply (Permutation_in _ (insertBySeverity_Permutation d l)) in Hy.
      destruct Hy as [<-|Hy]; [lia|].
      rewrite List.Forall_forall in Hx. now apply Hx.
    + apply Z.ltb_ge in E. constructor; [now constructor|].
      constructor; [exact E|].
      eapply List.Forall_impl; [|exact Hx]. simpl. intros y Hy. lia.
Qed.

Lemma sortBySeverity_sorted l :
  StronglySorted (fun a b => (rankOf b <= rankOf a)%Z) (sortBySeverity l).
Proof.
  induction l as [|d l IH]; simpl; [constructor|].
  now apply insertBySeverity_sorted.
Qed.

Lemma insertBySeverity_stable s d l :
  List.filter (hasSeverity s) (insertBySeverity d l)
  = List.filter (hasSeverity s) (d :: l).
Proof.
  induction l as [|x l IH]; [reflexivity|].
  cbn [insertBySeverity]. fold (rankOf d). fold (rankOf x).
  destruct (rankOf d <? rankOf x)%Z eqn:E; [|reflexivity].
  apply Z.ltb_lt in E.
  cbn [List.filter] in *. rewrite IH.
  destruct (hasSeverity s x) eqn:Ex; destruct (hasSeverity s d) eqn:Ed;
    try reflexivity.
  apply bool_decide_eq_true in Ex, Ed. unfold rankOf in E.
  rewrite Ex, Ed in E. lia.
Qed.

Lemma sortBySeverity_stable s l :
  List.filter (hasSeverity s) (sortBySeverity l) = List.filter (hasSeverity s) l.
Proof.
  induction l as [|d l IH]; [reflexivity|].
  cbn [sortBySeverity foldr]. fold (sortBySeverity l).
  rewrite insertBySeverity_stable. cbn [List.filter]. now rewrite IH.
Qed.

Lemma collectDiscrepancies_sublist (R : rules) (data : list entry) collected :
  collectDiscrepancies R data = Some collected ->
  sublist (map d_entryId collected) (map entry_id data).
Proof.
  revert collected. induction data as [|e data IH]; intros collected; simpl.
  - intros [= <-]. constructor.
  - destruct (entryIssues R e) as [issues|]; [|discriminate].
    destruct (collectDiscrepancies R data) as [ds|]; [|discriminate].
    simpl. intros [= <-]. specialize (IH ds eq_refl).
    destruct issues; [now apply sublist_cons | now apply sublist_skip].
Qed.

(** X1: the list [findDiscrepancies] returns holds the flagged entries, in
    descending order of overall severity; records of equal severity keep
    the order of the input. *)
Theorem findDiscrepancies_sorted_stable (R : rules) (data : list entry)
    (ds : list discrepancyRec) :
  findDiscrepancies R data = Some ds ->
  exists collected,
    collectDiscrepancies R data = Some collected
    /\ sublist (map d_entryId collected) (map entry_id data)
    /\ Permutation ds collected
    /\ StronglySorted
         (fun a b => (severityOrder (d_overallSeverity b)
                      <= severityOrder (d_overallSeverity a))%Z) ds
    /\ (forall s, List.filter (hasSeverity s) ds = List.filter (hasSeverity s) collected).
Proof.
  unfold findDiscrepancies.
  destruct (collectDiscrepancies R data) as [collected|] eqn:Hc; [|discriminate].
  simpl. intros [= <-]. exists collected. split; [reflexivity|].
  split; [now apply (collectDiscrepancies_sublist R)|].
  split; [apply sortBySeverity_Permutation|].
  split; [apply sortBySeverity_sorted | intros s; apply sortBySeverity_stable].
Qed.

End SeveritySort.

(** ** When the discrepancy scan raises, and what it records *)

Section ScanRecords.
Context `{Host}.

Lemma cashCheck_raises (R : rules) (e : entry) :
  cashCheck R e = None
  <-> cashDifference e = Undefined /\ cashDiscrepancyThreshold R < 0.
Proof.
  split.
  - intros Hnone.
    assert (Hcd : cashDifference e = Undefined).
    { destruct (cashDifference e) eqn:Hcd; [reflexivity| |]; exfalso;
        (destruct (cashCheck_defined R e) as [c Hc];
         [rewrite Hcd; discriminate | congruence]). }
    split; [exact Hcd|].
    destruct (Qlt_le_dec (cashDiscrepancyThreshold R) 0) as [Hlt|Hge]; [exact Hlt|].
    exfalso. destruct (cashCheck_defined R e) as [c Hc]; [auto | congruence].
  - intros [Hcd Hlt]. unfold cashCheck. rewrite Hcd. simpl.
    assert (E : Qlt_bool (cashDiscrepancyThreshold R) (Qabs 0) = true)
      by (apply Qlt_bool_iff; exact Hlt).
    simpl in E. now rewrite E.
Qed.

Lemma entryIssues_raises (R : rules) (e : entry) :
  entryIssues R e = None
  <-> cashDifference e = Undefined /\ cashDiscrepancyThreshold R < 0.
Proof.
  rewrite <- cashCheck_raises. unfold entryIssues.
  destruct (cashCheck R e) as [c|]; simpl; [|tauto].
  destruct (returnsCheck_defined R e) as [r ->]. simpl. split; discriminate.
Qed.

Lemma collectDiscrepancies_raises (R : rules) (data : list entry) :
  collectDiscrepancies R data = None
  <-> exists e, In e data /\ cashDifference e = Undefined
                /\ cashDiscrepancyThreshold R < 0.
Proof.
  induction data as [|e data IH]; simpl.
  - split; [discriminate | intros (e & [] & _)].
  - destruct (entryIssues R e) as [issues|] eqn:He; simpl.
    + destruct (collectDiscrepancies R data) as [ds|]; simpl.
      * split; [discriminate|]. intros (x & [<-|Hx] & Hu).
        -- apply entryIssues_raises in Hu. congruence.
        -- assert (Hsome : @None (list discrepancyRec) = None) by reflexivity.
           destruct IH as [_ IH]. discriminate IH. eauto.
      * split; [|reflexivity]. intros _.
        destruct IH as [IH _]. destruct (IH eq_refl) as (x & Hx & Hu). eauto.
    + split; [|reflexivity]. intros _. exists e. split; [now left|].
      now apply entryIssues_raises.
Qed.

(** X2: [findDiscrepancies] raises a [TypeError] exactly when the cash
    threshold is negative and some entry has no [cashDifference]; with the
    default rules it always returns. *)
Theorem findDiscrepancies_raises (R : rules) (data : list entry) :
  (findDiscrepancies R data = None
   <-> exists e, In e data /\ cashDifference e = Undefined
                 /\ cashDiscrepancyThreshold R < 0)
  /\ is_Some (findDiscrepancies defaultRules data).
Proof.
  assert (Hiff : forall R', findDiscrepancies R' data = None
                            <-> collectDiscrepancies R' data = None).
  { intros R'. unfold findDiscrepancies.
    destruct (collectDiscrepancies R' data); simpl; split; congruence. }
  split.
  - rewrite Hiff. apply collectDiscrepancies_raises.
  - destruct (findDiscrepancies defaultRules data) eqn:E; [eauto|].
    apply Hiff, collectDiscrepancies_raises in E as (e & _ & _ & Hneg).
    vm_compute in Hneg. discriminate.
Qed.

Lemma collectDiscrepancies_records (R : rules) (data : list entry) collected d :
  collectDiscrepancies R data = Some collected ->
  (In d collected
   <-> exists e issues,
         In e data /\ entryIssues R e = Some issues /\ issues <> []
         /\ d = mkDiscrepancy e issues).
Proof.
  intros Hc. split.
  - revert collected Hc. induction data as [|x data IH]; intros collected; simpl.
    + intros [= <-] [].
    + destruct (entryIssues R x) as [ix|] eqn:Hx; [|discriminate].
      destruct (collectDiscrepancies R data) as [ds|]; [|discriminate].
      simpl. intros [= <-] Hin.
      assert (Hrest : In d ds ->
                exists e issues, (x = e \/ In e data) /\ entryIssues R e = Some issues
                                 /\ issues <> [] /\ d = mkDiscrepancy e issues).
      { intros Hd. destruct (IH ds eq_refl Hd) as (e & issues & He & Hrest).
        exists e, issues. split; [now right | exact Hrest]. }
      destruct ix as [|i ix]; [now apply Hrest|].
      destruct Hin as [<-|Hin]; [|now apply Hrest].
      exists x, (i :: ix). repeat split; auto; discriminate.
  - intros (e & issues & He & Hissues & Hne & ->).
    eapply collectDiscrepancies_In; eauto.
Qed.

Lemma collectDiscrepancies_length (R : rules) (data : list entry) collected :
  collectDiscrepancies R data = Some collected ->
  (length collected <= length data)%nat.
Proof.
  intros Hc. pose proof (collectDiscrepancies_sublist R data collected Hc) as Hs.
  apply sublist_length in Hs. now rewrite !length_map in Hs.
Qed.

(** X3: the records [findDiscrepancies] returns are exactly the entries
    with at least one issue: every record copies the id, date, register
    number and cash difference of its entry and carries that entry's
    issues, every entry with an issue has its record, and so there are at
    most as many records as entries. *)
Theorem findDiscrepancies_records (R : rules) (data : list entry)
    (ds : list discrepancyRec) :
  findDiscrepancies R data = Some ds ->
  (forall d,
     In d ds
     <-> exists e issues,
           In e data /\ entryIssues R e = Some issues /\ issues <> []
           /\ d = mkDiscrepancy e issues)
  /\ (length ds <= length data)%nat.
Proof.
  unfold findDiscrepancies.
  destruct (collectDiscrepancies R data) as [collected|] eqn:Hc; [|discriminate].
  simpl. intros [= <-]. split.
  - intros d. rewrite <- (collectDiscrepancies_records R data collected d Hc).
    split; apply Permutation_in;
      [apply sortBySeverity_Permutation | symmetry; apply sortBySeverity_Permutation].
  - rewrite sortBySeverity_length. now apply (collectDiscrepancies_length R).
Qed.

(** X4: [calculateOverallSeverity] is the greatest severity among the
    issues: it is the severity of one of them and no issue ranks higher;
    without issues it is [low]. *)
Theorem calculateOverallSeverity_max (issues : list issue) :
  (issues <> [] ->
   exists i, In i issues /\ i_severity i = calculateOverallSeverity issues)
  /\ (forall i, In i issues ->
        (severityOrder (i_severity i)
         <= severityOrder (calculateOverallSeverity issues))%Z)
  /\ calculateOverallSeverity [] = low.
Proof.
  unfold calculateOverallSeverity.
  destruct (existsb (fun i => bool_decide (i_severity i = high)) issues) eqn:Eh.
  { apply existsb_exists in Eh as (i & Hi & Hs). apply bool_decide_eq_true in Hs.
    repeat split; eauto. intros j _. destruct (i_severity j); simpl; lia. }
  destruct (existsb (fun i => bool_decide (i_severity i = medium)) issues) eqn:Em.
  { apply existsb_exists in Em as (i & Hi & Hs). apply bool_decide_eq_true in Hs.
    repeat split; eauto. intros j Hj. destruct (i_severity j) eqn:Ej; simpl; try lia.
    exfalso. assert (Hex : existsb (fun i => bool_decide (i_severity i = high)) issues = true).
    { apply existsb_exists. exists j. split; [exact Hj|]. now apply bool_decide_eq_true. }
    congruence. }
  repeat split.
  - intros Hne. destruct issues as [|i issues]; [congruence|].
    exists i. split; [now left|].
    destruct (i_severity i) eqn:Ei; [reflexivity| |].
    + exfalso. simpl in Em. rewrite Ei in Em. discriminate.
    + exfalso. simpl in Eh. rewrite Ei in Eh. discriminate.
  - intros j Hj. destruct (i_severity j) eqn:Ej; simpl; try lia; exfalso.
    + assert (Hex : existsb (fun i => bool_decide (i_severity i = medium)) issues = true).
      { apply existsb_exists. exists j. split; [exact Hj|]. now apply bool_decide_eq_true. }
      congruence.
    + assert (Hex : existsb (fun i => bool_decide (i_severity i = high)) issues = true).
      { apply existsb_exists. exists j. split; [exact Hj|]. now apply bool_decide_eq_true. }
      congruence.
Qed.

End ScanRecords.

(** ** Bounds on the summary of a run *)

Section SummaryBounds.
Context `{Host}.

Lemma ratio_bounds (k n : nat) :
  (k <= n)%nat -> (0 < n)%nat ->
  let x := inject_Z (Z.of_nat n - Z.of_nat k) / inject_Z (Z.of_nat n) in
  0 <= x * 100 /\ x * 100 <= 100 /\ (x * 100 == 100 <-> k = 0%nat).
Proof.
  intros Hk Hn x.
  assert (Hb : 0 < inject_Z (Z.of_nat n)).
  { unfold Qlt. simpl. lia. }
  assert (Hb0 : ~ inject_Z (Z.of_nat n) == 0).
  { intros E. rewrite E in Hb. apply (Qlt_irrefl 0 Hb). }
  assert (Ha : 0 <= inject_Z (Z.of_nat n - Z.of_nat k)).
  { unfold Qle. simpl. lia. }
  assert (Hab : inject_Z (Z.of_nat n - Z.of_nat k) <= inject_Z (Z.of_nat n)).
  { unfold Qle. simpl. lia. }
  assert (Hx0 : 0 <= x).
  { subst x. apply Qle_shift_div_l; [exact Hb|]. now rewrite Qmult_0_l. }
  assert (Hx1 : x <= 1).
  { subst x. apply Qle_shift_div_r; [exact Hb|]. now rewrite Qmult_1_l. }
  assert (Hlin : forall y : Q, 0 <= y -> y <= 1 ->
            0 <= y * 100 /\ y * 100 <= 100 /\ (y * 100 == 100 -> y == 1)).
  { intros y Hy0 Hy1. repeat split; Lqa.lra. }
  destruct (Hlin x Hx0 Hx1) as (H0 & H1 & H2).
  split; [exact H0|]. split; [exact H1|].
  split.
  - intros E. assert (Ex : x == 1) by (apply H2; exact E).
    assert (Eab : inject_Z (Z.of_nat n - Z.of_nat k) == inject_Z (Z.of_nat n)).
    { rewrite <- (Qmult_div_r (inject_Z (Z.of_nat n - Z.of_nat k))
                              (inject_Z (Z.of_nat n)) Hb0).
      fold x. rewrite Ex. ring. }
    unfold Qeq in Eab. simpl in Eab. lia.
  - intros ->. subst x. rewrite Z.sub_0_r. field. exact Hb0.
Qed.

Lemma highCount_le (ds : list discrepancyRec) :
  (length (List.filter (fun d => bool_decide (d_overallSeverity d = high)) ds)
   <= length ds)%nat.
Proof. apply List.filter_length_le. Qed.

(** X5: in the result of a run there are at most as many discrepancies as
    entries, so the reconciliation accuracy is a number between 0 and 100;
    it is 100 exactly when no entry is flagged. *)
Theorem run_accuracy_bounds (R : rules) (started : Z) (data : list entry)
    (r : results) :
  reconcile R started data = Some r ->
  s_totalDiscrepancies (r_summary r) = length (r_discrepancies r)
  /\ (s_highSeverityDiscrepancies (r_summary r)
      <= s_totalDiscrepancies (r_summary r) <= length data)%nat
  /\ exists q,
       s_reconciliationAccuracy (r_summary r) = Num q
       /\ 0 <= q /\ q <= 100
       /\ (q == 100 <-> r_discrepancies r = []).
Proof.
  unfold reconcile, findDiscrepancies.
  destruct (collectDiscrepancies R data) as [collected|] eqn:Hc; [|discriminate].
  simpl. intros [= <-]. cbn [r_summary r_discrepancies setOverall setSummary].
  unfold calculateSummaryMetrics.
  cbn [s_totalDiscrepancies s_highSeverityDiscrepancies s_reconciliationAccuracy
       r_discrepancies r_totals].
  rewrite calculateTotals_entries.
  pose proof (collectDiscrepancies_length R data collected Hc) as Hlen.
  rewrite <- (sortBySeverity_length collected) in Hlen.
  split; [reflexivity|]. split; [split; [apply highCount_le | exact Hlen]|].
  destruct (0 <? length data)%nat eqn:En.
  - apply Nat.ltb_lt in En.
    destruct (ratio_bounds _ _ Hlen En) as (H0 & H1 & H100).
    cbn [JS.div JS.mul JS.lift2]. rewrite (inject_nat_nonzero _ En).
    eexists. split; [reflexivity|]. split; [exact H0|]. split; [exact H1|].
    rewrite H100. split; [apply length_zero_iff_nil | now intros ->].
  - apply Nat.ltb_ge in En. exists 100. split; [reflexivity|].
    split; [discriminate|]. split; [apply Qle_refl|].
    split; [|reflexivity]. intros _. apply length_zero_iff_nil. lia.
Qed.

End SummaryBounds.

(** ** Recommendations *)

Section Recommendations.
Context `{Host}.

Local Open Scope string_scope.
Local Open Scope list_scope.

Lemma accuracy_clean (r0 : results) :
  r_discrepancies r0 = [] ->
  JS.lt (s_reconciliationAccuracy (calculateSummaryMetrics r0)) (Num 90) = false.
Proof.
  intros Hnil. simpl. rewrite Hnil. simpl length.
  destruct (0 <? t_totalEntries (r_totals r0))%nat eqn:En; [|reflexivity].
  apply Nat.ltb_lt in En.
  destruct (ratio_bounds 0 _ (Nat.le_0_l _) En) as (_ & _ & H100).
  cbn [JS.div JS.mul JS.lift2]. rewrite (inject_nat_nonzero _ En).
  cbn [JS.lt]. apply Qlt_bool_false_iff.
  assert (E : inject_Z (Z.of_nat (t_totalEntries (r_totals r0)) - Z.of_nat 0)
              / inject_Z (Z.of_nat (t_totalEntries (r_totals r0))) * 100 == 100)
    by now apply H100.
  rewrite E. discriminate.
Qed.

(** X7: the recommendations are never empty, and the overall status is
    [balanced] exactly when they consist of the single message that all
    checks passed; [totalDifference] repeats [totalCashVariance]. *)
Theorem recommendations_all_passed (R : rules) (r0 : results) :
  let o := determineOverallStatus R (summarised r0) in
  o_recommendations o <> []
  /\ (o_status o = balanced
      <-> o_recommendations o = ["All reconciliation checks passed successfully"])
  /\ o_totalDifference o = s_totalCashVariance (r_summary (summarised r0)).
Proof.
  intros o. subst o. unfold determineOverallStatus, statusLadder.
  set (extra := (if JS.lt (s_reconciliationAccuracy (r_summary (summarised r0))) (Num 90)
                 then ["Improve data entry procedures to increase accuracy"] else [])
                ++ recoveryMessage (s_cashRecoveryNeeded (r_summary (summarised r0)))).
  destruct ((0 <? s_highSeverityDiscrepancies (r_summary (summarised r0)))%nat
            || hasHighError (r_validationErrors (summarised r0))) eqn:E1.
  { cbn. repeat split; intros; try discriminate; congruence. }
  destruct ((0 <? length (r_discrepancies (summarised r0)))%nat
            || (0 <? length (r_validationErrors (summarised r0)))%nat) eqn:E2.
  { cbn. repeat split; intros; try discriminate; congruence. }
  destruct (JS.gt (JS.abs (t_overallCashDifference (r_totals (summarised r0))))
                  (Num (cashDiscrepancyThreshold R))) eqn:E3.
  { cbn. repeat split; intros; try discriminate; congruence. }
  apply orb_false_iff in E2 as [E2 _]. apply Nat.ltb_ge in E2.
  assert (Hnil : r_discrepancies r0 = []).
  { simpl in E2. destruct (r_discrepancies r0); [reflexivity | simpl in E2; lia]. }
  assert (Hextra : extra = []).
  { subst extra. cbn [r_summary summarised setSummary].
    rewrite (accuracy_clean r0 Hnil). simpl. rewrite Hnil. reflexivity. }
  cbn [o_recommendations o_status o_totalDifference List.app].
  fold extra. rewrite Hextra. repeat split; try discriminate.
Qed.

End Recommendations.

(** ** Running sums *)

Section TotalsConsistency.

Lemma or_zero_numeric (v : value) :
  isNum v -> exists q, JS.or v (Num 0) = Num q /\ q == numOf v.
Proof.
  destruct v as [| |x]; try contradiction. intros _. unfold JS.or. simpl.
  destruct (Qeq_bool x 0) eqn:E; simpl.
  - apply Qeq_bool_iff in E. exists 0. split; [reflexivity | now symmetry].
  - exists x. split; reflexivity.
Qed.

Lemma totals_fold (data : list entry) (t : totals) :
  let t' := fold_left totalsStep data t in
  t_cashSales t' = accumulate cashSales data (t_cashSales t)
  /\ t_cardSales t' = accumulate cardSales data (t_cardSales t)
  /\ t_totalReturns t' = accumulate returnsRefunds data (t_totalReturns t)
  /\ t_totalCashDrops t' = accumulate cashDrops data (t_totalCashDrops t)
  /\ t_openingCash t' = accumulate openingCash data (t_openingCash t)
  /\ t_closingCash t' = accumulate closingCash data (t_closingCash t)
  /\ t_totalCashDifference t'
     = accumulate cashDifference data (t_totalCashDifference t)
  /\ t_totalSales t'
     = fold_left
         (fun acc e =>
            JS.add acc (JS.or (totalSales e) (JS.add (cashSales e) (cardSales e))))
         data (t_totalSales t).
Proof.
  revert t. unfold accumulate.
  induction data as [|e data IH]; intros t; cbn [fold_left].
  - repeat split.
  - apply (IH (totalsStep t e)).
Qed.

End TotalsConsistency.

(** ** Counting duplicates *)

Section DuplicateCount.
Context `{Host}.

Lemma duplicatesFrom_count (data : list entry) (seen : gmap string string) :
  (length (duplicatesFrom seen data)
   + size (dom seen ∪ list_to_set (map pairKey data) : gset string)
   = size (dom seen) + length data)%nat.
Proof.
  revert seen. induction data as [|e data IH]; intros seen.
  - cbn [duplicatesFrom map list_to_set length].
    rewrite (right_id_L ∅ (∪)). lia.
  - rewrite duplicatesFrom_cons. cbn [map list_to_set length].
    destruct (seen !! pairKey e) as [first|] eqn:Hseen.
    + assert (Hin : pairKey e ∈ dom seen) by (apply elem_of_dom; eauto).
      rewrite (assoc_L (∪)), (comm_L (∪) (dom seen)).
      rewrite (subseteq_union_1_L {[pairKey e]} (dom seen))
        by (now apply singleton_subseteq_l).
      cbn [length]. specialize (IH seen). lia.
    + assert (Hout : pairKey e ∉ dom seen) by (now apply not_elem_of_dom).
      specialize (IH (<[pairKey e := entry_id e]> seen)).
      rewrite dom_insert_L in IH.
      rewrite (assoc_L (∪)), (comm_L (∪) (dom seen)).
      assert (Hsize : size ({[pairKey e]} ∪ dom seen : gset string)
                      = S (size (dom seen))).
      { rewrite size_union by (apply disjoint_singleton_l; exact Hout).
        now rewrite size_singleton. }
      rewrite Hsize in IH. lia.
Qed.

(** X10: every entry is either the first with its key or yields one
    [duplicate_entry] error: the number of these errors and the number of
    distinct keys [`${date}-${registerNumber}`] add up to the number of
    entries. *)
Theorem duplicate_errors_count (data : list entry) :
  (length (errorsOfType duplicate_entry (validateBusinessRules data))
   + size (list_to_set (map pairKey data) : gset string)
   = length data)%nat.
Proof.
  rewrite duplicates_of_rules, duplicateErrors_from.
  pose proof (duplicatesFrom_count data ∅) as Hc.
  rewrite dom_empty_L, size_empty in Hc.
  rewrite (left_id_L ∅ (∪)) in Hc. exact Hc.
Qed.

End DuplicateCount.

(** ** Date gaps and the report period *)

Section DateOrder.
Context `{Host}.

Lemma ascii_compare_lt_trans (a b c : ascii) :
  Ascii.compare a b = Lt -> Ascii.compare b c = Lt -> Ascii.compare a c = Lt.
Proof.
  unfold Ascii.compare. rewrite !N.compare_lt_iff. lia.
Qed.

Lemma string_compare_lt_trans (a b c : string) :
  String.compare a b = Lt -> String.compare b c = Lt -> String.compare a c = Lt.
Proof.
  revert b c. induction a as [|x a IH]; intros [|y b] [|z c]; simpl;
    try discriminate; auto.
  destruct (Ascii.compare x y) eqn:Exy; try discriminate;
    destruct (Ascii.compare y z) eqn:Eyz; try discriminate.
  - apply Ascii.compare_eq_iff in Exy, Eyz. subst.
    assert (E : Ascii.compare z z = Eq).
    { pose proof (Ascii.compare_antisym z z) as Ha.
      destruct (Ascii.compare z z); simpl in Ha; congruence. }
    rewrite E. apply IH.
  - apply Ascii.compare_eq_iff in Exy. subst. now rewrite Eyz.
  - apply Ascii.compare_eq_iff in Eyz. subst. now rewrite Exy.
  - now rewrite (ascii_compare_lt_trans x y z Exy Eyz).
Qed.

Lemma string_leb_trans (a b c : string) :
  String.leb a b = true -> String.leb b c = true -> String.leb a c = true.
Proof.
  unfold String.leb.
  destruct (String.compare a b) eqn:Eab; try discriminate;
    destruct (String.compare b c) eqn:Ebc; try discriminate; intros _ _.
  - apply String.compare_eq_iff in Eab. subst. now rewrite Ebc.
  - apply String.compare_eq_iff in Eab. subst. now rewrite Ebc.
  - apply String.compare_eq_iff in Ebc. subst. now rewrite Eab.
  - now rewrite (string_compare_lt_trans a b c Eab Ebc).
Qed.

Lemma dateLe_trans (a b c : option string) :
  dateLe a b = true -> dateLe b c = true -> dateLe a c = true.
Proof.
  destruct a as [a|], b as [b|], c as [c|]; simpl; try discriminate; auto.
  apply string_leb_trans.
Qed.

Lemma dateLe_total (a b : option string) : dateLe a b = true \/ dateLe b a = true.
Proof.
  destruct a as [a|], b as [b|]; simpl; auto. apply String.leb_total.
Qed.

Lemma insertDate_Permutation d l : Permutation (insertDate d l) (d :: l).
Proof.
  induction l as [|x l IH]; simpl; [reflexivity|].
  destruct (dateLe d x); [reflexivity|]. rewrite IH. apply perm_swap.
Qed.

Lemma sortDates_Permutation l : Permutation (sortDates l) l.
Proof.
  induction l as [|d l IH]; simpl; [reflexivity|].
  rewrite insertDate_Permutation. now constructor.
Qed.

Lemma insertDate_sorted d l :
  StronglySorted (fun a b => dateLe a b = true) l ->
  StronglySorted (fun a b => dateLe a b = true) (insertDate d l).
Proof.
  induction 1 as [|x l Hl IH Hx]; simpl; [repeat constructor|].
  destruct (dateLe d x) eqn:E.
  - constructor; [now constructor|]. constructor; [exact E|].
    eapply List.Forall_impl; [|exact Hx]. simpl. intros y Hy.
    now apply (dateLe_trans d x y).
  - constructor; [exact IH|]. apply List.Forall_forall. intros y Hy.
    apply (Permutation_in _ (insertDate_Permutation d l)) in Hy.
    destruct Hy as [<-|Hy].
    + destruct (dateLe_total d x) as [Hd|Hd]; [congruence | exact Hd].
    + rewrite List.Forall_forall in Hx. now apply Hx.
Qed.

Lemma sortDates_sorted l : StronglySorted (fun a b => dateLe a b = true) (sortDates l).
Proof.
  induction l as [|d l IH]; simpl; [constructor | now apply insertDate_sorted].
Qed.

Lemma dateLe_refl (a : option string) : dateLe a a = true.
Proof. destruct (dateLe_total a a); assumption. Qed.

Lemma last_cons {A} (x first : A) rest :
  List.last (x :: rest) first = List.last rest x.
Proof.
  revert x first. induction rest as [|y rest IH]; intros x first; [reflexivity|].
  change (List.last (x :: y :: rest) first) with (List.last (y :: rest) first).
  now rewrite (IH y first), (IH y x).
Qed.

Lemma last_In {A} (first : A) rest : In (List.last rest first) (first :: rest).
Proof.
  revert first. induction rest as [|x rest IH]; intros first; [now left|].
  right. rewrite last_cons. apply IH.
Qed.

Lemma sorted_last_greatest (first : option string) rest :
  StronglySorted (fun a b => dateLe a b = true) (first :: rest) ->
  forall d, In d (first :: rest) -> dateLe d (List.last rest first) = true.
Proof.
  revert first. induction rest as [|x rest IH]; intros first Hs d Hd.
  - destruct Hd as [<-|[]]. apply dateLe_refl.
  - inversion Hs as [|? ? Hrest Hall]; subst.
    rewrite last_cons. destruct Hd as [<-|Hd].
    + apply (dateLe_trans _ x).
      * inversion Hall; assumption.
      * apply (IH x Hrest). now left.
    + now apply (IH x Hrest).
Qed.

(** X11: [getReportPeriod] of an empty collection is the pair of [null]s;
    otherwise [from] and [to] are dates of entries, [from] the least and
    [to] the greatest in the default sort order (strings by code unit, a
    missing date last). *)
Theorem getReportPeriod_bounds `{DateHost} (data : list entry) :
  getReportPeriod [] = None
  /\ (data <> [] ->
      exists first final,
        getReportPeriod data = Some (first, final)
        /\ In first (map date data) /\ In final (map date data)
        /\ forall e, In e data ->
             dateLe first (date e) = true /\ dateLe (date e) final = true).
Proof.
  split; [reflexivity|]. intros Hne. unfold getReportPeriod.
  pose proof (sortDates_Permutation (map date data)) as Hp.
  pose proof (sortDates_sorted (map date data)) as Hs.
  destruct (sortDates (map date data)) as [|first rest] eqn:Hsort.
  { apply Permutation_nil in Hp. destruct data; [congruence | discriminate]. }
  exists first, (List.last rest first). split; [reflexivity|].
  pose proof (last_In first rest) as Hlast.
  split; [eapply Permutation_in; [exact Hp | now left]|].
  split; [eapply Permutation_in; [exact Hp | exact Hlast]|].
  intros e He.
  assert (Hin : In (date e) (first :: rest)).
  { eapply Permutation_in; [symmetry; exact Hp | now apply in_map]. }
  split.
  - destruct Hin as [<-|Hin]; [apply dateLe_refl|].
    inversion Hs as [|? ? _ Hall]; subst.
    rewrite List.Forall_forall in Hall. now apply Hall.
  - now apply sorted_last_greatest.
Qed.

Lemma insertDate_length d l : length (insertDate d l) = S (length l).
Proof. apply (Permutation_length (insertDate_Permutation d l)). Qed.

Lemma distinct_In (xs : list (option string)) x : In x (distinct xs) <-> In x xs.
Proof.
  induction xs as [|y xs IH]; simpl; [reflexivity|].
  rewrite filter_In, IH, negb_true_iff, bool_decide_eq_false.
  destruct (decide (x = y)) as [->|Hne]; [tauto|].
  split; [tauto|]. intros [->|Hx]; [congruence | auto].
Qed.

Lemma distinct_NoDup (xs : list (option string)) : List.NoDup (distinct xs).
Proof.
  induction xs as [|y xs IH]; simpl; constructor.
  - rewrite filter_In, negb_true_iff, bool_decide_eq_false. tauto.
  - now apply List.NoDup_filter.
Qed.

Lemma gapErrors_wellformed (dates : list (option string)) :
  Forall (fun ve => exists q, ve_payload ve = daysMissing (Num q) /\ 0 < q)
         (gapErrors dates)
  /\ (length (gapErrors dates) <= length dates - 1)%nat.
Proof.
  induction dates as [|prev rest IH]; [split; [constructor | simpl; lia]|].
  cbn [gapErrors]. destruct rest as [|cur rest']; [split; [constructor | simpl; lia]|].
  destruct IH as [IHf IHl]. rewrite Forall_app, length_app. split.
  - split; [|exact IHf].
    destruct (daysBetween prev cur) as [| |y]; simpl; try constructor.
    destruct (Qlt_bool 1 y) eqn:E; constructor; [|constructor].
    apply Qlt_bool_iff in E. simpl. exists (y - 1). split; [reflexivity|]. Lqa.lra.
  - assert (Hone : (length (if JS.gt (daysBetween prev cur) (Num 1)
                            then [gapError prev cur (daysBetween prev cur)] else [])
                    <= 1)%nat) by (destruct (JS.gt _ _); simpl; lia).
    cbn [length] in *. lia.
Qed.

Lemma gaps_of_rules (data : list entry) :
  errorsOfType missing_dates (validateBusinessRules data) = missingDateErrors data.
Proof.
  unfold validateBusinessRules. rewrite !errorsOfType_app.
  rewrite (errorsOfType_none _ (duplicateErrors data)),
          (errorsOfType_all _ (missingDateErrors data)),
          errorsOfType_none; [now rewrite app_nil_r| | |].
  - eapply List.Forall_impl; [|apply abnormalSalesErrors_type]. simpl.
    intros ve [-> _]. discriminate.
  - eapply List.Forall_impl; [|apply gapErrors_type]. simpl. tauto.
  - eapply List.Forall_impl; [|apply duplicateErrors_type]. simpl.
    intros ve [-> _]. discriminate.
Qed.

(** X12: a [missing_dates] error always reports a positive number of
    missing days, and there are fewer such errors than distinct dates; in
    particular entries that all carry one date yield none. *)
Theorem missing_dates_errors (data : list entry) :
  let found := errorsOfType missing_dates (validateBusinessRules data) in
  let dates := distinct (map date data) in
  Forall (fun ve => ve_severity ve = medium
                    /\ exists q, ve_payload ve = daysMissing (Num q) /\ 0 < q) found
  /\ (length found <= length dates - 1)%nat
  /\ List.NoDup dates
  /\ (forall d, In d dates <-> exists e, In e data /\ date e = d).
Proof.
  intros found dates. subst found. rewrite gaps_of_rules. unfold missingDateErrors.
  fold dates.
  destruct (gapErrors_wellformed (sortDates dates)) as [Hf Hl].
  rewrite (Permutation_length (sortDates_Permutation dates)) in Hl.
  split; [|split; [exact Hl|split; [apply distinct_NoDup|]]].
  - apply List.Forall_forall. intros ve Hve. split.
    + pose proof (gapErrors_type (sortDates dates)) as Ht.
      rewrite List.Forall_forall in Ht. now apply Ht.
    + rewrite List.Forall_forall in Hf. now apply Hf.
  - intros d. subst dates. rewrite distinct_In, in_map_iff.
    split; intros (e & H1 & H2); exists e; auto.
Qed.

End DateOrder.

(** ** Trends, action items and the report *)

Section Queries.
Context `{Host} `{DateHost}.

Lemma filter_sublist_mono {A} (f g : A -> bool) (l : list A) :
  (forall x, f x = true -> g x = true) ->
  sublist (List.filter f l) (List.filter g l).
Proof.
  intros Hfg. induction l as [|x l IH]; simpl; [constructor|].
  destruct (f x) eqn:Ef.
  - rewrite (Hfg x Ef). now constructor.
  - destruct (g x); [now constructor | exact IH].
Qed.

Lemma sublist_map {A B} (f : A -> B) (l k : list A) :
  sublist l k -> sublist (map f l) (map f k).
Proof. induction 1; simpl; now constructor. Qed.

Lemma withinCutoff_mono (now days days' : Z) (h : historyEntry) :
  (days <= days')%Z ->
  withinCutoff (cutoffDate now days) h = true ->
  withinCutoff (cutoffDate now days') h = true.
Proof.
  unfold withinCutoff, cutoffDate, msPerDay. rewrite !Z.leb_le. lia.
Qed.

Lemma trendCutoff_valid (now days t : Z) :
  trendCutoff now days = Some t
  <-> t = cutoffDate now days /\ (- maxTime <= t <= maxTime)%Z.
Proof.
  unfold trendCutoff.
  destruct ((- maxTime <=? cutoffDate now days) && (cutoffDate now days <=? maxTime))%Z
    eqn:E.
  - apply andb_true_iff in E as [E1 E2]. apply Z.leb_le in E1, E2.
    split; [intros [= <-]; auto | intros [-> _]; reflexivity].
  - split; [discriminate|]. intros [-> [H1 H2]].
    apply Z.leb_le in H1, H2. rewrite H1, H2 in E. discriminate.
Qed.

(** X13: the three series of [getReconciliationTrends] carry the same
    dates in the same order and hold at most one point per stored run.  A
    period whose cutoff is an Invalid Date gives empty series.  A longer
    period only adds points, as long as its cutoff is a valid date: the
    series for [days] are then sublists of the series for the greater
    number of days read at the same clock. *)
Theorem trends_window (now days days' : Z) (eng : engine) :
  (days <= days')%Z ->
  let t := getReconciliationTrends now days eng in
  let t' := getReconciliationTrends now days' eng in
  map p_date (accuracyTrend t) = map p_date (discrepancyTrend t)
  /\ map p_date (accuracyTrend t) = map p_date (cashVarianceTrend t)
  /\ (length (accuracyTrend t) <= length (reconciliationHistory eng))%nat
  /\ (trendCutoff now days = None ->
      accuracyTrend t = [] /\ discrepancyTrend t = [] /\ cashVarianceTrend t = [])
  /\ ((- maxTime <= cutoffDate now days')%Z ->
      sublist (accuracyTrend t) (accuracyTrend t')
      /\ sublist (discrepancyTrend t) (discrepancyTrend t')
      /\ sublist (cashVarianceTrend t) (cashVarianceTrend t')).
Proof.
  intros Hd t t'. subst t t'. unfold getReconciliationTrends.
  cbn [accuracyTrend discrepancyTrend cashVarianceTrend].
  rewrite !map_map. cbn [p_date].
  split; [reflexivity|]. split; [reflexivity|]. split; [|split].
  - rewrite length_map. destruct (trendCutoff now days); [apply filter_length_le|].
    simpl. lia.
  - intros ->. repeat split.
  - intros Hlow.
    assert (Hsub : sublist
                     match trendCutoff now days with
                     | Some cutoff =>
                         List.filter (withinCutoff cutoff) (reconciliationHistory eng)
                     | None => []
                     end
                     match trendCutoff now days' with
                     | Some cutoff =>
                         List.filter (withinCutoff cutoff) (reconciliationHistory eng)
                     | None => []
                     end).
    { destruct (trendCutoff now days) as [c|] eqn:Ec; [|apply sublist_nil_l].
      apply trendCutoff_valid in Ec as [-> [_ Hhigh]].
      assert (Ec' : trendCutoff now days' = Some (cutoffDate now days')).
      { apply trendCutoff_valid. split; [reflexivity|]. split; [exact Hlow|].
        revert Hhigh. unfold cutoffDate, msPerDay. lia. }
      rewrite Ec'. apply filter_sublist_mono.
      intros h. now apply withinCutoff_mono. }
    repeat split; now apply sublist_map.
Qed.

Lemma reconcile_timestamp (R : rules) (started : Z) (data : list entry) (r : results) :
  reconcile R started data = Some r -> r_timestamp r = started.
Proof.
  unfold reconcile. destruct (findDiscrepancies R data); [|discriminate].
  simpl. now intros [= <-].
Qed.

Lemma run_history (started saved : Z) (data : list entry) (eng eng' : engine)
    (r : results) :
  runFullReconciliation started saved data eng = Some (r, eng') ->
  reconcile (reconciliationRules eng) started data = Some r
  /\ lastResults eng' = Some r
  /\ reconciliationRules eng' = reconciliationRules eng
  /\ reconciliationHistory eng'
     = List.filter (withinCutoff (cutoffDate saved 90))
                   (reconciliationHistory eng ++ [projection r]).
Proof.
  unfold runFullReconciliation.
  destruct (reconcile (reconciliationRules eng) started data) as [r'|]; [|discriminate].
  simpl. intros [= <- <-]. repeat split.
Qed.

(** X14: a run whose timestamp is within the 90 days kept by its own
    pruning shows as the last point of each series of every later trend
    query whose cutoff is a valid date not after that timestamp. *)
Theorem trends_after_run (started saved now days cutoff : Z) (data : list entry)
    (eng eng' : engine) (r : results) :
  runFullReconciliation started saved data eng = Some (r, eng') ->
  (cutoffDate saved 90 <= started)%Z ->
  trendCutoff now days = Some cutoff ->
  (cutoff <= started)%Z ->
  let t := getReconciliationTrends now days eng' in
  exists accuracies discrepancies variances,
    accuracyTrend t
    = accuracies ++ [ {| p_date := isoDate started;
                         p_value := s_reconciliationAccuracy (r_summary r) |} ]
    /\ discrepancyTrend t
       = discrepancies ++ [ {| p_date := isoDate started;
                               p_value := length (r_discrepancies r) |} ]
    /\ cashVarianceTrend t
       = variances ++ [ {| p_date := isoDate started;
                           p_value := s_totalCashVariance (r_summary r) |} ].
Proof.
  intros Hrun Hkept Hcut Hseen t. subst t.
  destruct (run_history _ _ _ _ _ _ Hrun) as (Hr & _ & _ & Hhist).
  pose proof (reconcile_timestamp _ _ _ _ Hr) as Hts.
  assert (Hcount : s_totalDiscrepancies (r_summary r) = length (r_discrepancies r)).
  { destruct (reconcile_overall _ _ _ _ Hr) as (r0 & Hds & _ & _ & Hsum & _).
    rewrite Hsum, <- Hds. reflexivity. }
  unfold getReconciliationTrends. rewrite Hcut, Hhist.
  cbn [accuracyTrend discrepancyTrend cashVarianceTrend].
  rewrite !List.filter_app. cbn [List.filter].
  assert (E1 : withinCutoff (cutoffDate saved 90) (projection r) = true).
  { unfold withinCutoff. cbn [projection h_timestamp]. rewrite Hts.
    now apply Z.leb_le. }
  rewrite E1. cbn [List.filter].
  assert (E2 : withinCutoff cutoff (projection r) = true).
  { unfold withinCutoff. cbn [projection h_timestamp]. rewrite Hts.
    now apply Z.leb_le. }
  rewrite E2. rewrite !map_app. cbn [map projection h_timestamp h_summary].
  rewrite Hts, Hcount. eexists _, _, _. repeat split.
Qed.

(** *** Action items *)

Lemma insertByRank_head {A} (rank : A -> Z) (x : A) (l : list A) :
  Forall (fun y => (rank y <= rank x)%Z) l -> insertByRank rank x l = x :: l.
Proof.
  intros Hall. destruct l as [|y l]; [reflexivity|]. simpl.
  inversion Hall as [|? ? Hy _]; subst.
  destruct (Z.ltb_spec (rank x) (rank y)); [lia | reflexivity].
Qed.

Lemma sortByRank_sorted {A} (rank : A -> Z) (l : list A) :
  StronglySorted (fun a b => (rank b <= rank a)%Z) l -> sortByRank rank l = l.
Proof.
  induction 1 as [|x l Hl IH Hx]; [reflexivity|].
  unfold sortByRank in *. cbn [foldr]. rewrite IH. now apply insertByRank_head.
Qed.

Lemma highItem_raises (now : Z) (d : discrepancyRec) :
  highItem now d = None <-> d_cashDifference d = Undefined.
Proof.
  unfold highItem. destruct (d_cashDifference d); simpl; split; congruence.
Qed.

Lemma highItem_priority (now : Z) (d : discrepancyRec) (a : actionItem) :
  highItem now d = Some a -> ai_priority a = highPriority.
Proof.
  unfold highItem. destruct (toFixedV 2 (d_cashDifference d)); simpl; [|discriminate].
  now intros [= <-].
Qed.

Lemma mapM_raises {A B} (f : A -> option B) (l : list A) :
  mapM f l = None <-> exists x, In x l /\ f x = None.
Proof.
  induction l as [|x l IH]; simpl.
  - split; [discriminate | intros (x & [] & _)].
  - destruct (f x) as [y|] eqn:Hx; simpl.
    + destruct (mapM f l) as [k|]; simpl.
      * split; [discriminate|]. intros (z & [<-|Hz] & Hnone); [congruence|].
        destruct IH as [_ IH]. discriminate IH. eauto.
      * split; [|reflexivity]. intros _.
        destruct IH as [IH _]. destruct (IH eq_refl) as (z & Hz & Hnone). eauto.
    + split; [|reflexivity]. intros _. eauto.
Qed.

Lemma mapM_all {A B} (f : A -> option B) (P : B -> Prop) (l : list A) (k : list B) :
  (forall x y, f x = Some y -> P y) ->
  mapM f l = Some k -> length k = length l /\ Forall P k.
Proof.
  intros HP. revert k. induction l as [|x l IH]; simpl; intros k.
  - intros [= <-]. split; [reflexivity | constructor].
  - destruct (f x) as [y|] eqn:Hx; simpl; [|discriminate].
    destruct (mapM f l) as [k'|]; simpl; [|discriminate].
    intros [= <-]. destruct (IH k' eq_refl) as [Hlen Hall].
    split; [simpl; now rewrite Hlen|]. constructor; [now apply (HP x) | exact Hall].
Qed.

Lemma highItems_none (now : Z) (ds : list discrepancyRec) :
  mapM (highItem now)
       (List.filter (fun d => bool_decide (d_overallSeverity d = high)) ds) = None
  <-> exists d, In d ds /\ d_overallSeverity d = high
                /\ d_cashDifference d = Undefined.
Proof.
  rewrite mapM_raises. split.
  - intros (d & Hd & Hnone). apply filter_In in Hd as [Hd Hhigh].
    apply bool_decide_eq_true in Hhigh. apply highItem_raises in Hnone. eauto.
  - intros (d & Hd & Hhigh & Hcd). exists d. split; [|now apply highItem_raises].
    apply filter_In. split; [exact Hd | now apply bool_decide_eq_true].
Qed.

Lemma generateActionItems_highs (now : Z) (r : results) :
  generateActionItems now r = None
  <-> mapM (highItem now)
           (List.filter (fun d => bool_decide (d_overallSeverity d = high))
                        (r_discrepancies r)) = None.
Proof.
  unfold generateActionItems. destruct (mapM (highItem now) _); simpl; split; congruence.
Qed.

(** X15: [generateActionItems] raises a [TypeError] exactly when a
    discrepancy of high severity has no [cashDifference]. *)
Theorem generateActionItems_raises (now : Z) (r : results) :
  generateActionItems now r = None
  <-> exists d, In d (r_discrepancies r) /\ d_overallSeverity d = high
                /\ d_cashDifference d = Undefined.
Proof.
  unfold generateActionItems.
  destruct (mapM (highItem now) _) as [highs|] eqn:Hm; simpl.
  - split; [discriminate|]. intros (d & Hd & Hhigh & Hcd). exfalso.
    assert (Hnone : mapM (highItem now)
                      (List.filter (fun d => bool_decide (d_overallSeverity d = high))
                                   (r_discrepancies r)) = None).
    { apply mapM_raises. exists d. split; [|now apply highItem_raises].
      apply filter_In. split; [exact Hd | now apply bool_decide_eq_true]. }
    congruence.
  - split; [|reflexivity]. intros _.
    apply mapM_raises in Hm as (d & Hd & Hnone).
    apply filter_In in Hd as [Hd Hhigh]. apply bool_decide_eq_true in Hhigh.
    apply highItem_raises in Hnone. eauto.
Qed.

Lemma mediumItems_priority (now : Z) (accuracy : value) :
  Forall (fun a => ai_priority a = mediumPriority) (mediumItems now accuracy)
  /\ (length (mediumItems now accuracy) <= 1)%nat.
Proof.
  unfold mediumItems. destruct (JS.lt accuracy (Num 95)); [|split; [constructor | simpl; lia]].
  destruct accuracy; split; simpl; repeat constructor.
Qed.

Lemma lowItems_priority (now : Z) (ves : list validationError) :
  Forall (fun a => ai_priority a = lowPriority) (lowItems now ves)
  /\ (length (lowItems now ves) <= 1)%nat.
Proof.
  unfold lowItems. destruct (existsb _ ves); split; simpl; repeat constructor.
Qed.

Lemma priorities_sorted (highs mediums lows : list actionItem) :
  Forall (fun a => ai_priority a = highPriority) highs ->
  Forall (fun a => ai_priority a = mediumPriority) mediums ->
  Forall (fun a => ai_priority a = lowPriority) lows ->
  StronglySorted
    (fun a b => (priorityOrder (ai_priority b) <= priorityOrder (ai_priority a))%Z)
    (highs ++ mediums ++ lows).
Proof.
  intros Hh Hm Hl.
  assert (Sl : StronglySorted
                 (fun a b => (priorityOrder (ai_priority b)
                              <= priorityOrder (ai_priority a))%Z) lows).
  { induction Hl as [|x l Hx Hl IH]; constructor; [exact IH|].
    eapply List.Forall_impl; [|exact Hl]. simpl. intros y ->. rewrite Hx. simpl. lia. }
  assert (Sm : StronglySorted
                 (fun a b => (priorityOrder (ai_priority b)
                              <= priorityOrder (ai_priority a))%Z) (mediums ++ lows)).
  { induction Hm as [|x l Hx Hm IH]; [exact Sl|]. simpl. constructor; [exact IH|].
    apply Forall_app. split.
    - eapply List.Forall_impl; [|exact Hm]. simpl. intros y ->. rewrite Hx. simpl. lia.
    - eapply List.Forall_impl; [|exact Hl]. simpl. intros y ->. rewrite Hx. simpl. lia. }
  induction Hh as [|x l Hx Hh IH]; [exact Sm|]. simpl. constructor; [exact IH|].
  rewrite !Forall_app. repeat split.
  - eapply List.Forall_impl; [|exact Hh]. simpl. intros y ->. rewrite Hx. simpl. lia.
  - eapply List.Forall_impl; [|exact Hm]. simpl. intros y ->. rewrite Hx. simpl. lia.
  - eapply List.Forall_impl; [|exact Hl]. simpl. intros y ->. rewrite Hx. simpl. lia.
Qed.

(** X16: the items [generateActionItems] returns are one high-priority item
    per discrepancy of high severity, in the order of the discrepancies,
    then at most one medium and at most one low item; the final sort by
    priority leaves this order as it is. *)
Theorem generateActionItems_order (now : Z) (r : results) (items : list actionItem) :
  generateActionItems now r = Some items ->
  exists highs,
    mapM (highItem now) (List.filter (hasSeverity high) (r_discrepancies r)) = Some highs
    /\ items = highs ++ mediumItems now (s_reconciliationAccuracy (r_summary r))
                     ++ lowItems now (r_validationErrors r)
    /\ length highs = length (List.filter (hasSeverity high) (r_discrepancies r))
    /\ Forall (fun a => ai_priority a = highPriority) highs
    /\ (length items <= length highs + 2)%nat.
Proof.
  unfold generateActionItems, hasSeverity.
  destruct (mapM (highItem now) _) as [highs|] eqn:Hm; simpl; [|discriminate].
  intros [= <-]. exists highs.
  destruct (mapM_all _ (fun a => ai_priority a = highPriority) _ _
              (highItem_priority now) Hm) as [Hlen Hall].
  destruct (mediumItems_priority now (s_reconciliationAccuracy (r_summary r)))
    as [Hmed Hmlen].
  destruct (lowItems_priority now (r_validationErrors r)) as [Hlow Hllen].
  rewrite (sortByRank_sorted _ _ (priorities_sorted _ _ _ Hall Hmed Hlow)).
  repeat split; auto. rewrite !length_app. lia.
Qed.

(** *** The report *)

Lemma calculateOverallSeverity_high_inv (issues : list issue) :
  calculateOverallSeverity issues = high ->
  exists i, In i issues /\ i_severity i = high.
Proof.
  unfold calculateOverallSeverity.
  destruct (existsb (fun i => bool_decide (i_severity i = high)) issues) eqn:E.
  - intros _. apply existsb_exists in E as (i & Hi & Hs).
    apply bool_decide_eq_true in Hs. eauto.
  - intros Hx.
    destruct (existsb (fun i => bool_decide (i_severity i = medium)) issues);
      discriminate Hx.
Qed.

Lemma negativeCheck_inv (e : entry) (i : issue) :
  In i (negativeCheck e) ->
  JS.lt (cashSales e) (Num 0) = true \/ JS.lt (cardSales e) (Num 0) = true
  \/ JS.lt (closingCash e) (Num 0) = true.
Proof.
  unfold negativeCheck.
  destruct (JS.lt (cashSales e) (Num 0)); [auto|].
  destruct (JS.lt (cardSales e) (Num 0)); [auto|].
  destruct (JS.lt (closingCash e) (Num 0)); [auto|]. intros [].
Qed.

Lemma high_without_difference (R : rules) (e : entry) (issues : list issue) :
  0 <= cashDiscrepancyThreshold R ->
  cashDifference e = Undefined ->
  entryIssues R e = Some issues ->
  (calculateOverallSeverity issues = high
   <-> (JS.lt (cashSales e) (Num 0) = true \/ JS.lt (cardSales e) (Num 0) = true
        \/ JS.lt (closingCash e) (Num 0) = true)).
Proof.
  intros Ht Hcd Hissues.
  destruct (entryIssues_defined R e (fun _ => Ht)) as (c & rr & Hc & Hr & He).
  rewrite Hissues in He. injection He as ->.
  assert (c = []) as ->.
  { unfold cashCheck in Hc. rewrite (cashDiff_absent e _ Hcd Ht) in Hc. congruence. }
  split.
  - intros Hhigh. apply calculateOverallSeverity_high_inv in Hhigh as (i & Hi & Hs).
    cbn [List.app] in Hi. rewrite !in_app_iff in Hi.
    destruct Hi as [Hi|[Hi|[Hi|Hi]]].
    + unfold returnsCheck in Hr.
      destruct (JS.gt _ _); [|injection Hr as <-; destruct Hi].
      destruct (toFixedV 1 _); [|discriminate]. simpl in Hr. injection Hr as <-.
      destruct Hi as [<-|[]]. discriminate.
    + unfold openingCheck in Hi. destruct (JS.lt _ _); [|destruct Hi].
      destruct Hi as [<-|[]]. discriminate.
    + unfold zeroSalesCheck in Hi. destruct (_ && _); [|destruct Hi].
      destruct Hi as [<-|[]]. discriminate.
    + now apply (negativeCheck_inv e i).
  - intros Hneg. destruct (negativeCheck_fires e Hneg) as (i & Hi & _ & Hs).
    apply (calculateOverallSeverity_high _ i); [|exact Hs].
    rewrite !in_app_iff, Hi. right. right. right. right. now left.
Qed.

(** X17: with a non-negative cash threshold the report never fails in the
    run; it fails afterwards, in the action items, exactly when some entry
    without [cashDifference] holds a negative cash sale, card sale or
    closing cash.  The run is then already stored as the latest result, and
    a report that is returned counts the entries and repeats the run's
    figures. *)
Theorem report_after_run (started saved now : Z) (data : list entry)
    (format : string) (eng : engine) :
  0 <= cashDiscrepancyThreshold (reconciliationRules eng) ->
  exists r eng' rep,
    generateReconciliationReport started saved now data format eng = Some (rep, eng')
    /\ runFullReconciliation started saved data eng = Some (r, eng')
    /\ lastResults eng' = Some r
    /\ (rep = None
        <-> exists e, In e data /\ cashDifference e = Undefined
              /\ (JS.lt (cashSales e) (Num 0) = true
                  \/ JS.lt (cardSales e) (Num 0) = true
                  \/ JS.lt (closingCash e) (Num 0) = true))
    /\ (forall x, rep = Some x ->
          rep_totalEntries x = length data
          /\ rep_period x = getReportPeriod data
          /\ rep_overallStatus x = o_status (r_overall r)
          /\ rep_totalDiscrepancies x = length (r_discrepancies r)
          /\ rep_recommendations x = o_recommendations (r_overall r)
          /\ generateActionItems now r = Some (rep_action_items x)
          /\ (rep_detailed_findings x
              = if bool_decide (format = "detailed"%string)
                then Some (r_discrepancies r, r_validationErrors r, r_totals r)
                else None)).
Proof.
  intros Ht.
  destruct (reconcile_defined (reconciliationRules eng) started data
              (fun _ _ _ => Ht)) as (r & Hr & _ & _).
  assert (Hrun : runFullReconciliation started saved data eng
                 = Some (r, saveReconciliationHistory saved r
                              {| reconciliationRules := reconciliationRules eng;
                                 lastResults := Some r;
                                 reconciliationHistory := reconciliationHistory eng;
                                 storedHistory := storedHistory eng |})).
  { unfold runFullReconciliation. now rewrite Hr. }
  assert (Hcount : s_totalDiscrepancies (r_summary r) = length (r_discrepancies r)).
  { destruct (reconcile_overall _ _ _ _ Hr) as (r0 & Hds & _ & _ & Hsum & _).
    rewrite Hsum, <- Hds. reflexivity. }
  assert (Hds : exists collected,
             collectDiscrepancies (reconciliationRules eng) data = Some collected
             /\ r_discrepancies r = sortBySeverity collected).
  { destruct (findDiscrepancies_defined (reconciliationRules eng) data
                (fun _ _ _ => Ht)) as (ds & Hc & Hf).
    exists ds. split; [exact Hc|]. unfold reconcile in Hr. rewrite Hf in Hr.
    simpl in Hr. now injection Hr as <-. }
  destruct Hds as (collected & Hc & Hsorted).
  eexists r, _, _. unfold generateReconciliationReport. rewrite Hrun.
  cbn [mbind option_bind fst snd]. split; [reflexivity|].
  split; [reflexivity|]. split; [reflexivity|]. split.
  - destruct (generateActionItems now r) as [items|] eqn:Hitems; cbn [mbind option_bind].
    + split; [discriminate|]. intros (e & He & Hcd & Hneg). exfalso.
      assert (Hnone : generateActionItems now r = None); [|congruence].
      apply generateActionItems_highs, highItems_none.
      destruct (entryIssues_defined (reconciliationRules eng) e (fun _ => Ht))
        as (c & rr & _ & _ & Hissues).
      set (issues := c ++ rr ++ openingCheck (reconciliationRules eng) e
                       ++ zeroSalesCheck e ++ negativeCheck e) in *.
      pose proof (proj2 (high_without_difference (reconciliationRules eng) e issues
                           Ht Hcd Hissues) Hneg) as Hhigh.
      assert (Hne : issues <> []).
      { intros E. rewrite E in Hhigh. discriminate. }
      exists (mkDiscrepancy e issues). split; [|split; [exact Hhigh | exact Hcd]].
      rewrite Hsorted.
      eapply Permutation_in; [symmetry; apply sortBySeverity_Permutation|].
      now apply (collectDiscrepancies_In (reconciliationRules eng) data).
    + split; [|reflexivity]. intros _.
      apply generateActionItems_highs, highItems_none in Hitems
        as (d & Hd & Hhigh & Hcd).
      rewrite Hsorted in Hd.
      apply (Permutation_in _ (sortBySeverity_Permutation collected)) in Hd.
      apply (collectDiscrepancies_records _ _ _ _ Hc) in Hd
        as (e & issues & He & Hissues & _ & ->).
      cbn [mkDiscrepancy d_overallSeverity d_cashDifference] in Hhigh, Hcd.
      exists e. split; [exact He|]. split; [exact Hcd|].
      now apply (high_without_difference (reconciliationRules eng) e issues
                   Ht Hcd Hissues).
  - intros x. destruct (generateActionItems now r) as [items|]; cbn [mbind option_bind];
      [|discriminate].
    intros [= <-]. cbn. unfold isDetailed. rewrite Hcount. repeat split.
Qed.

End Queries.

(** ** The spreadsheet backend *)

Section BackendProperties.
Context `{Host}.

Lemma backend_fold (cfg : config) (data : list entry) (res : backendResults) :
  let out := fold_left (backendStep cfg) data res in
  br_discrepancies out
  = br_discrepancies res
      ++ map backendRecord
             (List.filter (backendExceeds (CASH_DISCREPANCY_THRESHOLD cfg)) data)
  /\ br_totalDiscrepancies out
     = (br_totalDiscrepancies res
        + length (List.filter (backendExceeds (CASH_DISCREPANCY_THRESHOLD cfg)) data))%nat
  /\ br_largeDiscrepancies out
     = (br_largeDiscrepancies res
        + length (List.filter
                    (fun e => backendExceeds (CASH_DISCREPANCY_THRESHOLD cfg) e
                              && backendExceeds (LARGE_DISCREPANCY_THRESHOLD cfg) e)
                    data))%nat
  /\ br_totalEntries out = br_totalEntries res
  /\ br_cashSales out = accumulate cashSales data (br_cashSales res)
  /\ br_cardSales out = accumulate cardSales data (br_cardSales res)
  /\ br_totalCashDifference out
     = accumulate cashDifference data (br_totalCashDifference res)
  /\ br_totalSales out = accumulate totalSales data (br_totalSales res).
Proof.
  revert res. induction data as [|e data IH]; intros res; cbn [fold_left].
  - cbn [List.filter map length accumulate fold_left]. rewrite app_nil_r, !Nat.add_0_r.
    repeat split.
  - destruct (IH (backendStep cfg res e)) as (H1 & H2 & H3 & H4 & H5 & H6 & H7 & H8).
    cbv zeta. rewrite H1, H2, H3, H4, H5, H6, H7, H8.
    unfold accumulate. cbn [fold_left List.filter].
    cbn [backendStep br_discrepancies br_totalDiscrepancies br_largeDiscrepancies
         br_totalEntries br_cashSales br_cardSales br_totalCashDifference
         br_totalSales].
    destruct (backendExceeds (CASH_DISCREPANCY_THRESHOLD cfg) e);
      destruct (backendExceeds (LARGE_DISCREPANCY_THRESHOLD cfg) e);
      cbn [andb map length]; rewrite <- ?app_assoc; cbn [List.app];
      repeat split; lia.
Qed.

Lemma filter_and_length {A} (f g : A -> bool) (l : list A) :
  (length (List.filter (fun x => f x && g x) l) <= length (List.filter f l))%nat.
Proof.
  induction l as [|x l IH]; simpl; [lia|].
  destruct (f x), (g x); simpl; lia.
Qed.

Lemma filter_nonempty {A} (f : A -> bool) (l : list A) :
  (0 < length (List.filter f l))%nat <-> exists x, In x l /\ f x = true.
Proof.
  split.
  - destruct (List.filter f l) as [|x k] eqn:E; simpl; [lia|]. intros _.
    exists x. apply filter_In. rewrite E. now left.
  - intros (x & Hx & Hf).
    assert (Hin : In x (List.filter f l)) by (apply filter_In; auto).
    destruct (List.filter f l); [destruct Hin | simpl; lia].
Qed.

(** X18: [calculateReconciliation] lists the entries whose absolute cash
    difference exceeds the threshold, in the order of the data; it counts
    them, with the large ones among them.  The status is [critical] exactly
    when some entry exceeds both thresholds, [balanced] exactly when nothing
    is listed, and the accuracy is a number between 0 and 100. *)
Theorem calculateReconciliation_counts (cfg : config) (now : Z) (data : list entry) :
  let b := calculateReconciliation cfg now data in
  br_discrepancies b
  = map backendRecord
        (List.filter (backendExceeds (CASH_DISCREPANCY_THRESHOLD cfg)) data)
  /\ br_totalDiscrepancies b = length (br_discrepancies b)
  /\ (br_largeDiscrepancies b <= br_totalDiscrepancies b <= br_totalEntries b)%nat
  /\ br_totalEntries b = length data
  /\ (br_status b = critical
      <-> exists e, In e data
            /\ backendExceeds (CASH_DISCREPANCY_THRESHOLD cfg) e = true
            /\ backendExceeds (LARGE_DISCREPANCY_THRESHOLD cfg) e = true)
  /\ (br_status b = balanced <-> br_discrepancies b = [])
  /\ exists q,
       br_reconciliationAccuracy b = Num q /\ 0 <= q /\ q <= 100
       /\ (q == 100 <-> br_discrepancies b = []).
Proof.
  intros b. subst b. unfold calculateReconciliation.
  destruct (backend_fold cfg data (backendInit now (length data)))
    as (H1 & H2 & H3 & H4 & _).
  cbn [backendInit br_discrepancies br_totalDiscrepancies br_largeDiscrepancies
       br_totalEntries List.app Nat.add] in H1, H2, H3, H4.
  cbn [backendFinish br_discrepancies br_totalDiscrepancies br_largeDiscrepancies
       br_totalEntries br_status br_reconciliationAccuracy].
  rewrite H1, H2, H3, H4, length_map.
  set (flagged := List.filter (backendExceeds (CASH_DISCREPANCY_THRESHOLD cfg)) data).
  set (large := List.filter
                  (fun e => backendExceeds (CASH_DISCREPANCY_THRESHOLD cfg) e
                            && backendExceeds (LARGE_DISCREPANCY_THRESHOLD cfg) e)
                  data).
  assert (Hlarge : (length large <= length flagged)%nat) by apply filter_and_length.
  assert (Hflagged : (length flagged <= length data)%nat) by apply filter_length_le.
  assert (Hnil : map backendRecord flagged = [] <-> length flagged = 0%nat).
  { destruct flagged; simpl; split; intros; try discriminate; reflexivity. }
  split; [reflexivity|]. split; [reflexivity|]. split; [lia|]. split; [reflexivity|].
  split; [|split].
  - destruct (0 <? length large)%nat eqn:El.
    + apply Nat.ltb_lt in El. split; [intros _|reflexivity].
      apply filter_nonempty in El as (e & He & Hb).
      apply andb_true_iff in Hb. exists e. tauto.
    + apply Nat.ltb_ge in El. split.
      * destruct (0 <? length flagged)%nat; discriminate.
      * intros (e & He & Hc & Hl). exfalso.
        assert (Hpos : (0 < length large)%nat); [|lia].
        apply filter_nonempty. exists e. split; [exact He|].
        now rewrite Hc, Hl.
  - rewrite Hnil. destruct (0 <? length large)%nat eqn:El.
    + apply Nat.ltb_lt in El. split; [discriminate | lia].
    + destruct (0 <? length flagged)%nat eqn:Ef.
      * apply Nat.ltb_lt in Ef. split; [discriminate | lia].
      * apply Nat.ltb_ge in Ef. split; [lia | reflexivity].
  - destruct (0 <? length data)%nat eqn:En.
    + apply Nat.ltb_lt in En.
      destruct (ratio_bounds _ _ Hflagged En) as (H0 & H100 & Heq).
      cbn [JS.div JS.mul JS.lift2]. rewrite (inject_nat_nonzero _ En).
      eexists. split; [reflexivity|]. split; [exact H0|]. split; [exact H100|].
      rewrite Hnil. exact Heq.
    + apply Nat.ltb_ge in En. exists 100. split; [reflexivity|].
      split; [discriminate|]. split; [apply Qle_refl|].
      rewrite Hnil. split; [lia | reflexivity].
Qed.

(** *** The backend and the engine on the same data *)

Lemma collectDiscrepancies_entries (R : rules) (data : list entry) collected :
  collectDiscrepancies R data = Some collected ->
  forall e, In e data -> is_Some (entryIssues R e).
Proof.
  revert collected. induction data as [|x data IH]; intros collected Hc e; [intros []|].
  simpl in Hc. destruct (entryIssues R x) as [ix|] eqn:Hx; [|discriminate].
  destruct (collectDiscrepancies R data) as [ds|]; [|discriminate].
  intros [<-|He]; [rewrite Hx; eauto | now apply (IH ds)].
Qed.

Lemma exceeds_cash_issue (cfg : config) (R : rules) (e : entry) (issues : list issue) :
  CASH_DISCREPANCY_THRESHOLD cfg = cashDiscrepancyThreshold R ->
  LARGE_DISCREPANCY_THRESHOLD cfg = largeDiscrepancyThreshold R ->
  backendExceeds (CASH_DISCREPANCY_THRESHOLD cfg) e = true ->
  entryIssues R e = Some issues ->
  exists i rest,
    issues = i :: rest /\ i_type i = cash_discrepancy
    /\ i_amount i = Some (cashDifference e)
    /\ (backendExceeds (LARGE_DISCREPANCY_THRESHOLD cfg) e = true
        -> i_severity i = high).
Proof.
  intros Hc Hl He. rewrite Hc in He. rewrite Hl. unfold backendExceeds in *.
  unfold entryIssues, cashCheck. rewrite He.
  destruct (toFixedV 2 (cashDifference e)) as [s|]; [|discriminate].
  cbn [mbind option_bind].
  destruct (returnsCheck R e) as [rr|]; [|discriminate].
  cbn [mbind option_bind]. intros [= <-]. cbn [List.app].
  eexists _, _. split; [reflexivity|]. cbn [i_type i_amount i_severity].
  repeat split. intros Hlarge.
  change (JS.gt (JS.abs (JS.or (cashDifference e) (Num 0)))
                (Num (largeDiscrepancyThreshold R)))
    with (match JS.abs (JS.or (cashDifference e) (Num 0)) with
          | Num y => Qlt_bool (largeDiscrepancyThreshold R) y
          | _ => false
          end) in Hlarge.
  now rewrite Hlarge.
Qed.

Lemma exceeds_collected (cfg : config) (R : rules) (data : list entry) collected :
  CASH_DISCREPANCY_THRESHOLD cfg = cashDiscrepancyThreshold R ->
  LARGE_DISCREPANCY_THRESHOLD cfg = largeDiscrepancyThreshold R ->
  collectDiscrepancies R data = Some collected ->
  (length (List.filter (backendExceeds (CASH_DISCREPANCY_THRESHOLD cfg)) data)
   <= length collected)%nat.
Proof.
  intros Hc Hl. revert collected.
  induction data as [|x data IH]; intros collected; simpl; [lia|].
  destruct (entryIssues R x) as [ix|] eqn:Hx; [|discriminate].
  destruct (collectDiscrepancies R data) as [ds|]; [|discriminate].
  simpl. intros [= <-]. specialize (IH ds eq_refl).
  destruct (backendExceeds (CASH_DISCREPANCY_THRESHOLD cfg) x) eqn:Ex.
  - destruct (exceeds_cash_issue cfg R x ix Hc Hl Ex Hx) as (i & rest & -> & _).
    simpl. lia.
  - destruct ix; simpl; lia.
Qed.

Lemma status_critical (R : rules) (r0 : results) :
  Exists (fun d => d_overallSeverity d = high) (r_discrepancies r0) ->
  o_status (determineOverallStatus R (summarised r0)) = critical.
Proof.
  intros Hex. apply highCount_positive in Hex.
  unfold determineOverallStatus, statusLadder, summarised.
  cbn [setSummary r_summary r_discrepancies r_validationErrors r_totals
       calculateSummaryMetrics s_highSeverityDiscrepancies].
  rewrite Hex. reflexivity.
Qed.

Lemma status_balanced_inv (R : rules) (r0 : results) :
  o_status (determineOverallStatus R (summarised r0)) = balanced ->
  r_discrepancies r0 = [] /\ r_validationErrors r0 = [].
Proof.
  unfold determineOverallStatus, statusLadder, summarised.
  cbn [setSummary r_summary r_discrepancies r_validationErrors r_totals
       calculateSummaryMetrics s_highSeverityDiscrepancies].
  destruct (_ || hasHighError _); [discriminate|].
  destruct (r_discrepancies r0) as [|d ds]; [|discriminate].
  destruct (r_validationErrors r0) as [|v vs]; [auto | discriminate].
Qed.

(** X19: on the same data and with the same two thresholds, every entry
    the backend's [calculateReconciliation] lists is flagged by the engine
    with a [cash_discrepancy] issue, so the backend never counts more
    discrepancies than the engine; a [critical] backend status implies a
    [critical] engine status, and a [balanced] engine status implies a
    [balanced] backend status.  Both sum the cash sales, the card sales and
    the cash differences to the same totals. *)
Theorem backend_engine_agreement (cfg : config) (R : rules) (now started : Z)
    (data : list entry) (r : results) :
  CASH_DISCREPANCY_THRESHOLD cfg = cashDiscrepancyThreshold R ->
  LARGE_DISCREPANCY_THRESHOLD cfg = largeDiscrepancyThreshold R ->
  reconcile R started data = Some r ->
  let b := calculateReconciliation cfg now data in
  (forall bd, In bd (br_discrepancies b) ->
     exists d i, In d (r_discrepancies r) /\ In i (d_issues d)
       /\ i_type i = cash_discrepancy
       /\ d_entryId d = bd_entryId bd /\ d_date d = bd_date bd
       /\ d_registerNumber d = bd_registerNumber bd
       /\ d_cashDifference d = bd_cashDifference bd)
  /\ (br_totalDiscrepancies b <= s_totalDiscrepancies (r_summary r))%nat
  /\ (br_status b = critical -> o_status (r_overall r) = critical)
  /\ (o_status (r_overall r) = balanced -> br_status b = balanced)
  /\ br_cashSales b = t_cashSales (r_totals r)
  /\ br_cardSales b = t_cardSales (r_totals r)
  /\ br_totalCashDifference b = t_totalCashDifference (r_totals r).
Proof.
  intros Hc Hl Hr b.
  destruct (reconcile_overall _ _ _ _ Hr) as (r0 & Hds & _ & Htot & Hsum & Hov).
  assert (Hrun : exists collected,
             collectDiscrepancies R data = Some collected
             /\ r_discrepancies r = sortBySeverity collected
             /\ r_totals r = calculateTotals data).
  { unfold reconcile, findDiscrepancies in Hr.
    destruct (collectDiscrepancies R data) as [collected|]; [|discriminate].
    simpl in Hr. injection Hr as <-. exists collected. repeat split. }
  destruct Hrun as (collected & Hcol & Hsorted & Htotals).
  destruct (backend_fold cfg data (backendInit now (length data)))
    as (H1 & H2 & H3 & _ & H5 & H6 & H7 & _).
  cbn [backendInit br_discrepancies br_totalDiscrepancies br_largeDiscrepancies
       br_cashSales br_cardSales br_totalCashDifference List.app Nat.add]
    in H1, H2, H3, H5, H6, H7.
  assert (Hflag : forall e, In e data ->
            backendExceeds (CASH_DISCREPANCY_THRESHOLD cfg) e = true ->
            exists issues i rest,
              entryIssues R e = Some issues /\ issues = i :: rest
              /\ i_type i = cash_discrepancy
              /\ In (mkDiscrepancy e issues) (r_discrepancies r)
              /\ (backendExceeds (LARGE_DISCREPANCY_THRESHOLD cfg) e = true
                  -> i_severity i = high)).
  { intros e He Hex.
    destruct (collectDiscrepancies_entries R data collected Hcol e He) as [issues Hi].
    destruct (exceeds_cash_issue cfg R e issues Hc Hl Hex Hi)
      as (i & rest & -> & Hty & _ & Hsev).
    exists (i :: rest), i, rest. repeat split; auto.
    rewrite Hsorted.
    eapply Permutation_in; [symmetry; apply sortBySeverity_Permutation|].
    apply (collectDiscrepancies_In R data); auto; discriminate. }
  subst b. unfold calculateReconciliation.
  cbn [backendFinish br_discrepancies br_totalDiscrepancies br_status br_cashSales
       br_cardSales br_totalCashDifference].
  rewrite H1, H2, H3, H5, H6, H7.
  split; [|split; [|split; [|split]]].
  - intros bd Hbd. apply in_map_iff in Hbd as (e & <- & He).
    apply filter_In in He as [He Hex].
    destruct (Hflag e He Hex) as (issues & i & rest & _ & -> & Hty & Hin & _).
    exists (mkDiscrepancy e (i :: rest)), i.
    split; [exact Hin|]. split; [now left|]. repeat split. exact Hty.
  - rewrite Hsum. cbn [calculateSummaryMetrics s_totalDiscrepancies].
    rewrite Hds, Hsorted, sortBySeverity_length.
    now apply (exceeds_collected cfg R data).
  - destruct (0 <? length _)%nat eqn:El.
    + intros _. apply Nat.ltb_lt in El.
      apply filter_nonempty in El as (e & He & Hb).
      apply andb_true_iff in Hb as [Hex Hlarge].
      destruct (Hflag e He Hex) as (issues & i & rest & _ & -> & _ & Hin & Hsev).
      rewrite Hov. apply status_critical. rewrite Hds.
      apply List.Exists_exists. exists (mkDiscrepancy e (i :: rest)).
      split; [exact Hin|]. cbn [mkDiscrepancy d_overallSeverity].
      apply (calculateOverallSeverity_high _ i); [now left | now apply Hsev].
    + intros Hx.
      destruct (0 <? length
                  (List.filter (backendExceeds (CASH_DISCREPANCY_THRESHOLD cfg)) data))%nat;
        discriminate Hx.
  - rewrite Hov. intros Hbal. apply status_balanced_inv in Hbal as [Hnil _].
    rewrite Hds, Hsorted in Hnil.
    assert (Hnone : List.filter (backendExceeds (CASH_DISCREPANCY_THRESHOLD cfg)) data
                    = []).
    { destruct (List.filter _ data) as [|e k] eqn:E; [reflexivity|]. exfalso.
      assert (He : In e (List.filter
                           (backendExceeds (CASH_DISCREPANCY_THRESHOLD cfg)) data))
        by (rewrite E; now left).
      apply filter_In in He as [He Hex].
      destruct (Hflag e He Hex) as (issues & _ & _ & _ & _ & _ & Hin & _).
      rewrite Hsorted, Hnil in Hin. destruct Hin. }
    assert (Hlarge : (length (List.filter
                        (fun e => backendExceeds (CASH_DISCREPANCY_THRESHOLD cfg) e
                                  && backendExceeds (LARGE_DISCREPANCY_THRESHOLD cfg) e)
                        data) <= 0)%nat).
    { pose proof (filter_and_length
                    (backendExceeds (CASH_DISCREPANCY_THRESHOLD cfg))
                    (backendExceeds (LARGE_DISCREPANCY_THRESHOLD cfg)) data) as Hle.
      rewrite Hnone in Hle. exact Hle. }
    rewrite Hnone. cbn [length].
    destruct (0 <? length _)%nat eqn:El; [apply Nat.ltb_lt in El; lia | reflexivity].
  - rewrite Htotals. unfold calculateTotals.
    destruct (totals_fold data (totalsInit (length data)))
      as (T1 & T2 & _ & _ & _ & _ & T7 & _).
    cbn [totalsFinish t_cashSales t_cardSales t_totalCashDifference].
    rewrite T1, T2, T7. repeat split.
Qed.

(** *** Recalculating an edited row *)

Lemma or_zero_number (v : value) : exists q, JS.or v (Num 0) = Num q.
Proof.
  destruct v as [| |x]; unfold JS.or; simpl; eauto.
  destruct (Qeq_bool x 0); simpl; eauto.
Qed.


(** X21: on a row whose six amounts are numbers, [updateCalculatedFields]
    writes the derived fields [addSalesEntry] stores for the same amounts,
    with the same status. *)
Theorem updateCalculatedFields_agrees (cfg : config) (row : Z) (entryId : string)
    (rowData : entry) (o c k rr cd cl : Q) :
  row <> 1%Z ->
  rawFields rowData o c k rr cd cl ->
  let edited := updateCalculatedFields cfg row rowData in
  let added := addSalesEntry cfg entryId rowData in
  veq (expectedCash edited) (expectedCash added)
  /\ veq (cashDifference edited) (cashDifference added)
  /\ veq (totalSales edited) (totalSales added)
  /\ entry_status edited = entry_status added.
Proof.
  intros Hrow (Ho & Hc & Hk & Hrr & Hcd & Hcl) edited added. subst edited added.
  unfold updateCalculatedFields, addSalesEntry, expectedCashOf.
  apply Z.eqb_neq in Hrow. rewrite Hrow. cbv zeta.
  cbn [expectedCash cashDifference totalSales entry_status].
  rewrite Ho, Hc, Hk, Hrr, Hcd, Hcl.
  destruct (or_zero_numeric (Num o) I) as (o' & -> & Eo).
  destruct (or_zero_numeric (Num c) I) as (c' & -> & Ec).
  destruct (or_zero_numeric (Num k) I) as (k' & -> & Ek).
  destruct (or_zero_numeric (Num rr) I) as (rr' & -> & Err).
  destruct (or_zero_numeric (Num cd) I) as (cd' & -> & Ecd).
  destruct (or_zero_numeric (Num cl) I) as (cl' & -> & Ecl).
  cbn [numOf] in *. cbn [JS.add JS.sub JS.lift2 JS.abs JS.le veq].
  assert (Ee : o' + c' - rr' - cd' == o + c - rr - cd)
    by (rewrite Eo, Ec, Err, Ecd; reflexivity).
  assert (Ed : cl' - (o' + c' - rr' - cd') == cl - (o + c - rr - cd))
    by (rewrite Ee, Ecl; reflexivity).
  split; [exact Ee|]. split; [exact Ed|]. split; [now rewrite Ec, Ek|].
  assert (Eb : Qle_bool (Qabs (cl' - (o' + c' - rr' - cd')))
                        (CASH_DISCREPANCY_THRESHOLD cfg)
               = Qle_bool (Qabs (cl - (o + c - rr - cd)))
                          (CASH_DISCREPANCY_THRESHOLD cfg)).
  { destruct (Qle_bool (Qabs (cl - _)) _) eqn:E.
    - apply Qle_bool_iff. apply Qle_bool_iff in E. now rewrite Ed.
    - destruct (Qle_bool (Qabs (cl' - _)) _) eqn:E'; [|reflexivity].
      apply Qle_bool_iff in E'. rewrite Ed in E'. apply Qle_bool_iff in E'.
      congruence. }
  now rewrite Eb.
Qed.

(** *** Settings *)

Lemma settings_fold (rows : list (string * string)) (m : gmap string string)
    (key : string) :
  key <> "__proto__"%string ->
  fold_left settingsStep rows m !! key
  = match List.find (fun row => bool_decide (row.1 = key)) (rev rows) with
    | Some row => Some row.2
    | None => m !! key
    end.
Proof.
  intros Hkey. revert m. induction rows as [|row rows IH]; intros m; [reflexivity|].
  cbn [fold_left rev]. rewrite IH.
  assert (Hfind : forall l,
            List.find (fun row => bool_decide (row.1 = key)) (l ++ [row])
            = match List.find (fun row => bool_decide (row.1 = key)) l with
              | Some x => Some x
              | None => if bool_decide (row.1 = key) then Some row else None
              end).
  { clear. induction l as [|x l IH]; simpl; [reflexivity|].
    destruct (bool_decide (x.1 = key)); [reflexivity | exact IH]. }
  rewrite Hfind. destruct (List.find _ (rev rows)); [reflexivity|].
  unfold settingsStep. destruct (bool_decide (row.1 = "__proto__"%string)) eqn:Ep.
  - apply bool_decide_eq_true in Ep.
    rewrite bool_decide_eq_false_2 by congruence. reflexivity.
  - destruct (bool_decide (row.1 = key)) eqn:E.
    + apply bool_decide_eq_true in E. subst key. apply lookup_insert_eq.
    + apply bool_decide_eq_false in E. now apply lookup_insert_ne.
Qed.

Lemma settings_proto (rows : list (string * string)) (m : gmap string string) :
  m !! "__proto__"%string = None ->
  fold_left settingsStep rows m !! "__proto__"%string = None.
Proof.
  revert m. induction rows as [|row rows IH]; intros m Hm; [exact Hm|].
  cbn [fold_left]. apply IH. unfold settingsStep.
  destruct (bool_decide (row.1 = "__proto__"%string)) eqn:Ep; [exact Hm|].
  apply bool_decide_eq_false in Ep. now rewrite lookup_insert_ne.
Qed.

(** X22: [getSettings] never reads the header row; a key other than
    [__proto__] is present exactly when a row below the header begins with
    it, and its value is that of the last such row; [__proto__] is never
    present. *)
Theorem getSettings_last_row (header : string * string)
    (rows : list (string * string)) (key : string) :
  key <> "__proto__"%string ->
  getSettings (header :: rows) !! key
  = option_map snd (List.find (fun row => bool_decide (row.1 = key)) (rev rows))
  /\ (is_Some (getSettings (header :: rows) !! key) <-> In key (map fst rows))
  /\ (forall (v : string) (later : list (string * string)),
       ~ In key (map fst later) ->
       getSettings (header :: rows ++ (key, v) :: later) !! key = Some v)
  /\ getSettings (header :: rows) !! "__proto__"%string = None.
Proof.
  intros Hkey.
  assert (Hget : forall l,
            getSettings (header :: l) !! key
            = option_map snd
                (List.find (fun row => bool_decide (row.1 = key)) (rev l))).
  { intros l. unfold getSettings. cbn [tail]. rewrite settings_fold by exact Hkey.
    destruct (List.find _ (rev l)); [reflexivity | apply lookup_empty]. }
  split; [apply Hget|]. split; [|split].
  - rewrite Hget. split.
    + destruct (List.find _ (rev rows)) as [row|] eqn:E; [|intros [x Hx]; discriminate].
      intros _. apply find_some in E as [Hin Hk].
      apply bool_decide_eq_true in Hk. apply in_rev in Hin.
      apply in_map_iff. exists row. auto.
    + intros Hin. apply in_map_iff in Hin as (row & Hk & Hin).
      destruct (List.find _ (rev rows)) as [found|] eqn:E; [simpl; eauto|].
      exfalso. apply in_rev in Hin.
      pose proof (find_none _ _ E row Hin) as Hno.
      apply bool_decide_eq_false in Hno. contradiction.
  - intros v later Hlater. rewrite Hget, rev_app_distr. cbn [rev].
    rewrite <- app_assoc.
    assert (Hnone : forall l tl : list (string * string),
              ~ In key (map fst l) ->
              List.find (fun row => bool_decide (row.1 = key)) (rev l ++ tl)
              = List.find (fun row => bool_decide (row.1 = key)) tl).
    { clear. induction l as [|x l IH]; intros tl Hl; [reflexivity|].
      cbn [rev]. rewrite <- app_assoc. rewrite IH.
      - cbn [List.app List.find].
        destruct (bool_decide (x.1 = key)) eqn:E; [|reflexivity].
        apply bool_decide_eq_true in E. exfalso. apply Hl. left. exact E.
      - intros Hin. apply Hl. now right. }
    rewrite Hnone by exact Hlater. cbn [List.app List.find fst].
    rewrite bool_decide_eq_true_2 by reflexivity. reflexivity.
  - unfold getSettings. cbn [tail]. apply settings_proto, lookup_empty.
Qed.

End BackendProperties.

(** ** The browser application *)

Section ApplicationProperties.
Context `{Host} `{DateHost}.

Lemma formErrors_accepted (data : entry) :
  validateSalesFormData data = true ->
  JS.truthyStr (date data) = true /\ JS.truthyStr (registerNumber data) = true
  /\ JS.lt (openingCash data) (Num 0) = false
  /\ JS.lt (cashSales data) (Num 0) = false
  /\ JS.lt (cardSales data) (Num 0) = false
  /\ JS.lt (closingCash data) (Num 0) = false
  /\ JS.gt (JS.abs (JS.sub (closingCash data) (expectedCashOf data))) (Num 10) = false.
Proof.
  unfold validateSalesFormData, formErrors.
  destruct (JS.truthyStr (date data)); [|discriminate].
  destruct (JS.truthyStr (registerNumber data)); [|discriminate].
  destruct (JS.lt (openingCash data) (Num 0)); [discriminate|].
  destruct (JS.lt (cashSales data) (Num 0)); [discriminate|].
  destruct (JS.lt (cardSales data) (Num 0)); [discriminate|].
  destruct (JS.lt (closingCash data) (Num 0)); [discriminate|].
  cbn [negb List.app].
  destruct (JS.gt (JS.abs (JS.sub (closingCash data) (expectedCashOf data))) (Num 10))
    eqn:E; [|repeat split].
  apply gt_isNum in E as [E _].
  destruct (JS.abs (JS.sub (closingCash data) (expectedCashOf data)));
    try contradiction. discriminate.
Qed.

Lemma truthyStr_nonempty (s : string) : JS.truthyStr (Some s) = true -> s <> EmptyString.
Proof. destruct s; simpl; [discriminate | discriminate]. Qed.

(** X23: when a submitted form is rejected nothing is stored; when it is
    accepted exactly one entry is appended,
    the collected form with its derived fields: its date and register are
    not empty, its opening cash, cash sales, card sales and closing cash
    are not negative, and its absolute cash difference is at most 10.  It
    is stored as [balanced] only when that difference is at most 5. *)
Theorem form_submission (i d r : string) (o c k rr cd cl : value) (a : app) :
  let form := collectSalesFormData i d r o c k rr cd cl in
  (validateSalesFormData form = false -> handleSalesFormSubmission form a = Some a)
  /\ (validateSalesFormData form = true ->
      exists e q,
        handleSalesFormSubmission form a
        = Some {| salesData := salesData a ++ [e];
                  reconciliation := reconciliation a |}
        /\ e = withDerived form
        /\ cashDifference e = Num q /\ Qabs q <= 10
        /\ (entry_status e = Some balanced <-> Qabs q <= 5)
        /\ d <> EmptyString /\ r <> EmptyString
        /\ 0 <= numOf (openingCash e) /\ 0 <= numOf (cashSales e)
        /\ 0 <= numOf (cardSales e) /\ 0 <= numOf (closingCash e)).
Proof.
  intros form. split.
  - intros Hrej. unfold handleSalesFormSubmission. now rewrite Hrej.
  - intros Hacc. unfold handleSalesFormSubmission. rewrite Hacc.
    rewrite saveSalesEntry_returns.
    destruct (formErrors_accepted form Hacc) as (Hd & Hr & Ho & Hc & Hk & Hcl & Hdiff).
    subst form. unfold withDerived, expectedCashOf in *.
    cbn [collectSalesFormData date registerNumber openingCash cashSales cardSales
         returnsRefunds cashDrops closingCash cashDifference entry_status] in *.
    destruct (or_zero_number o) as (o' & Eo).
    destruct (or_zero_number c) as (c' & Ec).
    destruct (or_zero_number k) as (k' & Ek).
    destruct (or_zero_number rr) as (rr' & Err).
    destruct (or_zero_number cd) as (cd' & Ecd).
    destruct (or_zero_number cl) as (cl' & Ecl).
    rewrite Eo, Ec, Ek, Err, Ecd, Ecl in *.
    cbn [JS.add JS.sub JS.lift2 JS.abs JS.gt JS.lt JS.le numOf] in *.
    apply Qlt_bool_false_iff in Ho, Hc, Hk, Hcl, Hdiff.
    eexists _, _. split; [reflexivity|]. split; [reflexivity|].
    split; [reflexivity|]. split; [exact Hdiff|]. split.
    + destruct (Qle_bool (Qabs (cl' - (o' + c' - rr' - cd'))) 5) eqn:E.
      * apply Qle_bool_iff in E. tauto.
      * split; [discriminate|]. intros Hle. apply Qle_bool_iff in Hle. congruence.
    + repeat split; auto using truthyStr_nonempty.
Qed.

(** *** Deleting and editing *)

Lemma filter_all {A} (f : A -> bool) (l : list A) :
  Forall (fun x => f x = true) l -> List.filter f l = l.
Proof.
  induction 1 as [|x l Hx _ IH]; simpl; [reflexivity|]. now rewrite Hx, IH.
Qed.

Lemma filter_is_sublist {A} (f : A -> bool) (l : list A) : sublist (List.filter f l) l.
Proof.
  induction l as [|x l IH]; simpl; [constructor|].
  destruct (f x); now constructor.
Qed.

Lemma filter_twice {A} (f : A -> bool) (l : list A) :
  List.filter f (List.filter f l) = List.filter f l.
Proof.
  apply filter_all, List.Forall_forall. intros x Hx. now apply filter_In in Hx.
Qed.

(** X24: [deleteEntry] changes nothing when the confirmation is declined;
    otherwise it removes every entry with the identifier and keeps the
    others in their order, and deleting again changes nothing more.  The
    engine is never touched. *)
Theorem deleteEntry_removes (entryId : string) (confirm answer : bool) (a : app) :
  let a' := deleteEntry entryId confirm answer a in
  (confirm = true -> answer = false -> a' = a)
  /\ (confirm = false \/ answer = true ->
      (forall e, In e (salesData a') <-> In e (salesData a) /\ entry_id e <> entryId)
      /\ sublist (salesData a') (salesData a)
      /\ deleteEntry entryId confirm answer a' = a')
  /\ reconciliation a' = reconciliation a.
Proof.
  intros a'. subst a'. unfold deleteEntry. split; [|split].
  - intros -> ->. reflexivity.
  - intros Hgo.
    assert (E : confirm && negb answer = false).
    { destruct Hgo as [-> | ->]; [reflexivity | apply andb_false_r]. }
    rewrite E. cbn [salesData reconciliation]. split; [|split].
    + intros e. rewrite filter_In, negb_true_iff, bool_decide_eq_false. tauto.
    + apply filter_is_sublist.
    + now rewrite filter_twice.
  - destruct (confirm && negb answer); reflexivity.
Qed.

(** X25: storing an entry under an identifier no stored entry carries and
    then deleting that identifier gives back the application as it was. *)
Theorem save_then_delete (data : entry) (a a' : app) :
  Forall (fun e => entry_id e <> entry_id data) (salesData a) ->
  saveSalesEntry data a = Some a' ->
  deleteEntry (entry_id data) false false a' = a.
Proof.
  intros Hfresh. rewrite saveSalesEntry_returns. intros [= <-].
  unfold deleteEntry. cbn [andb salesData reconciliation].
  rewrite List.filter_app. cbn [List.filter withDerived entry_id].
  rewrite bool_decide_eq_true_2 by reflexivity. cbn [negb].
  rewrite app_nil_r, filter_all; [now destruct a|].
  eapply List.Forall_impl; [|exact Hfresh]. simpl. intros e He.
  now rewrite bool_decide_eq_false_2.
Qed.

(** X26: [editEntry] loads the first entry with the identifier and removes
    every entry with it, without asking; when there is none the application
    is left as it is. *)
Theorem editEntry_loads_first (entryId : string) (a : app) :
  let '(loaded, a') := editEntry entryId a in
  (loaded = None
   <-> Forall (fun e => entry_id e <> entryId) (salesData a))
  /\ (loaded = None -> a' = a)
  /\ (forall e, loaded = Some e ->
        exists before after,
          salesData a = before ++ e :: after
          /\ entry_id e = entryId
          /\ Forall (fun x => entry_id x <> entryId) before
          /\ salesData a'
             = before
                 ++ List.filter (fun x => negb (bool_decide (entry_id x = entryId)))
                                after
          /\ Forall (fun x => entry_id x <> entryId) (salesData a')).
Proof.
  unfold editEntry.
  destruct (List.find _ (salesData a)) as [e|] eqn:E.
  - split; [|split; [discriminate|]].
    + split; [discriminate|]. intros Hall. exfalso.
      apply find_some in E as [Hin Hid]. apply bool_decide_eq_true in Hid.
      rewrite List.Forall_forall in Hall. now apply (Hall e).
    + intros x [= <-]. unfold deleteEntry. cbn [andb salesData].
      revert E. generalize (salesData a) as l.
      induction l as [|y l IH]; [discriminate|]. cbn [List.find List.filter].
      destruct (bool_decide (entry_id y = entryId)) eqn:Ey.
      * intros [= ->]. apply bool_decide_eq_true in Ey.
        exists [], l. cbn [negb List.app]. repeat split; auto.
        apply List.Forall_forall. intros z Hz.
        apply filter_In in Hz as [_ Hz]. apply negb_true_iff in Hz.
        now apply bool_decide_eq_false in Hz.
      * intros Hfind. apply bool_decide_eq_false in Ey.
        destruct (IH Hfind) as (before & after & -> & Hid & Hb & Hf & Hall).
        exists (y :: before), after. cbn [negb List.app].
        rewrite Hf. repeat split; auto.
        constructor; [exact Ey|]. rewrite <- Hf. exact Hall.
  - split; [|split; [reflexivity | discriminate]].
    split; [|reflexivity]. intros _. apply List.Forall_forall. intros e He.
    pose proof (find_none _ _ E e He) as Hno.
    now apply bool_decide_eq_false in Hno.
Qed.

(** *** Flagged entries *)

Lemma flaggedLineOf_raises (e : entry) :
  isFlagged e = true ->
  (flaggedLineOf e = None
   <-> expectedCash e = Undefined \/ closingCash e = Undefined).
Proof.
  unfold isFlagged, flaggedLineOf. intros Hf.
  apply gt_isNum in Hf as [Hf _].
  destruct (cashDifference e) as [| |q]; try contradiction.
  cbn [toFixedV mbind option_bind].
  destruct (expectedCash e), (closingCash e); cbn; split;
    try discriminate; try tauto; intros [?|?]; discriminate.
Qed.

(** X27: [flagDiscrepancies] raises a [TypeError] exactly when an entry
    whose absolute cash difference exceeds 5 has no [expectedCash] or no
    [closingCash]; otherwise it shows one line per such entry. *)
Theorem flagDiscrepancies_raises (a : app) :
  (flagDiscrepancies a = None
   <-> exists e, In e (salesData a) /\ isFlagged e = true
         /\ (expectedCash e = Undefined \/ closingCash e = Undefined))
  /\ forall lines, flagDiscrepancies a = Some lines ->
       length lines = length (List.filter isFlagged (salesData a)).
Proof.
  unfold flagDiscrepancies. split.
  - rewrite mapM_raises. split.
    + intros (e & He & Hnone). apply filter_In in He as [He Hf].
      exists e. split; [exact He|]. split; [exact Hf|].
      now apply flaggedLineOf_raises.
    + intros (e & He & Hf & Hu). exists e. split; [now apply filter_In|].
      now apply flaggedLineOf_raises.
  - intros lines Hl.
    now destruct (mapM_all flaggedLineOf (fun _ => True) _ _ (fun _ _ _ => I) Hl).
Qed.

(** X28: on entries stored by [saveSalesEntry] from numeric amounts,
    [flagDiscrepancies] never fails, and it shows exactly the entries
    stored with status [discrepancy]. *)
Theorem flagDiscrepancies_stored (a : app) :
  Forall (fun e => exists data o c k rr cd cl,
                     rawFields data o c k rr cd cl /\ e = withDerived data)
         (salesData a) ->
  (forall e, In e (salesData a) ->
     (isFlagged e = true <-> entry_status e = Some discrepancy))
  /\ exists lines,
       flagDiscrepancies a = Some lines
       /\ length lines
          = length (List.filter
                      (fun e => bool_decide (entry_status e = Some discrepancy))
                      (salesData a)).
Proof.
  intros Hall.
  assert (Hent : forall e, In e (salesData a) ->
            (isFlagged e = true <-> entry_status e = Some discrepancy)
            /\ expectedCash e <> Undefined /\ closingCash e <> Undefined).
  { intros e He. rewrite List.Forall_forall in Hall.
    destruct (Hall e He) as (data & o & c & k & rr & cd & cl & Hraw & ->).
    destruct Hraw as (Ho & Hc & Hk & Hrr & Hcd & Hcl).
    unfold isFlagged, withDerived, expectedCashOf.
    cbn [cashDifference entry_status expectedCash closingCash].
    rewrite Ho, Hc, Hrr, Hcd, Hcl.
    cbn [JS.add JS.sub JS.lift2 JS.abs JS.gt JS.lt JS.le].
    split; [|split; discriminate].
    unfold Qlt_bool. destruct (Qle_bool _ 5); simpl; split; congruence. }
  split; [intros e He; now apply Hent|].
  destruct (flagDiscrepancies a) as [lines|] eqn:E.
  - exists lines. split; [reflexivity|].
    unfold flagDiscrepancies in E.
    destruct (mapM_all flaggedLineOf (fun _ => True) _ _ (fun _ _ _ => I) E)
      as [-> _].
    f_equal. apply filter_ext_in. intros e He.
    destruct (Hent e He) as [Hiff _].
    destruct (isFlagged e) eqn:Ef.
    + symmetry. apply bool_decide_eq_true. now apply Hiff.
    + symmetry. apply bool_decide_eq_false. intros Hs. apply Hiff in Hs. discriminate.
  - exfalso. unfold flagDiscrepancies in E. apply mapM_raises in E as (e & He & Hnone).
    apply filter_In in He as [He Hf].
    apply (flaggedLineOf_raises e Hf) in Hnone.
    destruct (Hent e He) as (_ & He1 & He2). tauto.
Qed.

(** *** Report data *)

(** X29: [generateReportData] keeps, in their order, the entries whose
    date lies between the two bounds as strings, a missing bound being
    today's date: with no bound given these are the entries dated today.
    When the lower bound is greater than the upper one the report is
    empty, with a zero sales total and a zero average; flagged entries
    never exceed the entries counted. *)
Theorem generateReportData_range (now : Z) (type : string)
    (dateFrom dateTo : option string) (a : app) :
  let rep := generateReportData now type dateFrom dateTo a in
  sublist (rd_entries rep) (salesData a)
  /\ (forall e, In e (rd_entries rep)
        <-> In e (salesData a)
            /\ exists d, date e = Some d
                 /\ String.leb (rd_from rep) d = true
                 /\ String.leb d (rd_to rep) = true)
  /\ rs_totalEntries (rd_summary rep) = length (rd_entries rep)
  /\ (rs_totalDiscrepancies (rd_summary rep) <= rs_totalEntries (rd_summary rep))%nat
  /\ (dateFrom = None -> dateTo = None ->
      forall e, In e (rd_entries rep)
        <-> In e (salesData a) /\ date e = Some (isoDate now))
  /\ (String.leb (rd_from rep) (rd_to rep) = false ->
      rd_entries rep = []
      /\ rs_totalSales (rd_summary rep) = Num 0
      /\ rs_avgDiscrepancy (rd_summary rep) = Num 0).
Proof.
  intros rep. subst rep. unfold generateReportData.
  cbn [rd_entries rd_from rd_to rd_summary rs_totalEntries rs_totalDiscrepancies
       rs_totalSales rs_avgDiscrepancy].
  set (fromDate := orToday dateFrom (isoDate now)).
  set (toDate := orToday dateTo (isoDate now)).
  assert (Hin : forall e,
            In e (List.filter
                    (fun e => dateGe (date e) fromDate && dateLeStr (date e) toDate)
                    (salesData a))
            <-> In e (salesData a)
                /\ exists d, date e = Some d /\ String.leb fromDate d = true
                     /\ String.leb d toDate = true).
  { intros e. rewrite filter_In, andb_true_iff. unfold dateGe, dateLeStr.
    destruct (date e) as [d|].
    - split.
      + intros (He & H1 & H2). split; [exact He|]. exists d. auto.
      + intros (He & d' & [= <-] & H1 & H2). auto.
    - split; [intros (_ & Hx & _); discriminate|].
      intros (_ & d' & Hx & _). discriminate. }
  split; [apply filter_is_sublist|]. split; [exact Hin|]. split; [reflexivity|].
  split; [apply filter_length_le|]. split.
  - intros -> -> e. rewrite Hin. subst fromDate toDate. cbn [orToday JS.truthyStr].
    split.
    + intros (He & d & Hd & H1 & H2). split; [exact He|].
      rewrite Hd. f_equal. now apply String.leb_antisym.
    + intros (He & Hd). split; [exact He|]. exists (isoDate now).
      split; [exact Hd|].
      destruct (String.leb_total (isoDate now) (isoDate now)); auto.
  - intros Hinv.
    assert (Hnil : List.filter
                     (fun e => dateGe (date e) fromDate && dateLeStr (date e) toDate)
                     (salesData a) = []).
    { destruct (List.filter _ (salesData a)) as [|e l] eqn:E; [reflexivity|].
      exfalso.
      destruct (proj1 (Hin e) (or_introl eq_refl)) as (_ & d & _ & H1 & H2).
      rewrite (string_leb_trans _ _ _ H1 H2) in Hinv. discriminate. }
    rewrite Hnil. repeat split.
Qed.

End ApplicationProperties.

(** ** The further properties on the sample data *)

Lemma findDiscrepancies_sorted_stable_witness :
  exists ds collected,
    findDiscrepancies defaultRules
      [withDerived returnsDay; withDerived scenarioA; withDerived scenarioB] = Some ds
    /\ collectDiscrepancies defaultRules
         [withDerived returnsDay; withDerived scenarioA; withDerived scenarioB]
       = Some collected
    /\ Permutation ds collected
    /\ StronglySorted
         (fun a b => (severityOrder (d_overallSeverity b)
                      <= severityOrder (d_overallSeverity a))%Z) ds.
Proof.
  destruct (findDiscrepancies defaultRules
              [withDerived returnsDay; withDerived scenarioA; withDerived scenarioB])
    as [ds|] eqn:E; [|vm_compute in E; discriminate E].
  destruct (findDiscrepancies_sorted_stable _ _ _ E) as (collected & Hc & _ & Hp & Hs & _).
  exists ds, collected. auto.
Defined.

Lemma findDiscrepancies_records_witness :
  exists ds,
    findDiscrepancies defaultRules [withDerived scenarioA; withDerived scenarioB]
    = Some ds
    /\ (length ds <= 2)%nat.
Proof.
  destruct (findDiscrepancies defaultRules [withDerived scenarioA; withDerived scenarioB])
    as [ds|] eqn:E; [|vm_compute in E; discriminate E].
  destruct (findDiscrepancies_records _ _ _ E) as [_ Hlen].
  exists ds. auto.
Defined.

Lemma run_accuracy_bounds_witness :
  exists r q,
    reconcile defaultRules 0 [withDerived scenarioA; withDerived scenarioB] = Some r
    /\ s_reconciliationAccuracy (r_summary r) = Num q /\ 0 <= q /\ q <= 100.
Proof.
  destruct (reconcile defaultRules 0 [withDerived scenarioA; withDerived scenarioB])
    as [r|] eqn:E; [|vm_compute in E; discriminate E].
  destruct (run_accuracy_bounds _ _ _ _ E) as (_ & _ & q & Hq & H0 & H100 & _).
  exists r, q. auto.
Defined.

Lemma trends_window_witness :
  let old := {| h_timestamp := 0; h_summary := emptySummary;
                h_overall := emptyOverall; h_totalEntries := 0 |} in
  let t := getReconciliationTrends (50 * msPerDay) 30 (newEngine [old]) in
  let t' := getReconciliationTrends (50 * msPerDay) 90 (newEngine [old]) in
  sublist (discrepancyTrend t) (discrepancyTrend t').
Proof.
  intros old t t'.
  destruct (trends_window (50 * msPerDay) 30 90 (newEngine [old]))
    as (_ & _ & _ & _ & Hsub).
  - lia.
  - destruct Hsub as (_ & Hd & _); [vm_compute; discriminate | exact Hd].
Defined.

Lemma trends_after_run_witness :
  let day100 := (100 * msPerDay)%Z in
  exists r eng' discrepancies,
    runFullReconciliation day100 (day100 + 5) [withDerived scenarioB] (newEngine [])
    = Some (r, eng')
    /\ discrepancyTrend (getReconciliationTrends (day100 + 10) 30 eng')
       = discrepancies ++ [ {| p_date := isoDate day100;
                               p_value := length (r_discrepancies r) |} ].
Proof.
  intros day100.
  destruct (runFullReconciliation day100 (day100 + 5) [withDerived scenarioB]
              (newEngine []))
    as [[r eng']|] eqn:E; [|vm_compute in E; discriminate E].
  destruct (trends_after_run day100 (day100 + 5) (day100 + 10) 30
              (cutoffDate (day100 + 10) 30) _ _ _ _ E)
    as (accuracies & discrepancies & variances & _ & Hd & _).
  - vm_compute. discriminate.
  - vm_compute. reflexivity.
  - vm_compute. discriminate.
  - exists r, eng', discrepancies. auto.
Defined.

Lemma generateActionItems_order_witness :
  let r := sampleResults 1 [sampleDiscrepancy "1" (Num (-60)) high] [sampleGap]
                         (Num (-60)) in
  exists items highs,
    generateActionItems 0 r = Some items
    /\ items = highs ++ mediumItems 0 (s_reconciliationAccuracy (r_summary r))
                     ++ lowItems 0 (r_validationErrors r)
    /\ length highs = 1%nat.
Proof.
  intros r.
  destruct (generateActionItems 0 r) as [items|] eqn:E; [|vm_compute in E; discriminate E].
  destruct (generateActionItems_order 0 r items E) as (highs & _ & Hi & Hl & _).
  exists items, highs. auto.
Defined.

Lemma report_after_run_witness :
  exists r eng' rep,
    generateReconciliationReport 0 5 10 [negativeCardSales] "summary" (newEngine [])
    = Some (rep, eng')
    /\ lastResults eng' = Some r.
Proof.
  destruct (report_after_run 0 5 10 [negativeCardSales] "summary" (newEngine []))
    as (r & eng' & rep & Hrep & _ & Hlast & _).
  - vm_compute. discriminate.
  - exists r, eng', rep. auto.
Defined.

Lemma backend_engine_agreement_witness :
  exists r,
    reconcile defaultRules 0 [withDerived scenarioA; withDerived scenarioB] = Some r
    /\ (br_status (calculateReconciliation CONFIG 0
                     [withDerived scenarioA; withDerived scenarioB]) = critical
        -> o_status (r_overall r) = critical).
Proof.
  destruct (reconcile defaultRules 0 [withDerived scenarioA; withDerived scenarioB])
    as [r|] eqn:E; [|vm_compute in E; discriminate E].
  destruct (backend_engine_agreement CONFIG defaultRules 0 0 _ r eq_refl eq_refl E)
    as (_ & _ & Hcrit & _).
  exists r. auto.
Defined.


Lemma updateCalculatedFields_agrees_witness :
  entry_status (updateCalculatedFields CONFIG 2 scenarioB)
  = entry_status (addSalesEntry CONFIG "2" scenarioB).
Proof.
  destruct (updateCalculatedFields_agrees CONFIG 2 "2" scenarioB 200 150 300 10 100 180)
    as (_ & _ & _ & Hs).
  - discriminate.
  - repeat split.
  - exact Hs.
Defined.

Lemma getSettings_last_row_witness :
  getSettings [("Setting", "Value"); ("Currency", "USD"); ("Currency", "EUR")]%string
    !! "Currency"%string
  = Some "EUR"%string.
Proof.
  destruct (getSettings_last_row ("Setting", "Value")%string
              [("Currency", "USD")%string] "Currency"%string)
    as (_ & _ & Hlast & _).
  - discriminate.
  - apply (Hlast "EUR"%string []). simpl. tauto.
Defined.

Lemma save_then_delete_witness :
  let a := {| salesData := [withDerived scenarioA]; reconciliation := None |} in
  deleteEntry "2" false false
    {| salesData := [withDerived scenarioA; withDerived scenarioB];
       reconciliation := None |}
  = a.
Proof.
  intros a. apply (save_then_delete scenarioB a).
  - repeat constructor. simpl. discriminate.
  - reflexivity.
Defined.

Lemma flagDiscrepancies_stored_witness :
  let a := {| salesData := [withDerived scenarioA; withDerived scenarioB];
              reconciliation := None |} in
  exists lines, flagDiscrepancies a = Some lines /\ length lines = 1%nat.
Proof.
  intros a. destruct (flagDiscrepancies_stored a) as (_ & lines & Hl & Hn).
  - constructor; [|constructor; [|constructor]].
    + exists scenarioA, 200, 150, 300, 10, 100, 240. split; [repeat split | reflexivity].
    + exists scenarioB, 200, 150, 300, 10, 100, 180. split; [repeat split | reflexivity].
  - exists lines. split; [exact Hl|]. rewrite Hn. vm_compute. reflexivity.
Defined.


Lemma calculateOverallSeverity_max_witness :
  exists i,
    In i (negativeCheck negativeCardSales)
    /\ i_severity i = calculateOverallSeverity (negativeCheck negativeCardSales).
Proof.
  destruct (calculateOverallSeverity_max (negativeCheck negativeCardSales)) as [Hmax _].
  apply Hmax. vm_compute. discriminate.
Defined.

Lemma getReportPeriod_bounds_witness :
  exists first final,
    getReportPeriod [peakDay; idleDay] = Some (first, final)
    /\ dateLe first (date peakDay) = true /\ dateLe (date peakDay) final = true.
Proof.
  destruct (getReportPeriod_bounds [peakDay; idleDay]) as [_ Hb].
  destruct Hb as (first & final & Hp & _ & _ & Hall); [discriminate|].
  exists first, final. split; [exact Hp|]. apply Hall. now left.
Defined.

Lemma form_submission_witness :
  let a := {| salesData := []; reconciliation := Some (newEngine []) |} in
  exists e q,
    handleSalesFormSubmission
      (collectSalesFormData "1" "2024-01-01" "REG001" (Num 200) (Num 150) (Num 300)
                            NaN (Num 100) (Num 258)) a
    = Some {| salesData := [e]; reconciliation := reconciliation a |}
    /\ cashDifference e = Num q /\ Qabs q <= 10
    /\ (entry_status e = Some balanced <-> Qabs q <= 5).
Proof.
  intros a.
  destruct (form_submission "1" "2024-01-01" "REG001" (Num 200) (Num 150) (Num 300)
                            NaN (Num 100) (Num 258) a) as [_ Hacc].
  destruct Hacc as (e & q & Hh & _ & Hq & Hle & Hst & _); [vm_compute; reflexivity|].
  exists e, q. auto.
Defined.

Lemma deleteEntry_removes_witness :
  let a := {| salesData := [withDerived scenarioA; withDerived scenarioB];
              reconciliation := None |} in
  (In (withDerived scenarioB) (salesData (deleteEntry "1" true true a))
   <-> In (withDerived scenarioB) (salesData a)
       /\ entry_id (withDerived scenarioB) <> "1"%string)
  /\ sublist (salesData (deleteEntry "1" true true a)) (salesData a).
Proof.
  intros a.
  destruct (deleteEntry_removes "1" true true a) as (_ & Hgo & _).
  destruct Hgo as (Hin & Hsub & _); [right; reflexivity|].
  split; [apply Hin | exact Hsub].
Defined.

Lemma generateReportData_range_witness :
  let a := {| salesData := [withDerived scenarioA; peakDay]; reconciliation := None |} in
  rd_entries (generateReportData 0 "daily" (Some "2024-01-07"%string)
                                 (Some "2024-01-01"%string) a) = [].
Proof.
  intros a.
  destruct (generateReportData_range 0 "daily" (Some "2024-01-07"%string)
              (Some "2024-01-01"%string) a) as (_ & _ & _ & _ & _ & Hinv).
  destruct Hinv as (Hnil & _); [vm_compute; reflexivity | exact Hnil].
Defined.
